(** * Roundtable: the analysis orchestration engine

    A shallow embedding of [app/services/ai_backends.py],
    [app/services/analysis_service.py], [app/services/persona_service.py]
    (the lookup used by the engine), [app/models/models.py] and
    [app/core/config.py], with the properties of the orchestration engine
    proved over it.

    Python values are modelled as follows: [str] as [string] (one element
    of the string for one character of the [str]), [int] as [Z],
    a JSON document (what [json.loads] returns and what a JSON column holds)
    as [json], with [JNull] standing for Python's [None]; a database table as
    the list of its rows in insertion order; an ORM object as the index of its
    row.  Code that raises lives in a state-and-exception monad; the
    external process is an oracle giving the behaviour of each spawn. *)

From Stdlib Require Import ZArith Lia.
From stdpp Require Import base strings list.

Set Warnings "-register-all".

Open Scope Z_scope.
Open Scope string_scope.
Open Scope list_scope.

(** ** Python values *)

Inductive json : Type :=
| JNull
| JBool (b : bool)
| JNum (n : Z)
| JStr (s : string)
| JArr (items : list json)
| JObj (fields : list (string * json)).

(** [type(v).__name__], as it appears in an [AttributeError] message. *)
Definition type_name (v : json) : string :=
  match v with
  | JNull => "NoneType"
  | JBool _ => "bool"
  | JNum _ => "int"
  | JStr _ => "str"
  | JArr _ => "list"
  | JObj _ => "dict"
  end.

Fixpoint assoc_get (key : string) (fields : list (string * json)) : option json :=
  match fields with
  | [] => None
  | (k, v) :: rest => if String.eqb k key then Some v else assoc_get key rest
  end.

(** ** Exceptions *)

Inductive exc_class : Type :=
| Exception
| ValueError
| RuntimeError
| NotImplementedError
| AttributeError
| OSError
| FileNotFoundError
| JSONDecodeError
| UnicodeDecodeError
| TimeoutError.

Global Instance exc_class_eq_dec : EqDecision exc_class.
Proof. solve_decision. Defined.

(** The base classes of a class, nearest first (its method resolution order
    below [BaseException]). *)
Definition mro (c : exc_class) : list exc_class :=
  match c with
  | Exception => [Exception]
  | ValueError => [ValueError; Exception]
  | RuntimeError => [RuntimeError; Exception]
  | NotImplementedError => [NotImplementedError; RuntimeError; Exception]
  | AttributeError => [AttributeError; Exception]
  | OSError => [OSError; Exception]
  | FileNotFoundError => [FileNotFoundError; OSError; Exception]
  | JSONDecodeError => [JSONDecodeError; ValueError; Exception]
  | UnicodeDecodeError => [UnicodeDecodeError; ValueError; Exception]
  | TimeoutError => [TimeoutError; Exception]
  end.

Record py_exception : Type := mk_exc { exc_cls : exc_class; exc_msg : string }.

Definition isinstance (e : py_exception) (c : exc_class) : bool :=
  bool_decide (c ∈ mro (exc_cls e)).

(** [str(e)] for an exception built from one message. *)
Definition str_exc (e : py_exception) : string := exc_msg e.

(** ** app/core/config.py *)

Record Settings : Type := {
  DEFAULT_AI_BACKEND : string;
  AI_TIMEOUT : Z;
  AI_RETRY_ATTEMPTS : Z
}.

Definition settings : Settings :=
  {| DEFAULT_AI_BACKEND := "claude"; AI_TIMEOUT := 120; AI_RETRY_ATTEMPTS := 3 |}.

(** ** app/models/models.py

    The columns the engine reads or writes; the creation and update
    timestamps, filled in by the database, are left out. *)

Module PersonaProfile.
Record t : Type := {
  id : string;
  name : string;
  role : string;
  is_system : bool;
  is_custom : bool;
  created_by_email : option string;
  profile_json : json
}.
End PersonaProfile.

Module Session.
Record t : Type := {
  id : string;
  user_email : string;
  file_name : string;
  selected_persona_ids : list string;
  status : string
}.

Definition set_status (v : string) (s : t) : t :=
  {| id := id s; user_email := user_email s; file_name := file_name s;
     selected_persona_ids := selected_persona_ids s; status := v |}.
End Session.

Module Analysis.
Record t : Type := {
  session_id : string;
  persona_id : string;
  status : string;
  score_json : json;
  top_issues_json : json;
  rewritten_suggestions_json : json;
  error_message : option string;
  completed_at : option Z
}.

(** [Analysis(session_id=..., persona_id=..., status=...)]: the nullable
    columns start out empty. *)
Definition new (sid pid st : string) : t :=
  {| session_id := sid; persona_id := pid; status := st;
     score_json := JNull; top_issues_json := JNull;
     rewritten_suggestions_json := JNull;
     error_message := None; completed_at := None |}.

Definition set_status (v : string) (a : t) : t :=
  {| session_id := session_id a; persona_id := persona_id a; status := v;
     score_json := score_json a; top_issues_json := top_issues_json a;
     rewritten_suggestions_json := rewritten_suggestions_json a;
     error_message := error_message a; completed_at := completed_at a |}.

Definition set_score_json (v : json) (a : t) : t :=
  {| session_id := session_id a; persona_id := persona_id a; status := status a;
     score_json := v; top_issues_json := top_issues_json a;
     rewritten_suggestions_json := rewritten_suggestions_json a;
     error_message := error_message a; completed_at := completed_at a |}.

Definition set_top_issues_json (v : json) (a : t) : t :=
  {| session_id := session_id a; persona_id := persona_id a; status := status a;
     score_json := score_json a; top_issues_json := v;
     rewritten_suggestions_json := rewritten_suggestions_json a;
     error_message := error_message a; completed_at := completed_at a |}.

Definition set_rewritten_suggestions_json (v : json) (a : t) : t :=
  {| session_id := session_id a; persona_id := persona_id a; status := status a;
     score_json := score_json a; top_issues_json := top_issues_json a;
     rewritten_suggestions_json := v;
     error_message := error_message a; completed_at := completed_at a |}.

Definition set_error_message (v : option string) (a : t) : t :=
  {| session_id := session_id a; persona_id := persona_id a; status := status a;
     score_json := score_json a; top_issues_json := top_issues_json a;
     rewritten_suggestions_json := rewritten_suggestions_json a;
     error_message := v; completed_at := completed_at a |}.
End Analysis.

Record database : Type := {
  sessions : list Session.t;
  persona_profiles : list PersonaProfile.t;
  analyses : list Analysis.t
}.

(** ** The world outside the engine *)

(** A piece of an f-string: literal text, an interpolated [str], an
    interpolated value (formatted by [str()]), or [json.dumps(v, indent=2)]. *)
Inductive fragment : Type :=
| Lit (s : string)
| Text (s : string)
| Fmt (v : json)
| Dumps (v : json).

(** What the engine can tell about the output of a process that exited with
    code 0. *)
Inductive stdout_view : Type :=
| JsonText (v : json)
| FencedJson (v : json)
| FencedInvalid (msg : string)
| NoJson
| Undecodable (msg : string).

(** The behaviour of one spawned process. *)
Inductive attempt : Type :=
| SpawnFails (e : py_exception)
| TimesOut
| Exits (returncode : Z) (stdout : stdout_view) (stderr : string).

(** What an observer sees, in order. *)
Inductive event : Type :=
| Commit (snapshot : database)
| Spawn (command : string) (prompt : list fragment)
| Sleep (seconds : Z).

Record state : Type := { db : database; trace : list event }.

Definition is_spawn (ev : event) : bool :=
  match ev with Spawn _ _ => true | _ => false end.

Definition spawn_count (tr : list event) : nat := length (filter is_spawn tr).

Fixpoint sleeps (tr : list event) : list Z :=
  match tr with
  | [] => []
  | Sleep n :: rest => n :: sleeps rest
  | _ :: rest => sleeps rest
  end.

Fixpoint commits (tr : list event) : list database :=
  match tr with
  | [] => []
  | Commit d :: rest => d :: commits rest
  | _ :: rest => commits rest
  end.

(** ** State and exceptions *)

Inductive outcome (A : Type) : Type :=
| Returns (a : A)
| Raises (e : py_exception).
Arguments Returns {A} a.
Arguments Raises {A} e.

Definition M (A : Type) : Type := state -> outcome A * state.

Definition ret {A} (a : A) : M A := fun s => (Returns a, s).

Definition raise {A} (e : py_exception) : M A := fun s => (Raises e, s).

Definition bind {A B} (m : M A) (k : A -> M B) : M B :=
  fun s => match m s with
           | (Returns a, s') => k a s'
           | (Raises e, s') => (Raises e, s')
           end.

Declare Scope py_scope.
Delimit Scope py_scope with py.
Notation "x <- m ;; k" := (bind m (fun x => k))
  (at level 100, m at next level, right associativity) : py_scope.
Notation "m ;;; k" := (bind m (fun _ => k))
  (at level 100, right associativity) : py_scope.
Open Scope py_scope.

(** [try: body  except c1 as e: h1 e  except c2 as e: h2 e ...]: the first
    clause whose class the exception is an instance of handles it; what a
    handler raises is not offered to the clauses after it. *)
Fixpoint select_handler {A} (e : py_exception)
    (clauses : list (exc_class * (py_exception -> M A))) : M A :=
  match clauses with
  | [] => raise e
  | (c, h) :: rest => if isinstance e c then h e else select_handler e rest
  end.

Definition try_except {A} (body : M A)
    (clauses : list (exc_class * (py_exception -> M A))) : M A :=
  fun s => match body s with
           | (Returns a, s') => (Returns a, s')
           | (Raises e, s') => select_handler e clauses s'
           end.

Definition get_db : M database := fun s => (Returns (db s), s).

Definition modify_db (f : database -> database) : M unit :=
  fun s => (Returns tt, {| db := f (db s); trace := trace s |}).

Definition emit (ev : event) : M unit :=
  fun s => (Returns tt, {| db := db s; trace := trace s ++ [ev] |}).

(** [self.db.commit()]: the pending rows become visible to every reader. *)
Definition commit : M unit :=
  fun s => (Returns tt, {| db := db s; trace := trace s ++ [Commit (db s)] |}).

(** [await asyncio.sleep(n)]. *)
Definition sleep (n : Z) : M unit := emit (Sleep n).

(** [obj.get(key, default)]: only a dict has the method. *)
Definition py_get (obj : json) (key : string) (dflt : json) : M json :=
  match obj with
  | JObj fields => ret (default dflt (assoc_get key fields))
  | _ => raise (mk_exc AttributeError
                  ("'" +:+ type_name obj +:+ "' object has no attribute 'get'"))
  end.

(** ** app/services/ai_backends.py *)

Definition dq : string :=
  String (Ascii.Ascii false true false false false true false false) "".

Definition q (s : string) : string := dq +:+ s +:+ dq.

(** [s[:n]] for [0 <= n]. *)
Fixpoint py_slice_to (n : nat) (s : string) : string :=
  match n, s with
  | S n', String c s' => String c (py_slice_to n' s')
  | _, _ => ""
  end.

Definition DOCUMENT_CHAR_LIMIT : Z := 8000.

Definition dimension_line (dimension ending : string) : string :=
  "    " +:+ q dimension +:+ ": {" +:+ q "score" +:+ ": <1-10>, "
  +:+ q "commentary" +:+ ": " +:+ q "..." +:+ "}" +:+ ending +:+ "
".

Definition issue_line (ending : string) : string :=
  "    {" +:+ q "issue" +:+ ": " +:+ q "..." +:+ ", "
  +:+ q "specific_example_from_content" +:+ ": " +:+ q "..." +:+ ", "
  +:+ q "suggested_rewrite" +:+ ": " +:+ q "..." +:+ "}" +:+ ending +:+ "
".

Definition prompt_persona_open : string := "<persona>
".

Definition prompt_before_content : string := "
</persona>

<role_instruction>
You are embodying the persona described above. You are attending a marketing review roundtable. Your job is to critically evaluate the following marketing content from your professional perspective. Be direct. Be specific. Do not soften your feedback. The team wants honest, constructive criticism that will make their marketing better — not validation.
</role_instruction>

<marketing_content>
".

Definition prompt_after_content : string := "  <!-- Limit to avoid token limits -->
</marketing_content>

<evaluation_framework>
Score each dimension 1-10 and provide specific commentary:
1. Relevance to my role: Does this speak to my actual priorities and pain points?
2. Technical credibility: Is it accurate? Does it avoid buzzword-stuffing?
3. Differentiation: Can I tell how this is different from competitors?
4. Actionability: Do I know what to do next after reading this?
5. Trust signals: Does this build or erode my trust? Why?
6. Language fit: Does this sound like it was written by someone who understands my world?
</evaluation_framework>

<output_format>
Respond in this exact JSON structure:
{
  " +:+ q "persona_role" +:+ ": " +:+ dq.

Definition prompt_after_role : string :=
  dq +:+ ",
  " +:+ q "overall_score" +:+ ": <1-10>,
  " +:+ q "dimension_scores" +:+ ": {
" +:+ dimension_line "relevance" ","
  +:+ dimension_line "technical_credibility" ","
  +:+ dimension_line "differentiation" ","
  +:+ dimension_line "actionability" ","
  +:+ dimension_line "trust_signals" ","
  +:+ dimension_line "language_fit" ""
  +:+ "  },
  " +:+ q "top_3_issues" +:+ ": [
" +:+ issue_line "," +:+ issue_line "," +:+ issue_line ""
  +:+ "  ],
  " +:+ q "what_works_well" +:+ ": [" +:+ q "..." +:+ ", " +:+ q "..." +:+ "],
  " +:+ q "overall_verdict" +:+ ": "
  +:+ q "Would I engage further based on this content? Why or why not?" +:+ ",
  " +:+ q "rewritten_headline_suggestion" +:+ ": " +:+ q "..." +:+ "
}
</output_format>

Respond with ONLY the JSON. No markdown code blocks, no explanations, just valid JSON.".

(** [ClaudeCodeBackend._build_prompt]: the f-string, piece by piece, in the
    order Python evaluates its fields. *)
Definition _build_prompt (persona_profile : json) (document_text : string)
    : M (list fragment) :=
  let persona := Dumps persona_profile in
  let content := Text (py_slice_to (Z.to_nat DOCUMENT_CHAR_LIMIT) document_text) in
  role <- py_get persona_profile "role" (JStr "Unknown") ;;
  ret [Lit prompt_persona_open; persona; Lit prompt_before_content;
       content; Lit prompt_after_content; Fmt role; Lit prompt_after_role].

(** The text of the document as it stands in a built prompt. *)
Fixpoint embedded_text (prompt : list fragment) : list string :=
  match prompt with
  | [] => []
  | Text s :: rest => s :: embedded_text rest
  | _ :: rest => embedded_text rest
  end.

Inductive AIBackend : Type :=
| ClaudeCodeBackend
| CodexBackend
| OpenCodeBackend.

Definition command (b : AIBackend) : string :=
  match b with
  | ClaudeCodeBackend => "claude"
  | CodexBackend => "codex"
  | OpenCodeBackend => "opencode"
  end.

(** [range(n)]. *)
Definition py_range (n : Z) : list Z := seqZ 0 n.

Section Backend.

Variable cfg : Settings.

(** [world n] is the behaviour of the process started by the [n]-th call of
    [asyncio.create_subprocess_exec], counted from 0. *)
Variable world : nat -> attempt.

Definition create_subprocess_exec (cmd : string) (prompt : list fragment)
    : M attempt :=
  fun s => (Returns (world (spawn_count (trace s))),
            {| db := db s; trace := trace s ++ [Spawn cmd prompt] |}).

(** The body of the [try] in [ClaudeCodeBackend.run_analysis]: start the
    process, wait for it under the timeout, check the exit code, decode and
    parse the output. *)
Definition invoke (cmd : string) (prompt : list fragment) : M json :=
  a <- create_subprocess_exec cmd prompt ;;
  match a with
  | SpawnFails e => raise e
  | TimesOut => raise (mk_exc TimeoutError "")
  | Exits returncode stdout stderr =>
      if negb (returncode =? 0)%Z then
        let error_msg := if String.eqb stderr "" then "Unknown error" else stderr in
        raise (mk_exc Exception ("Claude Code failed: " +:+ error_msg))
      else
        match stdout with
        | Undecodable msg => raise (mk_exc UnicodeDecodeError msg)
        | JsonText result => ret result
        | FencedJson result => ret result
        | FencedInvalid msg => raise (mk_exc JSONDecodeError msg)
        | NoJson => raise (mk_exc Exception "Could not parse JSON response")
        end
  end.

(** One pass through the body of [for attempt in range(...)]: [Some result]
    when the body returns from the function, [None] when it falls through to
    the next attempt. *)
Definition attempt_once (cmd : string) (prompt : list fragment) (attempt : Z)
    : M (option json) :=
  try_except
    (result <- invoke cmd prompt ;; ret (Some result))
    [ (TimeoutError, fun _ =>
         if (attempt =? AI_RETRY_ATTEMPTS cfg - 1)%Z
         then raise (mk_exc Exception "Analysis timed out after all retries")
         else ret None);
      (Exception, fun e =>
         if (attempt =? AI_RETRY_ATTEMPTS cfg - 1)%Z
         then raise e
         else sleep (2 ^ attempt)%Z ;;; ret None) ].

Fixpoint retry_loop (cmd : string) (prompt : list fragment) (attempts : list Z)
    : M json :=
  match attempts with
  | [] => raise (mk_exc Exception "Failed after all retries")
  | attempt :: rest =>
      r <- attempt_once cmd prompt attempt ;;
      match r with
      | Some result => ret result
      | None => retry_loop cmd prompt rest
      end
  end.

(** [AIBackend.run_analysis], by variant. *)
Definition run_analysis (b : AIBackend) (persona_profile : json)
    (document_text : string) : M json :=
  match b with
  | ClaudeCodeBackend =>
      prompt <- _build_prompt persona_profile document_text ;;
      retry_loop (command b) prompt (py_range (AI_RETRY_ATTEMPTS cfg))
  | CodexBackend =>
      raise (mk_exc NotImplementedError "Codex backend not yet implemented")
  | OpenCodeBackend =>
      raise (mk_exc NotImplementedError "OpenCode backend not yet implemented")
  end.

End Backend.

(** [AIBackendFactory]: the registry and [get_backend].  [installed c] tells
    whether [c --version] runs and exits with 0 ([is_available]); the two
    failures [is_available] catches, [CalledProcessError] and
    [FileNotFoundError], are the [false] of [installed].  Any other [OSError]
    of that call (a file that may not be executed) escapes [is_available] in
    the source; that case is outside this model. *)
Definition _backends : list (string * AIBackend) :=
  [("claude", ClaudeCodeBackend); ("codex", CodexBackend);
   ("opencode", OpenCodeBackend)].

Definition is_available (installed : string -> bool) (b : AIBackend) : bool :=
  installed (command b).

Definition truthy (s : option string) : bool :=
  match s with
  | Some t => negb (String.eqb t "")
  | None => false
  end.

Definition get_backend (cfg : Settings) (installed : string -> bool)
    (backend_name : option string) : outcome AIBackend :=
  let backend_name :=
    if truthy backend_name then default "" backend_name
    else DEFAULT_AI_BACKEND cfg in
  match snd <$> list_find (fun entry => fst entry = backend_name) _backends with
  | None => Raises (mk_exc ValueError ("Unknown backend: " +:+ backend_name))
  | Some (_, b) =>
      if negb (is_available installed b) then
        Raises (mk_exc RuntimeError
                  ("Backend " +:+ backend_name
                   +:+ " is not available. Is the CLI installed?"))
      else Returns b
  end.

(** ** app/services/persona_service.py *)

(** [PersonaService.get_persona]: the first row with this id that the
    caller may see. *)
Definition get_persona (d : database) (persona_id : string)
    (user_email : option string) : option PersonaProfile.t :=
  let visible (p : PersonaProfile.t) : bool :=
    String.eqb (PersonaProfile.id p) persona_id
    && (if truthy user_email
        then PersonaProfile.is_system p
             || bool_decide (PersonaProfile.created_by_email p = user_email)
        else PersonaProfile.is_system p) in
  List.find visible (persona_profiles d).

(** ** app/services/analysis_service.py *)

Record AnalysisService : Type := { backend : option AIBackend }.

(** A Python dict with string keys, as the list of its items. *)
Definition dict : Type := list (string * json).

Definition dict_get (d : dict) (key : string) : json :=
  default JNull (assoc_get key d).

(** [v == s] for a string literal [s]. *)
Definition eq_str (v : json) (s : string) : bool :=
  match v with
  | JStr t => String.eqb t s
  | _ => false
  end.

(** [sum(1 for x in xs if p(x))]. *)
Definition count_if {A} (p : A -> bool) (xs : list A) : nat :=
  length (List.filter p xs).

(** The status [analyze_document] gives the session once the units have
    run (the [if]/[elif]/[else] on the counts). *)
Definition status_from_results (results : list dict) : string :=
  let failed_count := count_if (fun r => eq_str (dict_get r "status") "failed") results in
  if (failed_count =? length results)%nat then "failed"
  else if (0 <? failed_count)%nat then "partial"
  else "completed".

(** The status [_update_session_status] gives the session, [None] when it
    leaves the status as it is. *)
Definition status_from_analyses (rows : list Analysis.t) : option string :=
  let failed_count := count_if (fun a => String.eqb (Analysis.status a) "failed") rows in
  let completed_count :=
    count_if (fun a => String.eqb (Analysis.status a) "completed") rows in
  if (failed_count =? length rows)%nat then Some "failed"
  else if (0 <? failed_count)%nat then Some "partial"
  else if (completed_count =? length rows)%nat then Some "completed"
  else None.

Definition with_sessions (f : list Session.t -> list Session.t) (d : database)
    : database :=
  {| sessions := f (sessions d); persona_profiles := persona_profiles d;
     analyses := analyses d |}.

Definition with_analyses (f : list Analysis.t -> list Analysis.t) (d : database)
    : database :=
  {| sessions := sessions d; persona_profiles := persona_profiles d;
     analyses := f (analyses d) |}.

(** An assignment to an attribute of the session, or of the analysis, held
    in row [i]. *)
Definition update_session (i : nat) (f : Session.t -> Session.t) : M unit :=
  modify_db (with_sessions (alter f i)).

Definition update_analysis (i : nat) (f : Analysis.t -> Analysis.t) : M unit :=
  modify_db (with_analyses (alter f i)).

(** [self.db.add(analysis)]: the new row goes last; the result is its index. *)
Definition add_analysis (a : Analysis.t) : M nat :=
  fun s => (Returns (length (analyses (db s))),
            {| db := with_analyses (fun rows => rows ++ [a]) (db s);
               trace := trace s |}).

(** [self.db.query(SessionModel).filter(SessionModel.id == session_id).first()] *)
Definition query_session (d : database) (session_id : string)
    : option (nat * Session.t) :=
  list_find (fun s => Session.id s = session_id) (sessions d).

(** [for x in xs: acc = body acc x]. *)
Fixpoint for_each {A B} (body : B -> A -> M B) (xs : list A) (acc : B) : M B :=
  match xs with
  | [] => ret acc
  | x :: rest => acc' <- body acc x ;; for_each body rest acc'
  end.

Definition completed_report (persona : PersonaProfile.t) (result : json) : dict :=
  [("persona_id", JStr (PersonaProfile.id persona));
   ("persona_name", JStr (PersonaProfile.name persona));
   ("status", JStr "completed");
   ("result", result)].

Definition failed_report (persona : PersonaProfile.t) (e : py_exception) : dict :=
  [("persona_id", JStr (PersonaProfile.id persona));
   ("persona_name", JStr (PersonaProfile.name persona));
   ("status", JStr "failed");
   ("error", JStr (str_exc e))].

Section Service.

Variable cfg : Settings.
Variable world : nat -> attempt.
Variable self : AnalysisService.

(** [await self.backend.run_analysis(profile_data, document_text)] *)
Definition backend_run_analysis (profile_data : json) (document_text : string)
    : M json :=
  match backend self with
  | None => raise (mk_exc AttributeError
                     "'NoneType' object has no attribute 'run_analysis'")
  | Some b => run_analysis cfg world b profile_data document_text
  end.

(** The block under [# Update analysis record] on the success path; the
    source has the same text in [_run_sequential_analyses] and in
    [retry_failed_analysis]. *)
Definition record_success (analysis : nat) (result : json) : M unit :=
  update_analysis analysis (Analysis.set_status "completed") ;;;
  (scores <- py_get result "dimension_scores" JNull ;;
   update_analysis analysis (Analysis.set_score_json scores)) ;;;
  (issues <- py_get result "top_3_issues" JNull ;;
   update_analysis analysis (Analysis.set_top_issues_json issues)) ;;;
  (works <- py_get result "what_works_well" (JArr []) ;;
   verdict <- py_get result "overall_verdict" (JStr "") ;;
   headline <- py_get result "rewritten_headline_suggestion" (JStr "") ;;
   update_analysis analysis
     (Analysis.set_rewritten_suggestions_json
        (JObj [("what_works_well", works); ("overall_verdict", verdict);
               ("rewritten_headline", headline)]))) ;;;
  commit.

(** The block under [# Update analysis record] on the failure path. *)
Definition record_failure (analysis : nat) (e : py_exception) : M unit :=
  update_analysis analysis (Analysis.set_status "failed") ;;;
  update_analysis analysis (Analysis.set_error_message (Some (str_exc e))) ;;;
  commit.

(** The body of the loop of [_run_sequential_analyses]: one evaluation
    unit, from [running] to its report. *)
Definition run_unit (document_text : string) (results : list dict)
    (unit : nat * PersonaProfile.t) : M (list dict) :=
  let '(analysis, persona) := unit in
  try_except
    (update_analysis analysis (Analysis.set_status "running") ;;;
     commit ;;;
     let profile_data := PersonaProfile.profile_json persona in
     result <- backend_run_analysis profile_data document_text ;;
     record_success analysis result ;;;
     ret (results ++ [completed_report persona result]))
    [ (Exception, fun e =>
         record_failure analysis e ;;;
         ret (results ++ [failed_report persona e])) ].

Definition _run_sequential_analyses (analyses : list (nat * PersonaProfile.t))
    (document_text : string) : M (list dict) :=
  for_each (run_unit document_text) analyses [].

Definition _run_parallel_analyses (analyses : list (nat * PersonaProfile.t))
    (document_text : string) : M (list dict) :=
  _run_sequential_analyses analyses document_text.

Definition analyze_document (session_id document_text : string)
    (selected_persona_ids : list string) (sequential : bool) : M dict :=
  d <- get_db ;;
  match query_session d session_id with
  | None => raise (mk_exc ValueError ("Session not found: " +:+ session_id))
  | Some (session, _) =>
      update_session session (Session.set_status "analyzing") ;;;
      commit ;;;
      personas <-
        for_each (fun personas persona_id =>
                    d <- get_db ;;
                    match get_persona d persona_id None with
                    | Some persona => ret (personas ++ [persona])
                    | None => ret personas
                    end)
                 selected_persona_ids [] ;;
      match personas with
      | [] =>
          update_session session (Session.set_status "failed") ;;;
          commit ;;;
          raise (mk_exc ValueError "No valid personas selected")
      | _ :: _ =>
          analyses <-
            for_each (fun analyses persona =>
                        analysis <- add_analysis
                                      (Analysis.new session_id
                                         (PersonaProfile.id persona) "pending") ;;
                        ret (analyses ++ [(analysis, persona)]))
                     personas [] ;;
          commit ;;;
          results <-
            (if sequential
             then _run_sequential_analyses analyses document_text
             else _run_parallel_analyses analyses document_text) ;;
          let failed_count :=
            count_if (fun r => eq_str (dict_get r "status") "failed") results in
          let completed_count :=
            count_if (fun r => eq_str (dict_get r "status") "completed") results in
          update_session session (Session.set_status (status_from_results results)) ;;;
          commit ;;;
          ret [("session_id", JStr session_id);
               ("total_personas", JNum (Z.of_nat (length personas)));
               ("completed", JNum (Z.of_nat completed_count));
               ("failed", JNum (Z.of_nat failed_count));
               ("results", JArr (JObj <$> results))]
      end
  end.

Definition _update_session_status (session_id : string) : M unit :=
  d <- get_db ;;
  match query_session d session_id with
  | None => ret tt
  | Some (session, _) =>
      let analyses :=
        filter (fun a => Analysis.session_id a = session_id) (analyses d) in
      match analyses with
      | [] => ret tt
      | _ :: _ =>
          match status_from_analyses analyses with
          | Some st => update_session session (Session.set_status st)
          | None => ret tt
          end ;;;
          commit
      end
  end.

(** [self.db.query(Analysis).filter(session_id == ..., persona_id == ...).first()] *)
Definition query_analysis (d : database) (session_id persona_id : string)
    : option (nat * Analysis.t) :=
  list_find (fun a => Analysis.session_id a = session_id
                      ∧ Analysis.persona_id a = persona_id) (analyses d).

Definition retry_failed_analysis (session_id persona_id document_text : string)
    : M dict :=
  d <- get_db ;;
  match query_analysis d session_id persona_id with
  | None =>
      raise (mk_exc ValueError
               ("Analysis not found for session " +:+ session_id
                +:+ ", persona " +:+ persona_id))
  | Some (analysis, row) =>
      if negb (String.eqb (Analysis.status row) "failed") then
        raise (mk_exc ValueError "Analysis is not in failed state")
      else
        match get_persona d persona_id None with
        | None => raise (mk_exc ValueError ("Persona not found: " +:+ persona_id))
        | Some persona =>
            try_except
              (update_analysis analysis (Analysis.set_status "running") ;;;
               update_analysis analysis (Analysis.set_error_message None) ;;;
               commit ;;;
               let profile_data := PersonaProfile.profile_json persona in
               result <- backend_run_analysis profile_data document_text ;;
               record_success analysis result ;;;
               _update_session_status session_id ;;;
               ret (completed_report persona result))
              [ (Exception, fun e =>
                   record_failure analysis e ;;;
                   ret (failed_report persona e)) ]
        end
  end.

End Service.

(** ** The rest of the backend factory and of the services *)

(** [AIBackendFactory.list_available_backends]: the registered names, in
    the order of the registry, whose backend is available. *)
Definition list_available_backends (installed : string -> bool) : list string :=
  fold_left (fun available entry =>
               if is_available installed (snd entry)
               then available ++ [fst entry]
               else available)
            _backends [].

(** [AnalysisService.initialize_backend], on a service just constructed. *)
Definition initialize_backend (cfg : Settings) (installed : string -> bool)
    (backend_name : option string) : outcome AnalysisService :=
  match get_backend cfg installed backend_name with
  | Returns b => Returns {| backend := Some b |}
  | Raises e => Raises e
  end.

(** The second filter of [get_persona] and of [get_all_personas]: what a
    caller may see. *)
Definition persona_visible (user_email : option string) (p : PersonaProfile.t)
    : bool :=
  if truthy user_email
  then PersonaProfile.is_system p
       || bool_decide (PersonaProfile.created_by_email p = user_email)
  else PersonaProfile.is_system p.

(** [PersonaService.get_all_personas] *)
Definition get_all_personas (d : database) (user_email : option string)
    : list PersonaProfile.t :=
  List.filter (persona_visible user_email) (persona_profiles d).

(** The result of a service call that checks permissions: what it returns
    with the database it leaves, or the [PermissionError] it raises. *)
Inductive guarded (A : Type) : Type :=
| Allowed (a : A) (d : database)
| PermissionError (msg : string).
Arguments Allowed {A} a d.
Arguments PermissionError {A} msg.

(** [db.query(PersonaProfile).filter(PersonaProfile.id == persona_id).first()] *)
Definition query_persona (d : database) (persona_id : string)
    : option (nat * PersonaProfile.t) :=
  list_find (fun p => PersonaProfile.id p = persona_id) (persona_profiles d).

(** [PersonaService.delete_persona]; [db.delete(persona)] takes the
    analyses of the persona with it (the relationship cascades). *)
Definition delete_persona (d : database) (persona_id user_email : string)
    (is_admin : bool) : guarded bool :=
  match query_persona d persona_id with
  | None => Allowed false d
  | Some (row, persona) =>
      if PersonaProfile.is_system persona && negb is_admin then
        PermissionError "Only admins can delete system personas"
      else if negb (PersonaProfile.is_system persona)
              && negb (bool_decide
                         (PersonaProfile.created_by_email persona = Some user_email))
      then PermissionError "You can only delete your own custom personas"
      else
        Allowed true
          {| sessions := sessions d;
             persona_profiles := delete row (persona_profiles d);
             analyses :=
               filter (fun a => Analysis.persona_id a ≠ PersonaProfile.id persona)
                 (analyses d) |}
  end.

(** ** app/core/security.py and the endpoints *)

Module User.
Record t : Type := { email : string; is_admin : bool }.
End User.

(** What an endpoint answers: a body, or an [HTTPException]. *)
Inductive http (A : Type) : Type :=
| Response (body : A)
| HTTPException (status_code : Z) (detail : string).
Arguments Response {A} body.
Arguments HTTPException {A} status_code detail.

Definition get_admin_user (current_user : User.t) : http User.t :=
  let is_admin := User.is_admin current_user in
  if negb is_admin then HTTPException 403 "Admin access required"
  else Response current_user.

(** [persona.is_system = True; persona.is_custom = False] on the row a
    query returned: the first row the query matches. *)
Definition promoted (p : PersonaProfile.t) : PersonaProfile.t :=
  {| PersonaProfile.id := PersonaProfile.id p;
     PersonaProfile.name := PersonaProfile.name p;
     PersonaProfile.role := PersonaProfile.role p;
     PersonaProfile.is_system := true;
     PersonaProfile.is_custom := false;
     PersonaProfile.created_by_email := PersonaProfile.created_by_email p;
     PersonaProfile.profile_json := PersonaProfile.profile_json p |}.

Fixpoint alter_first {A} (p : A -> bool) (f : A -> A) (l : list A) : list A :=
  match l with
  | [] => []
  | x :: rest => if p x then f x :: rest else x :: alter_first p f rest
  end.

(** [promote_persona_to_system] of app/api/admin.py, with its dependency
    [get_admin_user]. *)
Definition promote_persona_to_system (d : database) (persona_id : string)
    (current_user : User.t) : http string * database :=
  match get_admin_user current_user with
  | HTTPException status_code detail => (HTTPException status_code detail, d)
  | Response _ =>
      match get_persona d persona_id None with
      | None => (HTTPException 404 "Persona not found", d)
      | Some persona =>
          if PersonaProfile.is_system persona then
            (HTTPException 400 "Persona is already a system persona", d)
          else
            (Response ("Persona '" +:+ PersonaProfile.name persona
                       +:+ "' promoted to system persona"),
             {| sessions := sessions d;
                persona_profiles :=
                  alter_first
                    (fun p => String.eqb (PersonaProfile.id p) persona_id
                              && persona_visible None p)
                    promoted (persona_profiles d);
                analyses := analyses d |})
      end
  end.

(** The loop of [share_session] of app/api/sessions.py over the emails of
    the request, and the endpoint as far as its answer goes: [found] is the
    owner and the share list of the session the query returned. *)
Definition add_shares (current_shares emails : list string) : list string :=
  fold_left (fun shares email =>
               if bool_decide (email ∈ shares) then shares
               else shares ++ [email])
            emails current_shares.

Definition share_session (found : option (string * option (list string)))
    (emails : list string) (current_user : User.t) : http (list string) :=
  match found with
  | None => HTTPException 404 "Session not found"
  | Some (owner, share_with_emails) =>
      if negb (String.eqb owner (User.email current_user)) then
        HTTPException 403 "Only the owner can share sessions"
      else
        let current_shares := default [] share_with_emails in
        Response (add_shares current_shares emails)
  end.

(** [check_session_access] of app/core/security.py, on the owner and the
    share list of the session. *)
Definition check_session_access (owner : string)
    (share_with_emails : option (list string)) (current_user : User.t) : bool :=
  if String.eqb owner (User.email current_user) then true
  else if bool_decide (User.email current_user ∈ default [] share_with_emails)
  then true
  else if User.is_admin current_user then true
  else false.

(** ** Vocabulary of the properties *)

(** A unit status from which the engine makes no further step on its own. *)
Definition terminal (st : string) : Prop := st = "completed" ∨ st = "failed".

Definition report_status (r : dict) : json := dict_get r "status".

(** A unit carries a result when one of its three result columns is set,
    and an error when its error column is. *)
Definition has_result (a : Analysis.t) : Prop :=
  Analysis.score_json a ≠ JNull
  ∨ Analysis.top_issues_json a ≠ JNull
  ∨ Analysis.rewritten_suggestions_json a ≠ JNull.

Definition has_error (a : Analysis.t) : Prop := Analysis.error_message a ≠ None.

Definition unit_ok (a : Analysis.t) : Prop :=
  ¬ (has_result a ∧ has_error a)
  ∧ (Analysis.status a = "completed" → has_result a ∧ ¬ has_error a)
  ∧ (Analysis.status a = "failed" → has_error a ∧ ¬ has_result a).

Definition units_ok (d : database) : Prop := Forall unit_ok (analyses d).

(** A unit that has neither a result nor an error yet. *)
Definition blank (a : Analysis.t) : Prop :=
  Analysis.score_json a = JNull
  ∧ Analysis.top_issues_json a = JNull
  ∧ Analysis.rewritten_suggestions_json a = JNull
  ∧ Analysis.error_message a = None.

(** The states the two public operations of the service lead to, from a
    database without units. *)
Inductive reachable : state -> Prop :=
| reachable_start d :
    analyses d = [] -> reachable {| db := d; trace := [] |}
| reachable_analyze cfg world self session_id document_text ids sequential s :
    reachable s ->
    reachable (snd (analyze_document cfg world self session_id document_text
                      ids sequential s))
| reachable_retry cfg world self session_id persona_id document_text s :
    reachable s ->
    reachable (snd (retry_failed_analysis cfg world self session_id persona_id
                      document_text s)).

(** Whether a spawned process yields a result. *)
Definition attempt_result (a : attempt) : option json :=
  match a with
  | Exits 0 (JsonText v) _ | Exits 0 (FencedJson v) _ => Some v
  | _ => None
  end.

(** The number of processes started by [m] attempts of which the first is
    spawn number [n]: every attempt without a result is followed by the
    next one. *)
Fixpoint attempts_made (world : nat -> attempt) (n m : nat) : nat :=
  match m with
  | O => O
  | S m' =>
      match attempt_result (world n) with
      | Some _ => 1%nat
      | None => S (attempts_made world (S n) m')
      end
  end.

(** The result of the first of [m] attempts, from spawn number [n] on, that
    has one. *)
Fixpoint first_result (world : nat -> attempt) (n m : nat) : option json :=
  match m with
  | O => None
  | S m' =>
      match attempt_result (world n) with
      | Some v => Some v
      | None => first_result world (S n) m'
      end
  end.

(** The exception the [try] body raises for a process without a result. *)
Definition attempt_failure (a : attempt) : py_exception :=
  match a with
  | SpawnFails e => e
  | TimesOut => mk_exc TimeoutError ""
  | Exits returncode stdout stderr =>
      if negb (returncode =? 0)%Z then
        mk_exc Exception
          ("Claude Code failed: "
           +:+ (if String.eqb stderr "" then "Unknown error" else stderr))
      else
        match stdout with
        | Undecodable msg => mk_exc UnicodeDecodeError msg
        | FencedInvalid msg => mk_exc JSONDecodeError msg
        | _ => mk_exc Exception "Could not parse JSON response"
        end
  end.

(** An event a backend run may add to the trace: a process started with
    this request, or a pause. *)
Definition backend_event (cmd : string) (prompt : list fragment) (ev : event)
    : Prop :=
  ev = Spawn cmd prompt ∨ ∃ n, ev = Sleep n.

(** What a unit makes of a backend run: the items of the result when the
    run returns a dict, the exception it records otherwise (the one raised
    by the run, or by [result.get] on a result that is no dict). *)
Definition verdict (o : outcome json) : list (string * json) + py_exception :=
  match o with
  | Returns (JObj fields) => inl fields
  | Returns v =>
      inr (mk_exc AttributeError
             ("'" +:+ type_name v +:+ "' object has no attribute 'get'"))
  | Raises e => inr e
  end.

(** The row of a unit after its run, by verdict. *)
Definition settled (v : list (string * json) + py_exception) (a : Analysis.t)
    : Analysis.t :=
  match v with
  | inl fields =>
      Analysis.set_rewritten_suggestions_json
        (JObj [("what_works_well",
                default (JArr []) (assoc_get "what_works_well" fields));
               ("overall_verdict",
                default (JStr "") (assoc_get "overall_verdict" fields));
               ("rewritten_headline",
                default (JStr "")
                  (assoc_get "rewritten_headline_suggestion" fields))])
        (Analysis.set_top_issues_json
           (default JNull (assoc_get "top_3_issues" fields))
           (Analysis.set_score_json
              (default JNull (assoc_get "dimension_scores" fields))
              (Analysis.set_status "completed" a)))
  | inr e =>
      Analysis.set_error_message (Some (str_exc e))
        (Analysis.set_status "failed" a)
  end.

Definition report (persona : PersonaProfile.t)
    (v : list (string * json) + py_exception) : dict :=
  match v with
  | inl fields => completed_report persona (JObj fields)
  | inr e => failed_report persona e
  end.

(** The row of a failed unit as a retry leaves it before the backend runs. *)
Definition reset (a : Analysis.t) : Analysis.t :=
  Analysis.set_error_message None (Analysis.set_status "running" a).

(** The step one unit takes when it is run: a commit that shows it running,
    the events of the backend run (no commit among them), a commit that
    shows it settled. *)
Definition unit_step (i : nat) (v : list (string * json) + py_exception)
    (s s' : state) : Prop :=
  ∃ evs,
    commits evs = []
    ∧ let d1 := with_analyses (alter (Analysis.set_status "running") i) (db s) in
      let d2 := with_analyses (alter (settled v) i) (db s) in
      s' = {| db := d2; trace := trace s ++ Commit d1 :: evs ++ [Commit d2] |}.

Inductive units_run :
  list (nat * PersonaProfile.t) -> list (list (string * json) + py_exception) ->
  state -> state -> Prop :=
| units_run_nil s : units_run [] [] s s
| units_run_cons i persona units v vs s s' s'' :
    unit_step i v s s' ->
    units_run units vs s' s'' ->
    units_run ((i, persona) :: units) (v :: vs) s s''.

(** The rows a job creates for the personas it resolved. *)
Definition pending_rows (session_id : string) (personas : list PersonaProfile.t)
    : list Analysis.t :=
  (fun persona => Analysis.new session_id (PersonaProfile.id persona) "pending")
    <$> personas.

(** The personas the ids of a job resolve to. *)
Definition resolved (d : database) (ids : list string) : list PersonaProfile.t :=
  omap (fun persona_id => get_persona d persona_id None) ids.

(** The units of a job: the new rows, by index, each with its persona. *)
Definition job_units (d : database) (personas : list PersonaProfile.t)
    : list (nat * PersonaProfile.t) :=
  zip (seq (length (analyses d)) (length personas)) personas.

(** The ids of a job that resolve to a persona, as they stand in the input. *)
Definition resolvable (d : database) (ids : list string) : list string :=
  List.filter (fun persona_id =>
                 match get_persona d persona_id None with
                 | Some _ => true
                 | None => false
                 end) ids.

(** What identifies a unit: its job and its persona. *)
Definition unit_key (a : Analysis.t) : string * string :=
  (Analysis.session_id a, Analysis.persona_id a).

(** The seconds a trace spends in pauses. *)
Definition total_sleep (tr : list event) : Z := foldr Z.add 0 (sleeps tr).

(** What the retry loop raises when its last attempt has no result. *)
Definition final_error (a : attempt) : py_exception :=
  if isinstance (attempt_failure a) TimeoutError
  then mk_exc Exception "Analysis timed out after all retries"
  else attempt_failure a.

(** The number of units a database shows as running. *)
Definition running_units (d : database) : nat :=
  count_if (fun a => String.eqb (Analysis.status a) "running") (analyses d).

(** The run of one unit with the backend of the service: a commit shows the
    unit running, the backend evaluates the profile of the persona of the
    unit from there, and a commit shows the unit as the verdict of that
    evaluation settles it. *)
Definition unit_evaluated (cfg : Settings) (world : nat -> attempt)
    (self : AnalysisService) (document_text : string) (i : nat)
    (persona : PersonaProfile.t) (v : list (string * json) + py_exception)
    (s s' : state) : Prop :=
  let d1 := with_analyses (alter (Analysis.set_status "running") i) (db s) in
  let r := backend_run_analysis cfg world self
             (PersonaProfile.profile_json persona) document_text
             {| db := d1; trace := trace s ++ [Commit d1] |} in
  let d2 := with_analyses (alter (settled v) i) (db s) in
  v = verdict (fst r)
  ∧ s' = {| db := d2; trace := trace (snd r) ++ [Commit d2] |}.

(** The units of a list evaluated one after the other, in the order of the
    list, each from the state the one before it left. *)
Inductive units_evaluated (cfg : Settings) (world : nat -> attempt)
    (self : AnalysisService) (document_text : string) :
  list (nat * PersonaProfile.t) -> list (list (string * json) + py_exception) ->
  state -> state -> Prop :=
| units_evaluated_nil s : units_evaluated cfg world self document_text [] [] s s
| units_evaluated_cons i persona units v vs s s' s'' :
    unit_evaluated cfg world self document_text i persona v s s' ->
    units_evaluated cfg world self document_text units vs s' s'' ->
    units_evaluated cfg world self document_text
      ((i, persona) :: units) (v :: vs) s s''.

(** The rows a snapshot shows running, from row [n] on, by index. *)
Definition running_rows (n : nat) (d : database) : list nat :=
  filter (fun i => Analysis.status <$> analyses d !! i = Some "running")
    (seq n (length (analyses d) - n)).

(** ** Sample data *)

Definition sample_result : json :=
  JObj [("persona_role", JStr "CTO");
        ("overall_score", JNum 7);
        ("dimension_scores", JObj [("relevance", JObj [("score", JNum 7)])]);
        ("top_3_issues", JArr [JObj [("issue", JStr "vague")]]);
        ("what_works_well", JArr [JStr "tone"]);
        ("overall_verdict", JStr "yes");
        ("rewritten_headline_suggestion", JStr "Ship faster")].

Definition cto : PersonaProfile.t :=
  {| PersonaProfile.id := "cto"; PersonaProfile.name := "Skeptical CTO";
     PersonaProfile.role := "CTO"; PersonaProfile.is_system := true;
     PersonaProfile.is_custom := false; PersonaProfile.created_by_email := None;
     PersonaProfile.profile_json := JObj [("role", JStr "CTO")] |}.

Definition ciso : PersonaProfile.t :=
  {| PersonaProfile.id := "ciso"; PersonaProfile.name := "Careful CISO";
     PersonaProfile.role := "CISO"; PersonaProfile.is_system := true;
     PersonaProfile.is_custom := false; PersonaProfile.created_by_email := None;
     PersonaProfile.profile_json := JObj [("role", JStr "CISO")] |}.

Definition sample_session : Session.t :=
  {| Session.id := "s1"; Session.user_email := "owner@example.com";
     Session.file_name := "brochure.pdf";
     Session.selected_persona_ids := ["cto"; "ciso"];
     Session.status := "uploaded" |}.

Definition sample_db : database :=
  {| sessions := [sample_session]; persona_profiles := [cto; ciso];
     analyses := [] |}.

Definition sample_state : state := {| db := sample_db; trace := [] |}.

Definition claude_service : AnalysisService := {| backend := Some ClaudeCodeBackend |}.

(** A backend whose first [k] processes behave as [failure] and whose later
    ones print [result]. *)
Definition fails_then_succeeds (failure : attempt) (k : nat) (result : json)
    : nat -> attempt :=
  fun n => if (n <? k)%nat then failure else Exits 0 (JsonText result) "".

Definition always (a : attempt) : nat -> attempt := fun _ => a.

Definition always_succeeds : nat -> attempt :=
  always (Exits 0 (JsonText sample_result) "").

(** After a job in which both personas were evaluated, and after one in
    which every process timed out. *)
Definition completed_state : state :=
  snd (analyze_document settings always_succeeds claude_service "s1"
         "launch copy" ["cto"; "ciso"] true sample_state).

Definition failed_state : state :=
  snd (analyze_document settings (always TimesOut) claude_service "s1"
         "launch copy" ["cto"; "ciso"] true sample_state).

(** A database with one more persona, a custom one of the owner of the
    session. *)
Definition intern : PersonaProfile.t :=
  {| PersonaProfile.id := "intern"; PersonaProfile.name := "Curious Intern";
     PersonaProfile.role := "Intern"; PersonaProfile.is_system := false;
     PersonaProfile.is_custom := true;
     PersonaProfile.created_by_email := Some "owner@example.com";
     PersonaProfile.profile_json := JObj [("role", JStr "Intern")] |}.

Definition custom_state : state :=
  {| db := {| sessions := [sample_session];
              persona_profiles := [cto; ciso; intern];
              analyses := [] |};
     trace := [] |}.

(** A state with one pending unit. *)
Definition pending_state : state :=
  {| db := with_analyses (fun _ => [Analysis.new "s1" "cto" "pending"]) sample_db;
     trace := [] |}.

(** * Properties *)

(** ** Counting *)

Lemma count_if_le {A} (p : A -> bool) (l : list A) :
  (count_if p l <= length l)%nat.
Proof.
  unfold count_if. induction l as [|x l IH]; simpl; [lia|].
  destruct (p x); simpl; lia.
Qed.

Lemma count_if_all {A} (p : A -> bool) (l : list A) :
  count_if p l = length l ↔ Forall (fun x => p x = true) l.
Proof.
  induction l as [|x l IH]; [split; [constructor | reflexivity]|].
  pose proof (count_if_le p l) as Hle.
  unfold count_if in *; simpl. destruct (p x) eqn:Hx; simpl; split; intros H.
  - constructor; [exact Hx | apply IH; lia].
  - inversion H; subst. f_equal. now apply IH.
  - lia.
  - inversion H; congruence.
Qed.

Lemma count_if_none {A} (p : A -> bool) (l : list A) :
  count_if p l = 0%nat ↔ Forall (fun x => p x = false) l.
Proof.
  unfold count_if. induction l as [|x l IH]; [split; [constructor | reflexivity]|].
  simpl. destruct (p x) eqn:Hx; simpl; split; intros H.
  - lia.
  - inversion H; congruence.
  - constructor; [exact Hx | now apply IH].
  - inversion H; subst. now apply IH.
Qed.

Lemma count_if_fmap {A B} (f : A -> B) (p : B -> bool) (l : list A) :
  count_if p (f <$> l) = count_if (fun x => p (f x)) l.
Proof.
  unfold count_if. induction l as [|x l IH]; [reflexivity|].
  rewrite fmap_cons. simpl. destruct (p (f x)); simpl; congruence.
Qed.

Lemma count_if_perm {A} (p : A -> bool) (l l' : list A) :
  l ≡ₚ l' → count_if p l = count_if p l'.
Proof.
  unfold count_if. induction 1 as [|x l l' _ IH|x y l|l l' l'' _ IH1 _ IH2].
  - reflexivity.
  - simpl. destruct (p x); simpl; now rewrite IH.
  - simpl. destruct (p x), (p y); reflexivity.
  - congruence.
Qed.

(** ** Status aggregation *)

Lemma status_from_analyses_counts (rows : list Analysis.t) :
  status_from_analyses rows =
    let sts := Analysis.status <$> rows in
    let failed := count_if (fun st => String.eqb st "failed") sts in
    let completed := count_if (fun st => String.eqb st "completed") sts in
    if (failed =? length sts)%nat then Some "failed"
    else if (0 <? failed)%nat then Some "partial"
    else if (completed =? length sts)%nat then Some "completed"
    else None.
Proof.
  unfold status_from_analyses. cbv zeta.
  now rewrite !count_if_fmap, length_fmap.
Qed.

Lemma status_from_analyses_perm (rows rows' : list Analysis.t) :
  Analysis.status <$> rows ≡ₚ Analysis.status <$> rows' →
  status_from_analyses rows = status_from_analyses rows'.
Proof.
  intros Hp. rewrite !status_from_analyses_counts. cbv zeta.
  rewrite (count_if_perm _ _ _ Hp), (count_if_perm _ _ _ Hp).
  now rewrite (Permutation_length Hp).
Qed.

Lemma status_from_results_perm (results results' : list dict) :
  report_status <$> results ≡ₚ report_status <$> results' →
  status_from_results results = status_from_results results'.
Proof.
  intros Hp. unfold status_from_results. cbv zeta.
  change (fun r : dict => eq_str (dict_get r "status") "failed")
    with (fun r : dict => (fun v => eq_str v "failed") (report_status r)).
  rewrite <- !count_if_fmap, (count_if_perm _ _ _ Hp), !count_if_fmap.
  apply Permutation_length in Hp. rewrite !length_fmap in Hp. now rewrite Hp.
Qed.

Lemma eqb_failed_completed (st : string) :
  terminal st → String.eqb st "failed" = false → String.eqb st "completed" = true.
Proof. intros [-> | ->]; [reflexivity | discriminate]. Qed.

(** On a non-empty set of terminal units the update is always made, and it
    is decided by whether all, none or some of the units failed. *)
Lemma status_from_analyses_terminal (rows : list Analysis.t) :
  rows ≠ [] →
  Forall (fun a => terminal (Analysis.status a)) rows →
  status_from_analyses rows =
    Some (if decide (Forall (fun a => Analysis.status a = "failed") rows)
          then "failed"
          else if decide (Forall (fun a => Analysis.status a = "completed") rows)
               then "completed" else "partial").
Proof.
  intros Hne Hterm. unfold status_from_analyses. cbv zeta.
  set (pf := fun a => String.eqb (Analysis.status a) "failed").
  set (pc := fun a => String.eqb (Analysis.status a) "completed").
  assert (Hf : count_if pf rows = length rows
               ↔ Forall (fun a => Analysis.status a = "failed") rows).
  { rewrite count_if_all. apply Forall_proper; [|reflexivity].
    intros a. apply String.eqb_eq. }
  assert (Hc : count_if pc rows = length rows
               ↔ Forall (fun a => Analysis.status a = "completed") rows).
  { rewrite count_if_all. apply Forall_proper; [|reflexivity].
    intros a. apply String.eqb_eq. }
  destruct (Nat.eqb_spec (count_if pf rows) (length rows)) as [E|E].
  - rewrite decide_True by now apply Hf. reflexivity.
  - rewrite decide_False by now rewrite <- Hf.
    destruct (Nat.ltb_spec 0 (count_if pf rows)) as [Hpos|Hzero].
    + rewrite decide_False; [reflexivity|]. intros Hall.
      assert (count_if pf rows = 0%nat); [|lia].
      apply count_if_none. eapply Forall_impl; [exact Hall|].
      intros a Ha. unfold pf. now rewrite Ha.
    + assert (Hnone : Forall (fun a => pf a = false) rows)
        by (apply count_if_none; lia).
      assert (Hall : Forall (fun a => Analysis.status a = "completed") rows).
      { rewrite Forall_forall in *. intros a Ha. apply String.eqb_eq.
        apply eqb_failed_completed; [now apply Hterm | now apply Hnone]. }
      rewrite decide_True by exact Hall.
      destruct (Nat.eqb_spec (count_if pc rows) (length rows)) as [|E'];
        [reflexivity | now apply Hc in Hall].
Qed.

Lemma all_failed_not_all_completed (rows : list Analysis.t) :
  rows ≠ [] →
  Forall (fun a => Analysis.status a = "failed") rows →
  ¬ Forall (fun a => Analysis.status a = "completed") rows.
Proof.
  destruct rows as [|a rows]; [congruence|].
  intros _ Hf Hc. inversion Hf; inversion Hc; subst. congruence.
Qed.

Lemma report_terminal_cases (r : dict) :
  (∃ st, report_status r = JStr st ∧ terminal st) →
  (eq_str (report_status r) "failed" = true ↔ report_status r = JStr "failed")
  ∧ (eq_str (report_status r) "failed" = false
     ↔ report_status r = JStr "completed").
Proof.
  intros (st & -> & [-> | ->]); simpl; split; split;
    intros; try reflexivity; congruence.
Qed.

Lemma status_from_results_terminal (results : list dict) :
  results ≠ [] →
  Forall (fun r => ∃ st, report_status r = JStr st ∧ terminal st) results →
  let all_failed := Forall (fun r => report_status r = JStr "failed") results in
  let all_completed :=
    Forall (fun r => report_status r = JStr "completed") results in
  (all_failed ∧ status_from_results results = "failed")
  ∨ (all_completed ∧ status_from_results results = "completed")
  ∨ (¬ all_failed ∧ ¬ all_completed ∧ status_from_results results = "partial").
Proof.
  intros Hne Hterm. unfold status_from_results. cbv zeta.
  change (fun r : dict => eq_str (dict_get r "status") "failed")
    with (fun r : dict => eq_str (report_status r) "failed").
  set (pf := fun r : dict => eq_str (report_status r) "failed").
  assert (Hf : count_if pf results = length results
               ↔ Forall (fun r => report_status r = JStr "failed") results).
  { rewrite count_if_all, !Forall_forall. rewrite Forall_forall in Hterm.
    split; intros H r Hr; apply (report_terminal_cases r (Hterm r Hr)), H, Hr. }
  assert (Hc : count_if pf results = 0%nat
               ↔ Forall (fun r => report_status r = JStr "completed") results).
  { rewrite count_if_none, !Forall_forall. rewrite Forall_forall in Hterm.
    split; intros H r Hr; apply (report_terminal_cases r (Hterm r Hr)), H, Hr. }
  destruct (Nat.eqb_spec (count_if pf results) (length results)) as [E|E].
  - left. split; [now apply Hf | reflexivity].
  - destruct (Nat.ltb_spec 0 (count_if pf results)) as [Hpos|Hzero].
    + right; right. rewrite <- Hf, <- Hc. repeat split; [exact E | lia].
    + right; left. split; [apply Hc; lia | reflexivity].
Qed.

Lemma all_failed_not_all_completed_reports (results : list dict) :
  results ≠ [] →
  Forall (fun r => report_status r = JStr "failed") results →
  ¬ Forall (fun r => report_status r = JStr "completed") results.
Proof.
  destruct results as [|r results]; [congruence|].
  intros _ Hf Hc. inversion Hf; inversion Hc; subst. congruence.
Qed.

(** ** Running the monad *)

Ltac unfold_monad :=
  unfold update_session, update_analysis, modify_db, commit, sleep, emit,
    get_db, bind, ret, raise in *.

Lemma query_session_alter (d : database) (session_id : string) (i : nat)
    (x : Session.t) (f : Session.t -> Session.t) :
  (∀ y, Session.id (f y) = Session.id y) →
  query_session d session_id = Some (i, x) →
  query_session (with_sessions (alter f i) d) session_id = Some (i, f x).
Proof.
  unfold query_session. simpl. intros Hid (Hi & Hx & Hmin)%list_find_Some.
  apply list_find_Some. split_and!.
  - now rewrite list_lookup_alter_eq, Hi.
  - now rewrite Hid.
  - intros j y Hj Hlt. rewrite list_lookup_alter_ne in Hj by lia. eauto.
Qed.

Lemma _update_session_status_db (session_id : string) (s : state) :
  db (snd (_update_session_status session_id s)) =
    match query_session (db s) session_id with
    | Some (i, _) =>
        let rows :=
          filter (fun a => Analysis.session_id a = session_id) (analyses (db s)) in
        match rows, status_from_analyses rows with
        | _ :: _, Some st => with_sessions (alter (Session.set_status st) i) (db s)
        | _, _ => db s
        end
    | None => db s
    end.
Proof.
  unfold _update_session_status. unfold_monad. cbv zeta.
  destruct (query_session (db s) session_id) as [[i x]|]; [|reflexivity].
  destruct (filter _ (analyses (db s))) as [|a rows] eqn:E; [reflexivity|].
  destruct (status_from_analyses (a :: rows)); reflexivity.
Qed.

(** Re-running the aggregation over the same units changes nothing. *)
Lemma _update_session_status_idempotent (session_id : string) (s : state) :
  let once := snd (_update_session_status session_id s) in
  db (snd (_update_session_status session_id once)) = db once.
Proof.
  cbv zeta. rewrite (_update_session_status_db session_id (snd _)).
  rewrite !_update_session_status_db. cbv zeta.
  destruct (query_session (db s) session_id) as [[i x]|] eqn:Hq;
    [|now rewrite Hq].
  destruct (filter _ (analyses (db s))) as [|a rows] eqn:Hrows;
    [now rewrite Hq, Hrows|].
  destruct (status_from_analyses _) as [st|] eqn:Hst;
    [|now rewrite Hq, Hrows, Hst].
  rewrite (query_session_alter _ _ _ _ (Session.set_status st) (fun _ => eq_refl) Hq).
  simpl. rewrite Hrows, Hst. unfold with_sessions. simpl. f_equal.
  rewrite list_alter_alter_eq. apply list_alter_ext; [|reflexivity].
  intros y _. reflexivity.
Qed.

(** C1. For a non-empty set of terminal units, both places that compute the
    job status (the end of [analyze_document], over the unit reports, and
    [_update_session_status], over the stored units) give [completed]
    exactly when every unit is completed, [failed] exactly when every unit
    failed, and [partial] otherwise; the status depends only on the
    multiset of unit statuses, and re-running [_update_session_status]
    leaves the database as the first run left it. *)
Theorem status_aggregation (rows : list Analysis.t) (results : list dict) :
  rows ≠ [] →
  Forall (fun a => terminal (Analysis.status a)) rows →
  results ≠ [] →
  Forall (fun r => ∃ st, report_status r = JStr st ∧ terminal st) results →
  let all_rows st := Forall (fun a => Analysis.status a = st) rows in
  let all_reports st := Forall (fun r => report_status r = JStr st) results in
  (status_from_analyses rows = Some "completed" ↔ all_rows "completed")
  ∧ (status_from_analyses rows = Some "failed" ↔ all_rows "failed")
  ∧ (status_from_analyses rows = Some "partial"
     ↔ ¬ all_rows "completed" ∧ ¬ all_rows "failed")
  ∧ (status_from_results results = "completed" ↔ all_reports "completed")
  ∧ (status_from_results results = "failed" ↔ all_reports "failed")
  ∧ (status_from_results results = "partial"
     ↔ ¬ all_reports "completed" ∧ ¬ all_reports "failed")
  ∧ (∀ rows', Analysis.status <$> rows' ≡ₚ Analysis.status <$> rows →
              status_from_analyses rows' = status_from_analyses rows)
  ∧ (∀ results', report_status <$> results' ≡ₚ report_status <$> results →
                 status_from_results results' = status_from_results results)
  ∧ (∀ session_id s,
       let once := snd (_update_session_status session_id s) in
       db (snd (_update_session_status session_id once)) = db once).
Proof.
  intros Hne Hterm Hne' Hterm'. cbv beta zeta.
  pose proof (status_from_analyses_terminal rows Hne Hterm) as Hrows.
  pose proof (all_failed_not_all_completed rows Hne) as Hex.
  pose proof (status_from_results_terminal results Hne' Hterm') as Hres.
  pose proof (all_failed_not_all_completed_reports results Hne') as Hex'.
  cbv beta zeta in Hres.
  assert (Hrows' :
    (Forall (fun a => Analysis.status a = "failed") rows
     ∧ status_from_analyses rows = Some "failed")
    ∨ (Forall (fun a => Analysis.status a = "completed") rows
       ∧ status_from_analyses rows = Some "completed")
    ∨ (¬ Forall (fun a => Analysis.status a = "failed") rows
       ∧ ¬ Forall (fun a => Analysis.status a = "completed") rows
       ∧ status_from_analyses rows = Some "partial")).
  { rewrite Hrows. repeat case_decide; tauto. }
  clear Hrows.
  split_and!.
  - destruct Hrows' as [[? ->] | [[? ->] | (? & ? & ->)]];
      split; intros; try discriminate; try reflexivity; tauto.
  - destruct Hrows' as [[? ->] | [[? ->] | (? & ? & ->)]];
      split; intros; try discriminate; try reflexivity; tauto.
  - destruct Hrows' as [[? ->] | [[? ->] | (? & ? & ->)]];
      split; intros; try discriminate; try reflexivity; tauto.
  - destruct Hres as [[? ->] | [[? ->] | (? & ? & ->)]];
      split; intros; try discriminate; try reflexivity; tauto.
  - destruct Hres as [[? ->] | [[? ->] | (? & ? & ->)]];
      split; intros; try discriminate; try reflexivity; tauto.
  - destruct Hres as [[? ->] | [[? ->] | (? & ? & ->)]];
      split; intros; try discriminate; try reflexivity; tauto.
  - intros rows'. apply status_from_analyses_perm.
  - intros results'. apply status_from_results_perm.
  - intros session_id s. apply _update_session_status_idempotent.
Qed.

Lemma status_aggregation_witness :
  status_from_analyses
    [Analysis.new "s1" "cto" "completed"; Analysis.new "s1" "ciso" "failed"]
  = Some "partial"
  ↔ ¬ Forall (fun a => Analysis.status a = "completed")
        [Analysis.new "s1" "cto" "completed"; Analysis.new "s1" "ciso" "failed"]
    ∧ ¬ Forall (fun a => Analysis.status a = "failed")
          [Analysis.new "s1" "cto" "completed"; Analysis.new "s1" "ciso" "failed"].
Proof.
  refine (proj1 (proj2 (proj2
    (status_aggregation
       [Analysis.new "s1" "cto" "completed"; Analysis.new "s1" "ciso" "failed"]
       [[("status", JStr "completed")]; [("status", JStr "failed")]]
       _ _ _ _)))).
  - discriminate.
  - constructor; [left; reflexivity|].
    constructor; [right; reflexivity | constructor].
  - discriminate.
  - constructor; [exists "completed"; split; [|left]; reflexivity|].
    constructor; [exists "failed"; split; [|right]; reflexivity|].
    constructor.
Defined.

(** ** Traces *)

Lemma spawn_count_app (tr tr' : list event) :
  spawn_count (tr ++ tr') = (spawn_count tr + spawn_count tr')%nat.
Proof. unfold spawn_count. now rewrite filter_app, length_app. Qed.

Lemma sleeps_app (tr tr' : list event) : sleeps (tr ++ tr') = sleeps tr ++ sleeps tr'.
Proof.
  induction tr as [|[]]; simpl; [reflexivity | | | f_equal]; assumption.
Qed.

Lemma commits_app (tr tr' : list event) :
  commits (tr ++ tr') = commits tr ++ commits tr'.
Proof.
  induction tr as [|[]]; simpl; [reflexivity | f_equal | |]; assumption.
Qed.

Lemma backend_events_no_commit (cmd : string) (prompt : list fragment)
    (evs : list event) :
  Forall (backend_event cmd prompt) evs → commits evs = [].
Proof.
  induction 1 as [|ev evs [-> | [n ->]] _ IH]; simpl; auto.
Qed.

(** ** The truncated document *)

Lemma py_slice_to_length (n : nat) (s : string) :
  String.length (py_slice_to n s) = Nat.min n (String.length s).
Proof.
  revert s. induction n as [|n IH]; intros [|c s]; simpl; auto.
Qed.

Lemma py_slice_to_prefix (n : nat) (s : string) :
  ∃ rest, s = py_slice_to n s +:+ rest.
Proof.
  revert s. induction n as [|n IH]; intros s.
  - exists s. now destruct s.
  - destruct s as [|c s]; [now exists ""|].
    destruct (IH s) as [rest Hrest]. exists rest.
    change (String c s = String c (py_slice_to n s +:+ rest)). congruence.
Qed.

Lemma py_slice_to_all (n : nat) (s : string) :
  (String.length s <= n)%nat → py_slice_to n s = s.
Proof.
  revert s. induction n as [|n IH]; intros [|c s]; simpl; intros H;
    try reflexivity; [lia|]. f_equal. apply IH. lia.
Qed.

(** ** The retry loop *)

Lemma isinstance_Exception (e : py_exception) : isinstance e Exception = true.
Proof. destruct e as [[] msg]; reflexivity. Qed.

Section RetryLoop.

Variable cfg : Settings.
Variable world : nat -> attempt.
Variable cmd : string.
Variable prompt : list fragment.

Let spawned (s : state) : state :=
  {| db := db s; trace := trace s ++ [Spawn cmd prompt] |}.

Lemma invoke_spec (s : state) :
  invoke world cmd prompt s =
    (match attempt_result (world (spawn_count (trace s))) with
     | Some result => Returns result
     | None => Raises (attempt_failure (world (spawn_count (trace s))))
     end, spawned s).
Proof.
  unfold invoke, create_subprocess_exec, bind, ret, raise, spawned.
  destruct (world (spawn_count (trace s))) as [e| |rc out err]; simpl;
    try reflexivity.
  destruct rc; simpl; try reflexivity. destruct out; reflexivity.
Qed.

(** One step of the loop, by the behaviour of the process it starts. *)
Lemma retry_loop_cons (attempt : Z) (rest : list Z) (s : state) :
  retry_loop cfg world cmd prompt (attempt :: rest) s =
    match attempt_result (world (spawn_count (trace s))) with
    | Some result => (Returns result, spawned s)
    | None =>
        let e := attempt_failure (world (spawn_count (trace s))) in
        let last := (attempt =? AI_RETRY_ATTEMPTS cfg - 1)%Z in
        if isinstance e TimeoutError then
          if last
          then (Raises (mk_exc Exception "Analysis timed out after all retries"),
                spawned s)
          else retry_loop cfg world cmd prompt rest (spawned s)
        else
          if last then (Raises e, spawned s)
          else retry_loop cfg world cmd prompt rest
                 {| db := db s;
                    trace := (trace s ++ [Spawn cmd prompt]) ++ [Sleep (2 ^ attempt)] |}
    end.
Proof.
  simpl. unfold bind at 1. unfold attempt_once, try_except, bind at 1.
  rewrite invoke_spec.
  destruct (attempt_result _); [reflexivity|]. simpl.
  destruct (isinstance _ TimeoutError).
  - destruct (_ =? _)%Z; reflexivity.
  - rewrite isinstance_Exception. destruct (_ =? _)%Z; reflexivity.
Qed.

End RetryLoop.

Lemma seqZ_succ_cons (j : Z) (len : nat) :
  seqZ j (Z.of_nat (S len)) = j :: seqZ (Z.succ j) (Z.of_nat len).
Proof. rewrite seqZ_cons by lia. do 2 f_equal. lia. Qed.

Lemma attempts_made_pos (world : nat -> attempt) (n len : nat) :
  len ≠ 0%nat → (1 <= attempts_made world n len)%nat.
Proof.
  destruct len as [|len]; [congruence|]. intros _. simpl.
  destruct (attempt_result (world n)); lia.
Qed.

Section RetryTrace.

Variable cfg : Settings.
Variable world : nat -> attempt.
Variable cmd : string.
Variable prompt : list fragment.

Local Abbreviation loop := (retry_loop cfg world cmd prompt).

(** The loop leaves the database alone and adds only process starts with
    the request it was given, and pauses, to the trace. *)
Lemma retry_loop_frame (attempts : list Z) (s : state) :
  db (snd (loop attempts s)) = db s
  ∧ ∃ evs, trace (snd (loop attempts s)) = trace s ++ evs
           ∧ Forall (backend_event cmd prompt) evs.
Proof.
  revert s. induction attempts as [|attempt rest IH]; intros s.
  - split; [reflexivity|]. exists []. split; [now rewrite app_nil_r | constructor].
  - assert (Hspawn : backend_event cmd prompt (Spawn cmd prompt)) by now left.
    assert (Hsleep : backend_event cmd prompt (Sleep (2 ^ attempt)))
      by (right; eauto).
    rewrite retry_loop_cons. cbv zeta.
    destruct (attempt_result _);
      [split; [reflexivity|]; exists [Spawn cmd prompt]; split; auto|].
    destruct (isinstance _ TimeoutError), (_ =? _)%Z;
      try (split; [reflexivity|]; exists [Spawn cmd prompt]; split; auto; fail).
    + destruct (IH {| db := db s; trace := trace s ++ [Spawn cmd prompt] |})
        as (Hdb & evs & Htr & Hevs).
      split; [exact Hdb|]. exists (Spawn cmd prompt :: evs).
      split; [rewrite Htr; simpl; now rewrite <- app_assoc | auto].
    + destruct (IH {| db := db s;
                      trace := (trace s ++ [Spawn cmd prompt]) ++ [Sleep (2 ^ attempt)] |})
        as (Hdb & evs & Htr & Hevs).
      split; [exact Hdb|]. exists (Spawn cmd prompt :: Sleep (2 ^ attempt) :: evs).
      split; [rewrite Htr; simpl; now rewrite <- !app_assoc | auto].
Qed.

(** How many processes the loop starts, and what it returns: whatever the
    reason an attempt has no result, the next attempt follows while there
    is one left. *)
Lemma retry_loop_attempts (len : nat) (j : Z) (s : state) :
  j + Z.of_nat len = AI_RETRY_ATTEMPTS cfg →
  let n := spawn_count (trace s) in
  let r := loop (seqZ j (Z.of_nat len)) s in
  spawn_count (trace (snd r)) = (n + attempts_made world n len)%nat
  ∧ match first_result world n len with
    | Some result => fst r = Returns result
    | None => ∃ e, fst r = Raises e
    end.
Proof.
  cbv zeta. revert j s. induction len as [|len IH]; intros j s Hm.
  - simpl. split; [lia | eauto].
  - rewrite seqZ_succ_cons, retry_loop_cons. cbv zeta.
    cbn [attempts_made first_result].
    assert (Hone : ∀ d, spawn_count (trace {| db := d;
                          trace := trace s ++ [Spawn cmd prompt] |})
                        = S (spawn_count (trace s))).
    { intros d. cbn [trace]. rewrite spawn_count_app.
      change (spawn_count [Spawn cmd prompt]) with 1%nat. lia. }
    destruct (attempt_result _) as [result|];
      [cbn [fst snd]; rewrite Hone; split; [lia | reflexivity]|].
    assert (Hlast : (j =? AI_RETRY_ATTEMPTS cfg - 1)%Z = true → len = 0%nat)
      by (intros ?%Z.eqb_eq; lia).
    destruct (isinstance _ TimeoutError),
      (j =? AI_RETRY_ATTEMPTS cfg - 1)%Z eqn:Elast.
    + rewrite (Hlast eq_refl). cbn [fst snd attempts_made first_result].
      rewrite Hone. split; [lia | eauto].
    + specialize (IH (Z.succ j)
                    {| db := db s; trace := trace s ++ [Spawn cmd prompt] |}).
      rewrite Hone in IH.
      destruct IH as [IH1 IH2]; [lia|]. split; [rewrite IH1; lia | exact IH2].
    + rewrite (Hlast eq_refl). cbn [fst snd attempts_made first_result].
      rewrite Hone. split; [lia | eauto].
    + specialize (IH (Z.succ j)
                    {| db := db s;
                       trace := (trace s ++ [Spawn cmd prompt]) ++ [Sleep (2 ^ j)] |}).
      assert (Htwo : spawn_count ((trace s ++ [Spawn cmd prompt]) ++ [Sleep (2 ^ j)])
                     = S (spawn_count (trace s))).
      { rewrite !spawn_count_app.
        change (spawn_count [Spawn cmd prompt]) with 1%nat.
        change (spawn_count [Sleep (2 ^ j)]) with 0%nat. lia. }
      cbn [trace] in IH. rewrite Htwo in IH.
      destruct IH as [IH1 IH2]; [lia|]. split; [rewrite IH1; lia | exact IH2].
Qed.

(** The pauses of the loop, when every attempt without a result timed out:
    none. *)
Lemma retry_loop_sleeps_timeouts (attempts : list Z) (s : state) :
  (∀ i, attempt_result (world i) = None →
        isinstance (attempt_failure (world i)) TimeoutError = true) →
  sleeps (trace (snd (loop attempts s))) = sleeps (trace s).
Proof.
  intros Hto. revert s. induction attempts as [|attempt rest IH]; intros s;
    [reflexivity|].
  rewrite retry_loop_cons. cbv zeta.
  destruct (attempt_result _) eqn:Hres;
    [simpl; rewrite sleeps_app; simpl; now rewrite app_nil_r|].
  rewrite (Hto _ Hres).
  destruct (_ =? _)%Z; [simpl; rewrite sleeps_app; simpl; now rewrite app_nil_r|].
  rewrite IH. simpl. rewrite sleeps_app. simpl. now rewrite app_nil_r.
Qed.

(** The pauses of the loop, when no attempt timed out: one after every
    attempt but the last one made, of [2 ^ attempt] seconds. *)
Lemma retry_loop_sleeps_errors (len : nat) (j : Z) (s : state) :
  (∀ i, attempt_result (world i) = None →
        isinstance (attempt_failure (world i)) TimeoutError = false) →
  j + Z.of_nat len = AI_RETRY_ATTEMPTS cfg →
  let n := spawn_count (trace s) in
  sleeps (trace (snd (loop (seqZ j (Z.of_nat len)) s))) =
    sleeps (trace s)
    ++ (Z.pow 2 <$> seqZ j (Z.of_nat (attempts_made world n len) - 1)).
Proof.
  intros Herr. cbv zeta. revert j s. induction len as [|len IH]; intros j s Hm.
  - simpl. now rewrite app_nil_r.
  - rewrite seqZ_succ_cons, retry_loop_cons. cbv zeta. simpl.
    destruct (attempt_result _) eqn:Hres;
      [simpl; rewrite sleeps_app; simpl; now rewrite !app_nil_r|].
    rewrite (Herr _ Hres).
    destruct (j =? AI_RETRY_ATTEMPTS cfg - 1)%Z eqn:Elast.
    + apply Z.eqb_eq in Elast. assert (len = 0%nat) as -> by lia.
      simpl. rewrite sleeps_app. simpl. now rewrite !app_nil_r.
    + apply Z.eqb_neq in Elast. assert (len ≠ 0%nat) by lia.
      rewrite IH by lia. simpl trace. rewrite !spawn_count_app, !sleeps_app.
      change (spawn_count [Spawn cmd prompt]) with 1%nat.
      change (spawn_count [Sleep (2 ^ j)]) with 0%nat.
      rewrite Nat.add_0_r, Nat.add_1_r. simpl sleeps.
      rewrite app_nil_r, <- app_assoc. f_equal.
      pose proof (attempts_made_pos world (S (spawn_count (trace s))) len).
      set (a := attempts_made world (S (spawn_count (trace s))) len) in *.
      replace (Z.of_nat (S a) - 1) with (Z.of_nat (S (a - 1))) by lia.
      rewrite seqZ_succ_cons. simpl. do 3 f_equal. lia.
Qed.

End RetryTrace.

(** ** The Claude Code backend *)

Lemma _build_prompt_dict (fields : list (string * json)) (document_text : string)
    (s : state) :
  ∃ prompt,
    _build_prompt (JObj fields) document_text s = (Returns prompt, s)
    ∧ embedded_text prompt =
        [py_slice_to (Z.to_nat DOCUMENT_CHAR_LIMIT) document_text].
Proof. eexists. split; reflexivity. Qed.

Lemma _build_prompt_state (profile : json) (document_text : string) (s : state) :
  snd (_build_prompt profile document_text s) = s.
Proof. destruct profile; reflexivity. Qed.

Lemma run_analysis_claude (cfg : Settings) (world : nat -> attempt)
    (fields : list (string * json)) (document_text : string) (s : state) :
  ∃ prompt,
    _build_prompt (JObj fields) document_text s = (Returns prompt, s)
    ∧ run_analysis cfg world ClaudeCodeBackend (JObj fields) document_text s =
        retry_loop cfg world "claude" prompt (py_range (AI_RETRY_ATTEMPTS cfg)) s.
Proof. eexists. split; reflexivity. Qed.

Lemma py_range_to_nat (m : Z) : py_range m = seqZ 0 (Z.of_nat (Z.to_nat m)).
Proof.
  unfold py_range. destruct (Z.le_gt_cases 0 m).
  - now rewrite Z2Nat.id.
  - rewrite !seqZ_nil by lia. reflexivity.
Qed.

(** Whatever the backend and the profile, a run leaves the database alone
    and commits nothing. *)
Lemma run_analysis_frame (cfg : Settings) (world : nat -> attempt) (b : AIBackend)
    (profile : json) (document_text : string) (s : state) :
  let r := run_analysis cfg world b profile document_text s in
  db (snd r) = db s
  ∧ ∃ evs, trace (snd r) = trace s ++ evs ∧ commits evs = [].
Proof.
  assert (Hnone : ∀ o : outcome json,
            db (snd (o, s)) = db s
            ∧ ∃ evs, trace (snd (o, s)) = trace s ++ evs ∧ commits evs = []).
  { intros o. split; [reflexivity|]. exists []. now rewrite app_nil_r. }
  cbv zeta. destruct b; try apply Hnone.
  unfold run_analysis, bind.
  destruct (_build_prompt profile document_text s) as [[prompt|e] s'] eqn:E.
  - pose proof (_build_prompt_state profile document_text s) as Hs.
    rewrite E in Hs. simpl in Hs. subst s'.
    destruct (retry_loop_frame cfg world (command ClaudeCodeBackend) prompt
                (py_range (AI_RETRY_ATTEMPTS cfg)) s) as (Hdb & evs & Htr & Hevs).
    split; [exact Hdb|]. exists evs. split; [exact Htr|].
    eapply backend_events_no_commit, Hevs.
  - pose proof (_build_prompt_state profile document_text s) as Hs.
    rewrite E in Hs. simpl in Hs. subst s'. apply Hnone.
Qed.

(** The attempts of a run, for a profile that is a dict. *)
Lemma run_analysis_attempts (cfg : Settings) (world : nat -> attempt)
    (fields : list (string * json)) (document_text : string) (s : state) :
  let n := spawn_count (trace s) in
  let m := Z.to_nat (AI_RETRY_ATTEMPTS cfg) in
  let r := run_analysis cfg world ClaudeCodeBackend (JObj fields) document_text s in
  spawn_count (trace (snd r)) = (n + attempts_made world n m)%nat
  ∧ match first_result world n m with
    | Some result => fst r = Returns result
    | None => ∃ e, fst r = Raises e
    end.
Proof.
  cbv zeta.
  destruct (run_analysis_claude cfg world fields document_text s)
    as (prompt & _ & ->).
  destruct (Z.le_gt_cases 0 (AI_RETRY_ATTEMPTS cfg)).
  - rewrite py_range_to_nat. apply retry_loop_attempts. lia.
  - unfold py_range. rewrite seqZ_nil by lia.
    replace (Z.to_nat (AI_RETRY_ATTEMPTS cfg)) with 0%nat by lia.
    simpl. split; [lia | eauto].
Qed.

(** A backend that fails [k] times the same way and then succeeds. *)
Lemma attempts_made_fails_then_succeeds (failure : attempt) (k : nat)
    (result : json) (n len : nat) :
  attempt_result failure = None →
  (n <= k)%nat →
  attempts_made (fails_then_succeeds failure k result) n len
    = Nat.min (k - n + 1) len
  ∧ first_result (fails_then_succeeds failure k result) n len
    = if (k - n <? len)%nat then Some result else None.
Proof.
  intros Hfail. revert n. induction len as [|len IH]; intros n Hn.
  - simpl. split; [lia | reflexivity].
  - simpl. unfold fails_then_succeeds at 1 3.
    destruct (Nat.ltb_spec n k) as [Hlt|Hge].
    + rewrite Hfail. destruct (IH (S n)) as [-> ->]; [lia|].
      split; [lia|].
      destruct (Nat.ltb_spec (k - S n) len), (Nat.ltb_spec (k - n) (S len));
        try reflexivity; lia.
    + simpl. split; [lia|].
      destruct (Nat.ltb_spec (k - n) (S len)); [reflexivity | lia].
Qed.

Lemma run_analysis_fails_then_succeeds (cfg : Settings) (failure : attempt)
    (k : nat) (result : json) (fields : list (string * json))
    (document_text : string) (d : database) :
  attempt_result failure = None →
  let m := Z.to_nat (AI_RETRY_ATTEMPTS cfg) in
  let r := run_analysis cfg (fails_then_succeeds failure k result)
             ClaudeCodeBackend (JObj fields) document_text
             {| db := d; trace := [] |} in
  (fst r = Returns result ↔ (k < m)%nat)
  ∧ spawn_count (trace (snd r)) = Nat.min (k + 1) m
  ∧ sleeps (trace (snd r)) =
      if isinstance (attempt_failure failure) TimeoutError then []
      else Z.pow 2 <$> seqZ 0 (Z.of_nat (Nat.min (k + 1) m) - 1).
Proof.
  intros Hfail. cbv zeta.
  set (world := fails_then_succeeds failure k result).
  set (s := {| db := d; trace := [] |}).
  destruct (run_analysis_attempts cfg world fields document_text s) as [Hn Hr].
  destruct (attempts_made_fails_then_succeeds failure k result 0
              (Z.to_nat (AI_RETRY_ATTEMPTS cfg)) Hfail) as [Ha Hf]; [lia|].
  fold world in Ha, Hf. change (spawn_count (trace s)) with 0%nat in Hn, Hr.
  rewrite Ha in Hn. rewrite Hf in Hr. rewrite Nat.sub_0_r in *.
  split_and!.
  - destruct (Nat.ltb_spec k (Z.to_nat (AI_RETRY_ATTEMPTS cfg))).
    + split; [lia | intros _; exact Hr].
    + destruct Hr as [e ->]. split; [discriminate | lia].
  - exact Hn.
  - destruct (run_analysis_claude cfg world fields document_text s)
      as (prompt & _ & ->).
    assert (Hkind : ∀ i, attempt_result (world i) = None →
                         world i = failure).
    { intros i. unfold world, fails_then_succeeds.
      destruct (i <? k)%nat; [reflexivity | discriminate]. }
    destruct (isinstance (attempt_failure failure) TimeoutError) eqn:Hto.
    + rewrite retry_loop_sleeps_timeouts; [reflexivity|].
      intros i Hi. now rewrite (Hkind i Hi).
    + destruct (Z.le_gt_cases 0 (AI_RETRY_ATTEMPTS cfg)).
      * rewrite py_range_to_nat, retry_loop_sleeps_errors.
        -- change (spawn_count (trace s)) with 0%nat. now rewrite Ha.
        -- intros i Hi. now rewrite (Hkind i Hi).
        -- lia.
      * unfold py_range. rewrite seqZ_nil by lia.
        replace (Z.to_nat (AI_RETRY_ATTEMPTS cfg)) with 0%nat by lia.
        rewrite Nat.min_0_r. reflexivity.
Qed.

(** C7. For every persona profile (a dict) and every document text, building
    the request raises nothing and changes nothing; the request holds the
    document text in exactly one place, and what stands there is the text cut
    at 8000 characters: a prefix of the document, of length
    [min 8000 (len document_text)], the whole document when it has at most
    8000 characters.  Every process the backend starts is given this
    request. *)
Theorem document_truncation (fields : list (string * json))
    (document_text : string) (s : state) :
  ∃ prompt text,
    _build_prompt (JObj fields) document_text s = (Returns prompt, s)
    ∧ embedded_text prompt = [text]
    ∧ Z.of_nat (String.length text)
      = Z.min 8000 (Z.of_nat (String.length document_text))
    ∧ (∃ rest, document_text = text +:+ rest)
    ∧ ((Z.of_nat (String.length document_text) <= 8000)%Z → text = document_text)
    ∧ ∀ cfg world,
        ∃ evs,
          trace (snd (run_analysis cfg world ClaudeCodeBackend (JObj fields)
                        document_text s)) = trace s ++ evs
          ∧ Forall (backend_event "claude" prompt) evs.
Proof.
  destruct (_build_prompt_dict fields document_text s) as (prompt & Hb & Ht).
  exists prompt, (py_slice_to (Z.to_nat DOCUMENT_CHAR_LIMIT) document_text).
  split_and!; try assumption.
  - rewrite py_slice_to_length. unfold DOCUMENT_CHAR_LIMIT. lia.
  - apply py_slice_to_prefix.
  - intros Hshort. apply py_slice_to_all. unfold DOCUMENT_CHAR_LIMIT. lia.
  - intros cfg world.
    destruct (run_analysis_claude cfg world fields document_text s)
      as (prompt' & Hb' & ->).
    assert (prompt' = prompt) as -> by congruence.
    apply retry_loop_frame.
Qed.

(** C3. With the default three attempts and a process that times out once
    and then succeeds, the evaluation succeeds after two attempts and no
    pause is made between them; after an attempt that failed with a non-zero
    exit code the same loop pauses for [2 ^ 0] seconds. *)
Theorem retry_trace_after_one_timeout :
  let run failure :=
    run_analysis settings (fails_then_succeeds failure 1 sample_result)
      ClaudeCodeBackend (PersonaProfile.profile_json cto) "launch copy"
      sample_state in
  fst (run TimesOut) = Returns sample_result
  ∧ spawn_count (trace (snd (run TimesOut))) = 2%nat
  ∧ sleeps (trace (snd (run TimesOut))) = []
  ∧ sleeps (trace (snd (run (Exits 1 NoJson "boom")))) = [2 ^ 0].
Proof. vm_compute. repeat split. Qed.

(** C4, as stated, fails: an output without any JSON on the first attempt
    is followed by a second attempt, whose result the run returns. *)
Lemma parse_failure_is_retried :
  let world := fails_then_succeeds (Exits 0 NoJson "") 1 sample_result in
  let r := run_analysis settings world ClaudeCodeBackend
             (PersonaProfile.profile_json cto) "launch copy" sample_state in
  attempt_failure (world 0%nat)
    = mk_exc Exception "Could not parse JSON response"
  ∧ fst r = Returns sample_result
  ∧ spawn_count (trace (snd r)) = 2%nat.
Proof. vm_compute. repeat split. Qed.

(** C4, amended. The loop starts the next process after every attempt that
    has no result, whether it timed out, exited with a non-zero code, printed
    something that cannot be parsed or could not be started, for as long as
    an attempt is left: the number of processes started is that of the
    attempts up to the first one with a result, at most
    [AI_RETRY_ATTEMPTS]; the run returns that result, and raises when no
    attempt has one. *)
Theorem retry_on_every_failure (cfg : Settings) (world : nat -> attempt)
    (fields : list (string * json)) (document_text : string) (s : state) :
  let n := spawn_count (trace s) in
  let m := Z.to_nat (AI_RETRY_ATTEMPTS cfg) in
  let r := run_analysis cfg world ClaudeCodeBackend (JObj fields) document_text s in
  spawn_count (trace (snd r)) = (n + attempts_made world n m)%nat
  ∧ match first_result world n m with
    | Some result => fst r = Returns result
    | None => ∃ e, fst r = Raises e
    end
  ∧ db (snd r) = db s.
Proof.
  cbv zeta.
  destruct (run_analysis_attempts cfg world fields document_text s) as [Hn Hr].
  destruct (run_analysis_frame cfg world ClaudeCodeBackend (JObj fields)
              document_text s) as [Hdb _].
  split_and!; assumption.
Qed.

(** ** One evaluation unit *)

Lemma with_analyses_alter_alter (f g : Analysis.t -> Analysis.t) (i : nat)
    (d : database) :
  with_analyses (alter f i) (with_analyses (alter g i) d)
  = with_analyses (alter (f ∘ g) i) d.
Proof. unfold with_analyses. simpl. now rewrite list_alter_alter_eq. Qed.

Lemma with_analyses_alter_ext (f g : Analysis.t -> Analysis.t) (i : nat)
    (d : database) :
  (∀ a, f a = g a) → with_analyses (alter f i) d = with_analyses (alter g i) d.
Proof.
  intros Hfg. unfold with_analyses. f_equal.
  apply list_alter_ext; [intros a _; apply Hfg | reflexivity].
Qed.

Section Unit.

Variable cfg : Settings.
Variable world : nat -> attempt.
Variable self : AnalysisService.

Lemma backend_run_analysis_frame (profile : json) (document_text : string)
    (s : state) :
  let r := backend_run_analysis cfg world self profile document_text s in
  db (snd r) = db s
  ∧ ∃ evs, trace (snd r) = trace s ++ evs ∧ commits evs = [].
Proof.
  unfold backend_run_analysis. destruct (backend self) as [b|].
  - apply run_analysis_frame.
  - split; [reflexivity|]. exists []. now rewrite app_nil_r.
Qed.

Lemma try_except_bind {A B} (m : M A) (k : A -> M B)
    (clauses : list (exc_class * (py_exception -> M B))) (s : state) :
  try_except (bind m k) clauses s =
    match m s with
    | (Returns a, s') => try_except (k a) clauses s'
    | (Raises e, s') => select_handler e clauses s'
    end.
Proof. unfold try_except, bind. destruct (m s) as [[a|e] s']; reflexivity. Qed.

(** Storing the outcome [o] of a backend run, from a state whose database
    is [d] with the row [i] changed by [before]: the row becomes what the
    verdict says, one commit is made, and the run goes on with [k] or [h]. *)
Lemma record_outcome (i : nat) (before : Analysis.t -> Analysis.t)
    (d : database) (o : outcome json) (tr : list event) (A : Type)
    (k : json -> M A) (h : py_exception -> M A) :
  (∀ result s0, ∃ a s1, k result s0 = (Returns a, s1)) →
  let s := {| db := with_analyses (alter before i) d; trace := tr |} in
  let d' := with_analyses (alter (settled (verdict o) ∘ before) i) d in
  let s' := {| db := d'; trace := tr ++ [Commit d'] |} in
  let clauses := [ (Exception, fun e => record_failure i e ;;; h e) ] in
  match o with
  | Returns result => try_except (record_success i result ;;; k result) clauses s
  | Raises e => select_handler e clauses s
  end
  = match verdict o with
    | inl fields => k (JObj fields) s'
    | inr e => h e s'
    end.
Proof.
  intros Hk. cbv zeta. unfold try_except.
  destruct o as [result|e].
  - destruct result as [| | | | |fields];
      try (unfold record_success, record_failure; unfold_monad; simpl;
           rewrite !with_analyses_alter_alter; reflexivity).
    unfold record_success, py_get. unfold_monad. simpl.
    rewrite !with_analyses_alter_alter.
    match goal with
    | |- _ = k _ ?s1 =>
        match goal with
        | |- context [k _ ?s0] => change s0 with s1
        end;
        destruct (Hk (JObj fields) s1) as (a & s2 & ->)
    end.
    reflexivity.
  - simpl. rewrite isinstance_Exception.
    unfold record_failure. unfold_monad. simpl.
    rewrite !with_analyses_alter_alter. reflexivity.
Qed.

Lemma settled_after_running (v : list (string * json) + py_exception)
    (a : Analysis.t) :
  settled v (Analysis.set_status "running" a) = settled v a.
Proof. destruct v; reflexivity. Qed.

(** One pass through the loop of [_run_sequential_analyses]: the unit is
    committed as running, the backend runs, the unit is committed as the
    verdict says, and the report is added to the results. *)
Lemma run_unit_spec (document_text : string) (results : list dict) (i : nat)
    (persona : PersonaProfile.t) (s : state) :
  let d1 := with_analyses (alter (Analysis.set_status "running") i) (db s) in
  let r := backend_run_analysis cfg world self
             (PersonaProfile.profile_json persona) document_text
             {| db := d1; trace := trace s ++ [Commit d1] |} in
  let v := verdict (fst r) in
  let d2 := with_analyses (alter (settled v) i) (db s) in
  run_unit cfg world self document_text results (i, persona) s
  = (Returns (results ++ [report persona v]),
     {| db := d2; trace := trace (snd r) ++ [Commit d2] |}).
Proof.
  cbv zeta. unfold run_unit.
  rewrite try_except_bind. unfold update_analysis at 1, modify_db. cbn [fst snd].
  rewrite try_except_bind. unfold commit at 1. cbn [db trace].
  rewrite try_except_bind.
  set (d1 := with_analyses (alter (Analysis.set_status "running") i) (db s)).
  destruct (backend_run_analysis_frame (PersonaProfile.profile_json persona)
              document_text {| db := d1; trace := trace s ++ [Commit d1] |})
    as (Hdb & _).
  destruct (backend_run_analysis _ _ _ _ _ _) as [o s2]. cbn [fst snd db] in *.
  destruct s2 as [d2 tr2]. cbn [db trace] in *. subst d2. unfold d1.
  rewrite (record_outcome i (Analysis.set_status "running") (db s) o tr2 _
             (fun result => ret (results ++ [completed_report persona result]))
             (fun e => ret (results ++ [failed_report persona e])));
    [|intros; eexists _, _; reflexivity].
  rewrite (with_analyses_alter_ext _ (settled (verdict o)) i (db s))
    by (intros a; apply settled_after_running).
  destruct (verdict o); reflexivity.
Qed.

Lemma run_unit_step (document_text : string) (results : list dict) (i : nat)
    (persona : PersonaProfile.t) (s : state) :
  ∃ v s',
    unit_step i v s s'
    ∧ run_unit cfg world self document_text results (i, persona) s
      = (Returns (results ++ [report persona v]), s').
Proof.
  pose proof (run_unit_spec document_text results i persona s) as Hspec.
  cbv zeta in Hspec.
  set (d1 := with_analyses (alter (Analysis.set_status "running") i) (db s)) in *.
  destruct (backend_run_analysis_frame (PersonaProfile.profile_json persona)
              document_text {| db := d1; trace := trace s ++ [Commit d1] |})
    as (_ & evs & Htr & Hevs).
  cbn [trace] in Htr. rewrite Htr in Hspec.
  eexists _, _. split; [|exact Hspec].
  exists evs. split; [exact Hevs|]. cbv zeta. f_equal.
  now rewrite <- !app_assoc.
Qed.

(** The loop of [_run_sequential_analyses] runs the units one after the
    other, in the order of the list, and reports on each. *)
Lemma run_units_spec (document_text : string)
    (units : list (nat * PersonaProfile.t)) (results : list dict) (s : state) :
  ∃ vs s',
    units_run units vs s s'
    ∧ for_each (run_unit cfg world self document_text) units results s
      = (Returns (results ++ zip_with (fun u v => report (snd u) v) units vs), s').
Proof.
  revert results s. induction units as [|[i persona] units IH]; intros results s.
  - exists [], s. split; [constructor | simpl; now rewrite app_nil_r].
  - destruct (run_unit_step document_text results i persona s)
      as (v & s1 & Hstep & Hrun).
    destruct (IH (results ++ [report persona v]) s1) as (vs & s2 & Hrest & Hloop).
    exists (v :: vs), s2. split; [econstructor; eassumption|].
    cbn [for_each]. unfold bind. rewrite Hrun, Hloop. simpl.
    now rewrite <- app_assoc.
Qed.

End Unit.

Lemma settled_terminal (v : list (string * json) + py_exception) (a : Analysis.t) :
  terminal (Analysis.status (settled v a)).
Proof. destruct v; [left | right]; reflexivity. Qed.

(** C2. Whatever the backend does (return any JSON value, or raise), one pass
    through the loop of [_run_sequential_analyses] returns to the loop with
    one more report, raising nothing, and leaves the status of the unit it
    ran as [completed] or [failed]; so the whole loop returns, with one
    report per unit. *)
Theorem unit_executor_total (cfg : Settings) (world : nat -> attempt)
    (self : AnalysisService) (document_text : string) (results : list dict)
    (analysis : nat) (persona : PersonaProfile.t) (s : state) :
  (∃ r s',
     run_unit cfg world self document_text results (analysis, persona) s
     = (Returns (results ++ [r]), s')
     ∧ ∀ a, analyses (db s) !! analysis = Some a →
            ∃ a', analyses (db s') !! analysis = Some a'
                  ∧ terminal (Analysis.status a'))
  ∧ ∀ units,
      ∃ reports s',
        _run_sequential_analyses cfg world self units document_text s
        = (Returns reports, s')
        ∧ length reports = length units.
Proof.
  split.
  - pose proof (run_unit_spec cfg world self document_text results analysis
                  persona s) as Hspec.
    cbv zeta in Hspec. eexists _, _. split; [exact Hspec|].
    intros a Ha. cbn [db analyses with_analyses].
    rewrite list_lookup_alter_eq, Ha. eexists. split; [reflexivity|].
    apply settled_terminal.
  - intros units.
    destruct (run_units_spec cfg world self document_text units [] s)
      as (vs & s' & Hrun & Hloop).
    eexists _, s'. split; [exact Hloop|].
    clear Hloop. simpl. induction Hrun; simpl; congruence.
Qed.

(** ** The job *)

Lemma bind_returns {A B} (m : M A) (k : A -> M B) (s s' : state) (a : A) :
  m s = (Returns a, s') → bind m k s = k a s'.
Proof. unfold bind. now intros ->. Qed.

Lemma get_persona_with_sessions (f : list Session.t -> list Session.t)
    (d : database) (persona_id : string) (user_email : option string) :
  get_persona (with_sessions f d) persona_id user_email
  = get_persona d persona_id user_email.
Proof. reflexivity. Qed.

(** The loop under [# Get personas]: the personas the ids resolve to, in the
    order of the ids; an id that resolves to nothing is passed over. *)
Lemma resolve_personas_spec (ids : list string) (acc : list PersonaProfile.t)
    (s : state) :
  for_each (fun personas persona_id =>
              d <- get_db ;;
              match get_persona d persona_id None with
              | Some persona => ret (personas ++ [persona])
              | None => ret personas
              end) ids acc s
  = (Returns (acc ++ resolved (db s) ids), s).
Proof.
  revert acc. induction ids as [|persona_id ids IH]; intros acc.
  - simpl. now rewrite app_nil_r.
  - unfold resolved in *. cbn [for_each omap list_omap].
    unfold bind at 1. unfold bind at 1, get_db.
    destruct (get_persona (db s) persona_id None) as [persona|]; unfold ret at 1.
    + rewrite IH. now rewrite <- app_assoc.
    + apply IH.
Qed.

(** The loop under [# Create analysis records]: one pending row per persona,
    appended in order. *)
Lemma create_units_spec (session_id : string) (personas : list PersonaProfile.t)
    (acc : list (nat * PersonaProfile.t)) (d : database) (tr : list event) :
  for_each (fun analyses persona =>
              analysis <- add_analysis
                            (Analysis.new session_id
                               (PersonaProfile.id persona) "pending") ;;
              ret (analyses ++ [(analysis, persona)]))
           personas acc {| db := d; trace := tr |}
  = (Returns (acc ++ job_units d personas),
     {| db := with_analyses
                (fun rows => rows ++ pending_rows session_id personas) d;
        trace := tr |}).
Proof.
  unfold job_units.
  revert acc d. induction personas as [|persona personas IH]; intros acc d.
  - simpl. unfold ret, with_analyses. rewrite !app_nil_r. now destruct d.
  - cbn [for_each]. unfold bind at 1. unfold bind at 1, add_analysis, ret at 1.
    cbn [db trace]. rewrite IH. unfold with_analyses. cbn.
    rewrite length_app, Nat.add_1_r, <- !app_assoc. reflexivity.
Qed.

Section Job.

Variable cfg : Settings.
Variable world : nat -> attempt.
Variable self : AnalysisService.

(** What [analyze_document] does for a session that exists. *)
Lemma analyze_document_spec (session_id document_text : string)
    (ids : list string) (sequential : bool) (s : state) (session : nat)
    (row : Session.t) :
  query_session (db s) session_id = Some (session, row) →
  let d1 := with_sessions (alter (Session.set_status "analyzing") session) (db s) in
  let personas := resolved (db s) ids in
  match personas with
  | [] =>
      let d2 := with_sessions (alter (Session.set_status "failed") session) d1 in
      analyze_document cfg world self session_id document_text ids sequential s
      = (Raises (mk_exc ValueError "No valid personas selected"),
         {| db := d2; trace := trace s ++ [Commit d1; Commit d2] |})
  | _ :: _ =>
      let d2 :=
        with_analyses (fun rows => rows ++ pending_rows session_id personas) d1 in
      let units := job_units (db s) personas in
      ∃ vs s3,
        units_run units vs {| db := d2; trace := trace s ++ [Commit d1; Commit d2] |} s3
        ∧ let results := zip_with (fun u v => report (snd u) v) units vs in
          let d4 :=
            with_sessions
              (alter (Session.set_status (status_from_results results)) session)
              (db s3) in
          ∃ summary,
            analyze_document cfg world self session_id document_text ids sequential s
            = (Returns summary, {| db := d4; trace := trace s3 ++ [Commit d4] |})
            ∧ dict_get summary "results" = JArr (JObj <$> results)
            ∧ dict_get summary "total_personas"
              = JNum (Z.of_nat (length personas))
  end.
Proof.
  intros Hq. cbv zeta.
  assert (Hstart :
    analyze_document cfg world self session_id document_text ids sequential s
    = match resolved (db s) ids with
      | [] =>
          (Raises (mk_exc ValueError "No valid personas selected"),
           let d1 := with_sessions (alter (Session.set_status "analyzing") session)
                       (db s) in
           let d2 := with_sessions (alter (Session.set_status "failed") session)
                       d1 in
           {| db := d2; trace := trace s ++ [Commit d1; Commit d2] |})
      | _ :: _ =>
          analyze_document cfg world self session_id document_text ids
            sequential s
      end).
  { destruct (resolved (db s) ids) eqn:Hres; [|reflexivity].
    unfold analyze_document.
    unfold bind at 1, get_db. rewrite Hq.
    unfold bind at 1, update_session at 1, modify_db.
    unfold bind at 1, commit at 1. cbn [db trace].
    unfold bind at 1. rewrite resolve_personas_spec. cbn [db app].
    change (resolved (with_sessions _ (db s)) ids) with (resolved (db s) ids).
    rewrite Hres. unfold_monad. cbn. now rewrite <- app_assoc. }
  destruct (resolved (db s) ids) as [|persona personas] eqn:Hres;
    [exact Hstart|]. clear Hstart.
  set (d1 := with_sessions (alter (Session.set_status "analyzing") session) (db s)).
  set (d2 := with_analyses _ d1).
  set (units := job_units (db s) (persona :: personas)).
  destruct (run_units_spec cfg world self document_text units []
              {| db := d2; trace := trace s ++ [Commit d1; Commit d2] |})
    as (vs & s3 & Hrun & Hloop).
  exists vs, s3. split; [exact Hrun|].
  eexists. split.
  { unfold analyze_document.
    unfold bind at 1, get_db. rewrite Hq.
    unfold bind at 1, update_session at 1, modify_db.
    unfold bind at 1, commit at 1. cbn [db trace].
    unfold bind at 1. rewrite resolve_personas_spec. cbn [db app].
    change (resolved (with_sessions _ (db s)) ids) with (resolved (db s) ids).
    rewrite Hres.
    unfold bind at 1. rewrite create_units_spec. unfold bind at 1, commit at 1.
    cbn [db trace]. unfold bind at 1.
    change (job_units _ (persona :: personas)) with units.
    fold d1. fold d2. rewrite <- app_assoc. cbn [app].
    unfold _run_parallel_analyses, _run_sequential_analyses.
    destruct sequential; rewrite Hloop; reflexivity. }
  split; reflexivity.
Qed.

End Job.

(** ** Resolving personas *)

Lemma get_persona_id (d : database) (persona_id : string)
    (user_email : option string) (persona : PersonaProfile.t) :
  get_persona d persona_id user_email = Some persona →
  PersonaProfile.id persona = persona_id.
Proof.
  unfold get_persona. intros [_ H]%find_some.
  apply andb_prop in H as [H _]. now apply String.eqb_eq.
Qed.

Lemma resolved_ids (d : database) (ids : list string) :
  PersonaProfile.id <$> resolved d ids = resolvable d ids.
Proof.
  unfold resolved, resolvable. induction ids as [|persona_id ids IH];
    [reflexivity|].
  cbn [omap list_omap List.filter].
  destruct (get_persona d persona_id None) as [persona|] eqn:E; [|exact IH].
  rewrite fmap_cons, IH. f_equal. eapply get_persona_id, E.
Qed.

Lemma resolved_nil (d : database) (ids : list string) :
  resolved d ids = [] ↔ Forall (fun id => get_persona d id None = None) ids.
Proof.
  unfold resolved. induction ids as [|persona_id ids IH];
    [split; [constructor | reflexivity]|].
  cbn [omap list_omap].
  destruct (get_persona d persona_id None) as [persona|] eqn:E; split; intros H.
  - discriminate.
  - inversion H; congruence.
  - constructor; [exact E | now apply IH].
  - inversion H; subst. now apply IH.
Qed.

(** ** What a run of units keeps *)

Lemma settled_key (v : list (string * json) + py_exception) (a : Analysis.t) :
  unit_key (settled v a) = unit_key a.
Proof. destruct v; reflexivity. Qed.

Lemma unit_step_keeps (i : nat) (v : list (string * json) + py_exception)
    (s s' : state) :
  unit_step i v s s' →
  sessions (db s') = sessions (db s)
  ∧ persona_profiles (db s') = persona_profiles (db s)
  ∧ unit_key <$> analyses (db s') = unit_key <$> analyses (db s).
Proof.
  intros (evs & _ & ->). cbn. split_and!; try reflexivity.
  rewrite (list_fmap_alter unit_key (settled v) id).
  - apply list_alter_id. reflexivity.
  - apply Forall_forall. intros a _. apply settled_key.
Qed.

Lemma units_run_keeps (units : list (nat * PersonaProfile.t))
    (vs : list (list (string * json) + py_exception)) (s s' : state) :
  units_run units vs s s' →
  length vs = length units
  ∧ sessions (db s') = sessions (db s)
  ∧ persona_profiles (db s') = persona_profiles (db s)
  ∧ unit_key <$> analyses (db s') = unit_key <$> analyses (db s).
Proof.
  induction 1 as [s|i persona units v vs s s' s'' Hstep _ IH];
    [repeat split|].
  destruct (unit_step_keeps _ _ _ _ Hstep) as (Hs & Hp & Hk).
  destruct IH as (Hlen & Hs' & Hp' & Hk').
  split_and!; [simpl; congruence | congruence..].
Qed.

Lemma report_persona_id (persona : PersonaProfile.t)
    (v : list (string * json) + py_exception) :
  dict_get (report persona v) "persona_id" = JStr (PersonaProfile.id persona).
Proof. destruct v; reflexivity. Qed.

Lemma job_units_personas (d : database) (personas : list PersonaProfile.t) :
  snd <$> job_units d personas = personas.
Proof. unfold job_units. apply snd_zip. rewrite length_seq. lia. Qed.

Lemma reports_persona_ids (units : list (nat * PersonaProfile.t))
    (vs : list (list (string * json) + py_exception)) :
  length vs = length units →
  (fun r => dict_get r "persona_id")
    <$> zip_with (fun u v => report (snd u) v) units vs
  = (fun u => JStr (PersonaProfile.id (snd u))) <$> units.
Proof.
  revert vs. induction units as [|u units IH]; intros [|v vs] Hlen;
    try discriminate; [reflexivity|].
  cbn [zip_with]. rewrite !fmap_cons, report_persona_id, IH; [reflexivity|].
  simpl in Hlen. lia.
Qed.

Section JobProperties.

Variable cfg : Settings.
Variable world : nat -> attempt.
Variable self : AnalysisService.

(** A job of which at least one id resolves: the units it creates and runs. *)
Lemma analyze_document_units (session_id document_text : string)
    (ids : list string) (sequential : bool) (s : state) (session : nat)
    (row : Session.t) :
  query_session (db s) session_id = Some (session, row) →
  resolved (db s) ids ≠ [] →
  let r := analyze_document cfg world self session_id document_text ids
             sequential s in
  ∃ summary results vs s2 s3,
    fst r = Returns summary
    ∧ dict_get summary "total_personas"
      = JNum (Z.of_nat (length (resolved (db s) ids)))
    ∧ dict_get summary "results" = JArr (JObj <$> results)
    ∧ (fun r => dict_get r "persona_id") <$> results
      = JStr <$> resolvable (db s) ids
    ∧ units_run (job_units (db s) (resolved (db s) ids)) vs s2 s3
    ∧ analyses (db s2)
      = analyses (db s) ++ pending_rows session_id (resolved (db s) ids)
    ∧ analyses (db (snd r)) = analyses (db s3).
Proof.
  intros Hq Hne. cbv zeta.
  pose proof (analyze_document_spec cfg world self session_id document_text ids
                sequential s session row Hq) as Hspec.
  cbv zeta in Hspec.
  destruct (resolved (db s) ids) as [|persona personas] eqn:Hres; [congruence|].
  destruct Hspec as (vs & s3 & Hrun & summary & -> & Hresults & Htotal).
  eexists summary, _, vs, _, s3.
  split_and!; [reflexivity | exact Htotal | exact Hresults | | exact Hrun
              | reflexivity | reflexivity].
  destruct (units_run_keeps _ _ _ _ Hrun) as (Hlen & _).
  rewrite reports_persona_ids by exact Hlen.
  rewrite <- resolved_ids, Hres.
  rewrite <- (job_units_personas (db s) (persona :: personas)) at 2.
  rewrite <- !list_fmap_compose. reflexivity.
Qed.

Lemma pending_rows_keys (session_id : string) (personas : list PersonaProfile.t) :
  unit_key <$> pending_rows session_id personas
  = pair session_id <$> (PersonaProfile.id <$> personas).
Proof.
  unfold pending_rows. rewrite <- !list_fmap_compose. reflexivity.
Qed.

End JobProperties.

(** C5. For a job (an existing session) of which no persona id resolves,
    the empty list included, [analyze_document] raises
    [ValueError("No valid personas selected")], leaves the session
    [failed], and creates no unit: neither of its two commits, nor the
    database it leaves, has a row more than before.  When an id does
    resolve, the call returns without raising, and the units it has added
    are those of the ids that resolve, the others being passed over. *)
Theorem no_valid_personas (cfg : Settings) (world : nat -> attempt)
    (self : AnalysisService) (session_id document_text : string)
    (ids : list string) (sequential : bool) (s : state) (session : nat)
    (row : Session.t) :
  query_session (db s) session_id = Some (session, row) →
  let r := analyze_document cfg world self session_id document_text ids
             sequential s in
  (Forall (fun id => get_persona (db s) id None = None) ids →
     fst r = Raises (mk_exc ValueError "No valid personas selected")
     ∧ query_session (db (snd r)) session_id
       = Some (session, Session.set_status "failed" row)
     ∧ analyses (db (snd r)) = analyses (db s)
     ∧ ∃ d1 d2, trace (snd r) = trace s ++ [Commit d1; Commit d2]
                ∧ analyses d1 = analyses (db s)
                ∧ analyses d2 = analyses (db s))
  ∧ (¬ Forall (fun id => get_persona (db s) id None = None) ids →
       (∃ summary, fst r = Returns summary)
       ∧ unit_key <$> analyses (db (snd r))
         = (unit_key <$> analyses (db s))
           ++ (pair session_id <$> resolvable (db s) ids)).
Proof.
  intros Hq. cbv zeta. split.
  - intros Hnone%resolved_nil.
    pose proof (analyze_document_spec cfg world self session_id document_text
                  ids sequential s session row Hq) as Hspec.
    cbv zeta in Hspec. rewrite Hnone in Hspec. rewrite Hspec. cbn [fst snd db].
    split_and!; [reflexivity | | reflexivity | eexists _, _; repeat split].
    apply (query_session_alter _ _ _ _ (Session.set_status "analyzing")
             (fun _ => eq_refl)) in Hq.
    apply (query_session_alter _ _ _ _ (Session.set_status "failed")
             (fun _ => eq_refl)) in Hq.
    exact Hq.
  - intros Hsome. rewrite <- resolved_nil in Hsome.
    destruct (analyze_document_units cfg world self session_id document_text ids
                sequential s session row Hq Hsome)
      as (summary & results & vs & s2 & s3 & Hret & _ & _ & _ & Hrun & Hnew & Hdb).
    split; [eauto|].
    destruct (units_run_keeps _ _ _ _ Hrun) as (_ & _ & _ & Hkeys).
    rewrite Hdb, Hkeys, Hnew, fmap_app, pending_rows_keys, resolved_ids.
    reflexivity.
Qed.

(** ** The order the units of a job are run in *)

Lemma filter_none {A} (P : A -> Prop) `{!∀ x, Decision (P x)} (l : list A) :
  (∀ x, x ∈ l → ¬ P x) → filter P l = [].
Proof.
  induction l as [|x l IH]; intros Hnot; [reflexivity|].
  rewrite filter_cons_False by (apply Hnot; now left).
  apply IH. intros y Hy. apply Hnot. now right.
Qed.

Lemma filter_one {A} (P : A -> Prop) `{!∀ x, Decision (P x)} (l : list A)
    (a : A) :
  NoDup l → a ∈ l → (∀ x, x ∈ l → (P x ↔ x = a)) → filter P l = [a].
Proof.
  induction l as [|x l IH]; intros Hnd Ha HP; [inversion Ha|].
  apply NoDup_cons in Hnd as [Hx Hnd].
  destruct (decide (P x)) as [HPx|HPx].
  - rewrite filter_cons_True by exact HPx.
    apply HP in HPx as ->; [|now left].
    f_equal. apply filter_none. intros y Hy HPy.
    apply HP in HPy; [|now right]. now subst.
  - rewrite filter_cons_False by exact HPx.
    apply IH; [exact Hnd | | intros y Hy; apply HP; now right].
    apply elem_of_cons in Ha as [->|?]; [|assumption].
    destruct HPx. apply HP; [now left | reflexivity].
Qed.

Lemma running_rows_none (n : nat) (d : database) :
  (∀ j x, (n <= j)%nat → analyses d !! j = Some x →
          Analysis.status x ≠ "running") →
  running_rows n d = [].
Proof.
  intros Hnot. unfold running_rows. apply filter_none.
  intros j [Hj _]%elem_of_seq Hrun.
  destruct (analyses d !! j) as [x|] eqn:E; [|discriminate].
  injection Hrun as Hrun. exact (Hnot j x Hj E Hrun).
Qed.

Lemma running_rows_one (n a : nat) (d : database) :
  (n <= a)%nat → (a < length (analyses d))%nat →
  (∀ j x, (n <= j)%nat → analyses d !! j = Some x →
          Analysis.status x ≠ "running") →
  running_rows n (with_analyses (alter (Analysis.set_status "running") a) d)
  = [a].
Proof.
  intros Hna Ha Hnot. unfold running_rows. cbn [analyses with_analyses].
  rewrite length_alter. apply filter_one.
  - apply NoDup_seq.
  - apply elem_of_seq. lia.
  - intros j [Hj _]%elem_of_seq. destruct (decide (j = a)) as [->|Hne].
    + rewrite list_lookup_alter_eq.
      destruct (lookup_lt_is_Some_2 _ _ Ha) as [x ->]. now split.
    + rewrite list_lookup_alter_ne by congruence. split; [|congruence].
      intros Hrun. destruct (analyses d !! j) as [x|] eqn:E; [|discriminate].
      injection Hrun as Hrun. destruct (Hnot j x Hj E Hrun).
Qed.

(** A run of the rows [a], [a + 1], ... of a database none of whose rows
    from [n] on is running: its commits show these rows running in that
    order, one at a time, and none of them running at the end. *)
Lemma units_run_running_rows (n : nat) (units : list (nat * PersonaProfile.t))
    (vs : list (list (string * json) + py_exception)) (s s' : state) :
  units_run units vs s s' →
  ∀ a,
    fst <$> units = seq a (length units) →
    (n <= a)%nat →
    (a + length units <= length (analyses (db s)))%nat →
    (∀ j x, (n <= j)%nat → analyses (db s) !! j = Some x →
            Analysis.status x ≠ "running") →
    (∀ j x, (n <= j)%nat → analyses (db s') !! j = Some x →
            Analysis.status x ≠ "running")
    ∧ ∃ evs, trace s' = trace s ++ evs
             ∧ concat (running_rows n <$> commits evs) = seq a (length units).
Proof.
  induction 1 as [s|i persona units v vs s s' s'' Hstep _ IH];
    intros a Hidx Hna Hlen Hnot.
  - split; [exact Hnot|]. exists []. now rewrite app_nil_r.
  - cbn [length] in Hidx, Hlen. rewrite fmap_cons in Hidx. cbn [fst seq] in Hidx.
    injection Hidx as -> Hidx.
    destruct Hstep as (evs & Hevs & ->).
    assert (Hnot' : ∀ j x, (n <= j)%nat →
              analyses (with_analyses (alter (settled v) a) (db s)) !! j = Some x →
              Analysis.status x ≠ "running").
    { intros j x Hj. cbn [analyses with_analyses].
      destruct (decide (j = a)) as [->|Hne].
      - rewrite list_lookup_alter_eq.
        destruct (analyses (db s) !! a) as [y|]; [|discriminate].
        intros [= <-]. destruct v; discriminate.
      - rewrite list_lookup_alter_ne by congruence. apply Hnot, Hj. }
    destruct (IH (S a) Hidx) as (Hend & evs' & Htr & Hrows).
    + lia.
    + cbn [db analyses with_analyses]. rewrite length_alter. lia.
    + exact Hnot'.
    + split; [exact Hend|].
      exists (Commit (with_analyses (alter (Analysis.set_status "running") a) (db s))
              :: evs
              ++ [Commit (with_analyses (alter (settled v) a) (db s))] ++ evs').
      split.
      * rewrite Htr. cbn [trace]. rewrite <- !app_assoc. cbn [app].
        rewrite <- !app_assoc. reflexivity.
      * cbn [commits]. rewrite !commits_app, Hevs. cbn [commits app].
        rewrite !fmap_cons. cbn [concat].
        rewrite running_rows_one by (try exact Hnot; lia).
        rewrite (running_rows_none n (with_analyses (alter (settled v) a) (db s)))
          by exact Hnot'.
        cbn [app length seq]. now rewrite Hrows.
Qed.

Section JobOrder.

Variable cfg : Settings.
Variable world : nat -> attempt.
Variable self : AnalysisService.

Lemma unit_evaluated_step (document_text : string) (i : nat)
    (persona : PersonaProfile.t) (v : list (string * json) + py_exception)
    (s s' : state) :
  unit_evaluated cfg world self document_text i persona v s s' →
  unit_step i v s s'.
Proof.
  intros [_ ->].
  set (d1 := with_analyses (alter (Analysis.set_status "running") i) (db s)).
  destruct (backend_run_analysis_frame cfg world self
              (PersonaProfile.profile_json persona) document_text
              {| db := d1; trace := trace s ++ [Commit d1] |})
    as (_ & evs & Htr & Hevs).
  cbn [trace] in Htr. exists evs. split; [exact Hevs|]. cbv zeta. f_equal.
  fold d1. rewrite Htr. now rewrite <- !app_assoc.
Qed.

Lemma units_evaluated_run (document_text : string)
    (units : list (nat * PersonaProfile.t))
    (vs : list (list (string * json) + py_exception)) (s s' : state) :
  units_evaluated cfg world self document_text units vs s s' →
  units_run units vs s s'.
Proof.
  induction 1; econstructor; eauto using unit_evaluated_step.
Qed.

(** The loop of [_run_sequential_analyses], with every unit tied to the
    evaluation the backend makes for it. *)
Lemma run_units_evaluated (document_text : string)
    (units : list (nat * PersonaProfile.t)) (results : list dict) (s : state) :
  ∃ vs s',
    units_evaluated cfg world self document_text units vs s s'
    ∧ for_each (run_unit cfg world self document_text) units results s
      = (Returns (results ++ zip_with (fun u v => report (snd u) v) units vs), s').
Proof.
  revert results s. induction units as [|[i persona] units IH]; intros results s.
  - exists [], s. split; [constructor | simpl; now rewrite app_nil_r].
  - pose proof (run_unit_spec cfg world self document_text results i persona s)
      as Hrun. cbv zeta in Hrun.
    match type of Hrun with
    | _ = (Returns (_ ++ [report _ ?v]), ?s1) =>
        destruct (IH (results ++ [report persona v]) s1)
          as (vs & s2 & Hrest & Hloop);
        exists (v :: vs), s2
    end.
    split.
    + econstructor; [|exact Hrest]. split; reflexivity.
    + cbn [for_each]. unfold bind. rewrite Hrun, Hloop. simpl.
      now rewrite <- app_assoc.
Qed.

(** [analyze_document], for a session that exists and ids of which one
    resolves: the two commits it starts with, the units evaluated from
    there, and the commit of the status of the session it ends with. *)
Lemma analyze_document_evaluated (session_id document_text : string)
    (ids : list string) (sequential : bool) (s : state) (session : nat)
    (row : Session.t) :
  query_session (db s) session_id = Some (session, row) →
  resolved (db s) ids ≠ [] →
  let personas := resolved (db s) ids in
  let d1 := with_sessions (alter (Session.set_status "analyzing") session) (db s) in
  let d2 :=
    with_analyses (fun rows => rows ++ pending_rows session_id personas) d1 in
  let units := job_units (db s) personas in
  ∃ vs s3,
    units_evaluated cfg world self document_text units vs
      {| db := d2; trace := trace s ++ [Commit d1; Commit d2] |} s3
    ∧ let results := zip_with (fun u v => report (snd u) v) units vs in
      let d4 :=
        with_sessions
          (alter (Session.set_status (status_from_results results)) session)
          (db s3) in
      ∃ summary,
        analyze_document cfg world self session_id document_text ids sequential s
        = (Returns summary, {| db := d4; trace := trace s3 ++ [Commit d4] |})
        ∧ dict_get summary "results" = JArr (JObj <$> results)
        ∧ dict_get summary "total_personas"
          = JNum (Z.of_nat (length personas)).
Proof.
  intros Hq Hne. cbv zeta.
  destruct (resolved (db s) ids) as [|persona personas] eqn:Hres; [congruence|].
  set (d1 := with_sessions (alter (Session.set_status "analyzing") session) (db s)).
  set (d2 := with_analyses _ d1).
  set (units := job_units (db s) (persona :: personas)).
  destruct (run_units_evaluated document_text units []
              {| db := d2; trace := trace s ++ [Commit d1; Commit d2] |})
    as (vs & s3 & Hrun & Hloop).
  exists vs, s3. split; [exact Hrun|].
  eexists. split.
  { unfold analyze_document.
    unfold bind at 1, get_db. rewrite Hq.
    unfold bind at 1, update_session at 1, modify_db.
    unfold bind at 1, commit at 1. cbn [db trace].
    unfold bind at 1. rewrite resolve_personas_spec. cbn [db app].
    change (resolved (with_sessions _ (db s)) ids) with (resolved (db s) ids).
    rewrite Hres.
    unfold bind at 1. rewrite create_units_spec. unfold bind at 1, commit at 1.
    cbn [db trace]. unfold bind at 1.
    change (job_units _ (persona :: personas)) with units.
    fold d1. fold d2. rewrite <- app_assoc. cbn [app].
    unfold _run_parallel_analyses, _run_sequential_analyses.
    destruct sequential; rewrite Hloop; reflexivity. }
  split; reflexivity.
Qed.

End JobOrder.

Lemma job_units_indices (d : database) (personas : list PersonaProfile.t) :
  fst <$> job_units d personas = seq (length (analyses d)) (length personas).
Proof. unfold job_units. apply fst_zip. rewrite length_seq. lia. Qed.

(** C10. A job creates one unit for every entry of its id list that
    resolves, an id that occurs twice counting twice: the rows added are
    those of the resolvable entries in the order of the list, the units are
    run one after the other in that order, and the reports come back in
    that order.  The run is that of the job itself: from the state the job
    is in after its second commit, which shows the new rows pending, every
    unit in turn is committed as running, evaluated by the backend of the
    service on the profile of its persona, and committed as settled; the
    job ends with the commit of the status of the session.  Seen through
    the commits of the job, the new rows are shown running one after the
    other, in the order of the list, each once. *)
Theorem one_unit_per_occurrence (cfg : Settings) (world : nat -> attempt)
    (self : AnalysisService) (session_id document_text : string)
    (ids : list string) (sequential : bool) (s : state) (session : nat)
    (row : Session.t) :
  query_session (db s) session_id = Some (session, row) →
  resolvable (db s) ids ≠ [] →
  let r := analyze_document cfg world self session_id document_text ids
             sequential s in
  let n := length (analyses (db s)) in
  let d1 := with_sessions (alter (Session.set_status "analyzing") session) (db s) in
  ∃ summary results personas vs s2 s3,
    fst r = Returns summary
    ∧ PersonaProfile.id <$> personas = resolvable (db s) ids
    ∧ dict_get summary "total_personas"
      = JNum (Z.of_nat (length (resolvable (db s) ids)))
    ∧ dict_get summary "results" = JArr (JObj <$> results)
    ∧ (fun r => dict_get r "persona_id") <$> results
      = JStr <$> resolvable (db s) ids
    ∧ analyses (db s2) = analyses (db s) ++ pending_rows session_id personas
    ∧ units_run (job_units (db s) personas) vs s2 s3
    ∧ analyses (db (snd r)) = analyses (db s3)
    ∧ unit_key <$> analyses (db (snd r))
      = (unit_key <$> analyses (db s))
        ++ (pair session_id <$> resolvable (db s) ids)
    ∧ personas = resolved (db s) ids
    ∧ fst <$> job_units (db s) personas
      = seq n (length (resolvable (db s) ids))
    ∧ (let d2 :=
         with_analyses (fun rows => rows ++ pending_rows session_id personas) d1 in
       s2 = {| db := d2; trace := trace s ++ [Commit d1; Commit d2] |})
    ∧ units_evaluated cfg world self document_text
        (job_units (db s) personas) vs s2 s3
    ∧ results
      = zip_with (fun u v => report (snd u) v) (job_units (db s) personas) vs
    ∧ (let d4 :=
         with_sessions
           (alter (Session.set_status (status_from_results results)) session)
           (db s3) in
       snd r = {| db := d4; trace := trace s3 ++ [Commit d4] |})
    ∧ ∃ evs,
        trace (snd r) = trace s ++ evs
        ∧ concat (running_rows n <$> commits evs)
          = seq n (length (resolvable (db s) ids)).
Proof.
  intros Hq Hne. cbv zeta.
  assert (Hres : resolved (db s) ids ≠ []).
  { intros Hnil. apply Hne. now rewrite <- resolved_ids, Hnil. }
  destruct (analyze_document_evaluated cfg world self session_id document_text
              ids sequential s session row Hq Hres)
    as (vs & s3 & Heval & summary & Hjob & Hresults & Htotal).
  pose proof (units_evaluated_run _ _ _ _ _ _ _ _ Heval) as Hrun.
  destruct (units_run_keeps _ _ _ _ Hrun) as (Hlen & _ & _ & Hkeys).
  assert (Hm : length (resolved (db s) ids) = length (resolvable (db s) ids))
    by now rewrite <- resolved_ids, length_fmap.
  match type of Heval with
  | units_evaluated _ _ _ _ ?units _ ?s2 _ =>
      exists summary, (zip_with (fun u v => report (snd u) v) units vs),
        (resolved (db s) ids), vs, s2, s3
  end.
  rewrite Hjob. cbn [fst snd db trace].
  split_and!; try reflexivity.
  - apply resolved_ids.
  - now rewrite <- Hm.
  - exact Hresults.
  - rewrite reports_persona_ids by exact Hlen.
    rewrite <- resolved_ids.
    rewrite <- (job_units_personas (db s) (resolved (db s) ids)) at 2.
    rewrite <- !list_fmap_compose. reflexivity.
  - exact Hrun.
  - cbn [analyses with_sessions]. rewrite Hkeys.
    cbn [db analyses with_analyses with_sessions].
    rewrite fmap_app, pending_rows_keys, resolved_ids. reflexivity.
  - now rewrite job_units_indices, Hm.
  - exact Heval.
  - destruct (units_run_running_rows (length (analyses (db s))) _ _ _ _ Hrun
                (length (analyses (db s))))
      as (Hend & evs & Htr & Hrows).
    + rewrite job_units_indices. unfold job_units.
      rewrite length_zip_with, length_seq, Nat.min_id. reflexivity.
    + apply le_n.
    + cbn [db analyses with_analyses with_sessions].
      unfold job_units, pending_rows.
      rewrite length_zip_with, length_seq, Nat.min_id, length_app, length_fmap.
      apply le_n.
    + intros j x Hj. cbn [db analyses with_analyses with_sessions].
      rewrite lookup_app_r by exact Hj. unfold pending_rows.
      rewrite list_lookup_fmap.
      destruct (resolved (db s) ids !! (j - length (analyses (db s)))%nat);
        [|discriminate].
      intros [= <-]. discriminate.
    + cbn [trace] in Htr.
      exists ([Commit (with_sessions
                         (alter (Session.set_status "analyzing") session) (db s));
               Commit (with_analyses
                         (fun rows => rows
                            ++ pending_rows session_id (resolved (db s) ids))
                         (with_sessions
                            (alter (Session.set_status "analyzing") session)
                            (db s)))]
              ++ evs
              ++ [Commit (with_sessions
                            (alter (Session.set_status
                                      (status_from_results
                                         (zip_with (fun u v => report (snd u) v)
                                            (job_units (db s) (resolved (db s) ids))
                                            vs)))
                                   session)
                            (db s3))]).
      split; [rewrite Htr; now rewrite <- !app_assoc|].
      rewrite !commits_app. cbn [commits]. rewrite !fmap_app, !concat_app.
      rewrite Hrows. cbn [fmap list_fmap concat].
      rewrite !running_rows_none.
      * cbn [app]. rewrite app_nil_r. unfold job_units.
        now rewrite length_zip_with, length_seq, Nat.min_id, Hm.
      * intros j x Hj. cbn [analyses with_sessions]. apply Hend, Hj.
      * intros j x Hj. cbn [db analyses with_analyses with_sessions].
        rewrite lookup_app_r by exact Hj. unfold pending_rows.
        rewrite list_lookup_fmap.
        destruct (resolved (db s) ids !! (j - length (analyses (db s)))%nat);
          [|discriminate].
        intros [= <-]. discriminate.
      * intros j x Hj. cbn [analyses with_sessions]. intros Hx.
        apply lookup_lt_Some in Hx. lia.
Qed.

Lemma no_valid_personas_witness :
  fst (analyze_document settings (always TimesOut) claude_service "s1"
         "launch copy" ["nobody"] true sample_state)
  = Raises (mk_exc ValueError "No valid personas selected").
Proof.
  refine (proj1 (proj1 (no_valid_personas settings (always TimesOut)
                          claude_service "s1" "launch copy" ["nobody"] true
                          sample_state 0%nat sample_session _) _)).
  - reflexivity.
  - constructor; [reflexivity | constructor].
Defined.

Lemma one_unit_per_occurrence_witness :
  ∃ summary evs,
    fst (analyze_document settings (always (Exits 0 (JsonText sample_result) ""))
           claude_service "s1" "launch copy" ["cto"; "nobody"; "cto"] true
           sample_state) = Returns summary
    ∧ unit_key
        <$> analyses (db (snd (analyze_document settings
                                 (always (Exits 0 (JsonText sample_result) ""))
                                 claude_service "s1" "launch copy"
                                 ["cto"; "nobody"; "cto"] true sample_state)))
      = [("s1", "cto"); ("s1", "cto")]
    ∧ trace (snd (analyze_document settings
                    (always (Exits 0 (JsonText sample_result) ""))
                    claude_service "s1" "launch copy"
                    ["cto"; "nobody"; "cto"] true sample_state))
      = trace sample_state ++ evs
    ∧ concat (running_rows 0 <$> commits evs) = [0; 1]%nat.
Proof.
  destruct (one_unit_per_occurrence settings
              (always (Exits 0 (JsonText sample_result) "")) claude_service
              "s1" "launch copy" ["cto"; "nobody"; "cto"] true sample_state
              0%nat sample_session)
    as (summary & results & personas & vs & s2 & s3 & Hret & _ & _ & _ & _ & _
        & _ & _ & Hkeys & _ & _ & _ & _ & _ & _ & evs & Htr & Hrows).
  - reflexivity.
  - vm_compute. discriminate.
  - exists summary, evs. split_and!; [exact Hret | exact Hkeys | exact Htr
                                     | exact Hrows].
Defined.

(** ** Retrying a unit *)

Lemma _update_session_status_returns (session_id : string) (s : state) :
  ∃ s', _update_session_status session_id s = (Returns tt, s')
        ∧ analyses (db s') = analyses (db s)
        ∧ (trace s' = trace s ∨ trace s' = trace s ++ [Commit (db s')]).
Proof.
  unfold _update_session_status. unfold_monad.
  destruct (query_session (db s) session_id) as [[i x]|];
    [|eexists; split_and!; [reflexivity | reflexivity | now left]].
  destruct (filter _ (analyses (db s))) as [|a rows];
    [eexists; split_and!; [reflexivity | reflexivity | now left]|].
  destruct (status_from_analyses (a :: rows));
    eexists; (split_and!; [reflexivity | reflexivity | now right]).
Qed.

Section Retry.

Variable cfg : Settings.
Variable world : nat -> attempt.
Variable self : AnalysisService.

(** The retry of a failed unit whose persona still resolves: the unit is
    committed as running with its error cleared, the backend runs, the unit
    is committed as the verdict says, and on success the status of the
    session is brought up to date. *)
Lemma retry_failed_analysis_spec (session_id persona_id document_text : string)
    (s : state) (i : nat) (row : Analysis.t) (persona : PersonaProfile.t) :
  query_analysis (db s) session_id persona_id = Some (i, row) →
  Analysis.status row = "failed" →
  get_persona (db s) persona_id None = Some persona →
  let d1 := with_analyses (alter reset i) (db s) in
  let r := backend_run_analysis cfg world self
             (PersonaProfile.profile_json persona) document_text
             {| db := d1; trace := trace s ++ [Commit d1] |} in
  let v := verdict (fst r) in
  let d2 := with_analyses (alter (settled v ∘ reset) i) (db s) in
  let s2 := {| db := d2; trace := trace (snd r) ++ [Commit d2] |} in
  retry_failed_analysis cfg world self session_id persona_id document_text s
  = (Returns (report persona v),
     match v with
     | inl _ => snd (_update_session_status session_id s2)
     | inr _ => s2
     end).
Proof.
  intros Hq Hst Hp. cbv zeta. unfold retry_failed_analysis.
  unfold bind at 1, get_db. rewrite Hq, Hst, Hp, String.eqb_refl. cbn [negb].
  rewrite try_except_bind. unfold update_analysis at 1, modify_db. cbn [fst snd].
  rewrite try_except_bind. unfold update_analysis at 1, modify_db. cbn [fst snd db trace].
  rewrite with_analyses_alter_alter.
  change (Analysis.set_error_message None ∘ Analysis.set_status "running")
    with reset.
  rewrite try_except_bind. unfold commit at 1. cbn [db trace].
  rewrite try_except_bind.
  set (d1 := with_analyses (alter reset i) (db s)).
  destruct (backend_run_analysis_frame cfg world self
              (PersonaProfile.profile_json persona) document_text
              {| db := d1; trace := trace s ++ [Commit d1] |}) as (Hdb & _).
  destruct (backend_run_analysis _ _ _ _ _ _) as [o s1]. cbn [fst snd db] in *.
  destruct s1 as [d1' tr1]. cbn [db trace] in *. subst d1'. unfold d1.
  rewrite (record_outcome i reset (db s) o tr1 _
             (fun result => _update_session_status session_id ;;;
                            ret (completed_report persona result))
             (fun e => ret (failed_report persona e))).
  - destruct (verdict o) as [fields|e]; [|reflexivity].
    unfold bind.
    match goal with
    | |- context [_update_session_status session_id ?s2] =>
        destruct (_update_session_status_returns session_id s2) as (s3 & -> & _)
    end.
    reflexivity.
  - intros result s0. unfold bind.
    destruct (_update_session_status_returns session_id s0) as (s3 & -> & _).
    eexists _, _. reflexivity.
Qed.

End Retry.

Section RetryProperties.

Variable cfg : Settings.
Variable world : nat -> attempt.
Variable self : AnalysisService.

Lemma query_analysis_Some (d : database) (session_id persona_id : string)
    (i : nat) (row : Analysis.t) :
  query_analysis d session_id persona_id = Some (i, row) →
  analyses d !! i = Some row.
Proof. unfold query_analysis. now intros (H & _)%list_find_Some. Qed.

(** What a retry that passes its checks leaves behind. *)
Lemma retry_failed_analysis_effect (session_id persona_id document_text : string)
    (s : state) (i : nat) (row : Analysis.t) (persona : PersonaProfile.t) :
  query_analysis (db s) session_id persona_id = Some (i, row) →
  Analysis.status row = "failed" →
  get_persona (db s) persona_id None = Some persona →
  let d1 := with_analyses (alter reset i) (db s) in
  let v := verdict (fst (backend_run_analysis cfg world self
                           (PersonaProfile.profile_json persona) document_text
                           {| db := d1; trace := trace s ++ [Commit d1] |})) in
  let r := retry_failed_analysis cfg world self session_id persona_id
             document_text s in
  let rows' := alter (settled v ∘ reset) i (analyses (db s)) in
  fst r = Returns (report persona v)
  ∧ analyses (db (snd r)) = rows'
  ∧ ∃ evs later,
      trace (snd r) = trace s ++ Commit d1 :: evs
      ∧ commits (trace (snd r)) = commits (trace s) ++ d1 :: later
      ∧ Forall (fun d => analyses d = rows') later.
Proof.
  intros Hq Hst Hp. cbv zeta.
  rewrite (retry_failed_analysis_spec cfg world self session_id persona_id
             document_text s i row persona Hq Hst Hp).
  set (d1 := with_analyses (alter reset i) (db s)).
  destruct (backend_run_analysis_frame cfg world self
              (PersonaProfile.profile_json persona) document_text
              {| db := d1; trace := trace s ++ [Commit d1] |})
    as (_ & evs & Htr & Hevs).
  cbn [trace] in Htr. rewrite Htr.
  set (v := verdict _).
  set (d2 := with_analyses (alter (settled v ∘ reset) i) (db s)).
  assert (Hone : commits (((trace s ++ [Commit d1]) ++ evs) ++ [Commit d2])
                 = commits (trace s) ++ [d1; d2]).
  { rewrite !commits_app, Hevs. simpl. now rewrite app_nil_r, <- app_assoc. }
  split; [reflexivity|].
  destruct v as [fields|e] eqn:Hv.
  - match goal with
    | |- context [_update_session_status session_id ?s2] =>
        destruct (_update_session_status_returns session_id s2)
          as (s3 & Heq & Hrows & Htrace)
    end.
    rewrite Heq. cbn [snd]. cbn [db trace] in Hrows, Htrace.
    split; [exact Hrows|].
    destruct Htrace as [-> | ->].
    + exists (evs ++ [Commit d2]), [d2].
      split_and!; [now rewrite <- !app_assoc | exact Hone | repeat constructor].
    + exists (evs ++ [Commit d2; Commit (db s3)]), [d2; db s3].
      split_and!.
      * now rewrite <- !app_assoc.
      * rewrite commits_app, Hone. simpl. now rewrite <- app_assoc.
      * repeat constructor. exact Hrows.
  - cbn [snd db trace]. split; [reflexivity|].
    exists (evs ++ [Commit d2]), [d2].
    split_and!; [now rewrite <- !app_assoc | exact Hone | repeat constructor].
Qed.

End RetryProperties.

(** C6. When the unit a retry is asked for is in any status but [failed],
    [retry_failed_analysis] raises [ValueError("Analysis is not in failed
    state")] and leaves the database and the trace, so the unit, exactly as
    they were; a retry that changes anything started from [failed]; and
    from [failed], with a persona that still resolves, the first thing the
    retry makes visible is the unit [running] with its error cleared. *)
Theorem retry_requires_failed (cfg : Settings) (world : nat -> attempt)
    (self : AnalysisService) (session_id persona_id document_text : string)
    (s : state) (i : nat) (row : Analysis.t) :
  query_analysis (db s) session_id persona_id = Some (i, row) →
  let r := retry_failed_analysis cfg world self session_id persona_id
             document_text s in
  (Analysis.status row ≠ "failed" →
     r = (Raises (mk_exc ValueError "Analysis is not in failed state"), s))
  ∧ (snd r ≠ s → Analysis.status row = "failed")
  ∧ (Analysis.status row = "failed" →
     ∀ persona, get_persona (db s) persona_id None = Some persona →
       ∃ d1 evs,
         trace (snd r) = trace s ++ Commit d1 :: evs
         ∧ analyses d1 !! i
           = Some (Analysis.set_error_message None
                     (Analysis.set_status "running" row))).
Proof.
  intros Hq. cbv zeta.
  assert (Hno : Analysis.status row ≠ "failed" →
            retry_failed_analysis cfg world self session_id persona_id
              document_text s
            = (Raises (mk_exc ValueError "Analysis is not in failed state"), s)).
  { intros Hst. unfold retry_failed_analysis. unfold bind at 1, get_db.
    rewrite Hq. apply String.eqb_neq in Hst. now rewrite Hst. }
  split_and!.
  - exact Hno.
  - intros Hchanged. destruct (decide (Analysis.status row = "failed")) as [|Hst];
      [assumption|]. rewrite (Hno Hst) in Hchanged. now elim Hchanged.
  - intros Hst persona Hp.
    destruct (retry_failed_analysis_effect cfg world self session_id persona_id
                document_text s i row persona Hq Hst Hp)
      as (_ & _ & evs & later & Htr & _).
    eexists _, evs. split; [exact Htr|]. cbn [analyses with_analyses].
    rewrite list_lookup_alter_eq, (query_analysis_Some _ _ _ _ _ Hq).
    reflexivity.
Qed.

Lemma retry_requires_failed_witness :
  retry_failed_analysis settings always_succeeds claude_service "s1" "cto"
    "launch copy" completed_state
  = (Raises (mk_exc ValueError "Analysis is not in failed state"),
     completed_state).
Proof.
  refine (proj1 (retry_requires_failed settings always_succeeds claude_service
                   "s1" "cto" "launch copy" completed_state 0%nat _ _) _).
  - vm_compute. reflexivity.
  - vm_compute. discriminate.
Defined.

(** ** The unit after a successful evaluation *)

(** The columns of a unit settled as completed. *)
Lemma settled_completed (fields : list (string * json)) (a : Analysis.t) :
  let a' := settled (inl fields) a in
  Analysis.status a' = "completed"
  ∧ Analysis.score_json a' = default JNull (assoc_get "dimension_scores" fields)
  ∧ Analysis.top_issues_json a' = default JNull (assoc_get "top_3_issues" fields)
  ∧ Analysis.rewritten_suggestions_json a'
    = JObj [("what_works_well",
             default (JArr []) (assoc_get "what_works_well" fields));
            ("overall_verdict",
             default (JStr "") (assoc_get "overall_verdict" fields));
            ("rewritten_headline",
             default (JStr "")
               (assoc_get "rewritten_headline_suggestion" fields))]
  ∧ Analysis.error_message a' = Analysis.error_message a
  ∧ Analysis.completed_at a' = Analysis.completed_at a.
Proof. repeat split. Qed.

(** C8, as stated, fails: a pending unit whose evaluation succeeds is left
    [completed] with its [completed_at] still empty. *)
Lemma completed_at_is_not_stamped :
  let r := run_unit settings always_succeeds claude_service "launch copy" []
             (0%nat, cto) pending_state in
  fst r = Returns [completed_report cto sample_result]
  ∧ Analysis.status <$> analyses (db (snd r)) = ["completed"]
  ∧ Analysis.completed_at <$> analyses (db (snd r)) = [None].
Proof. vm_compute. repeat split. Qed.

(** C8, amended. When the evaluation of a unit returns a dict, the executor
    leaves the unit [completed] with the payload stored in its three result
    columns; it writes neither the error message nor [completed_at], which
    stay as they were (empty for the units a job creates); the retry of a
    failed unit clears the error message before the evaluation and so
    leaves the completed unit without one, and does not write
    [completed_at] either. *)
Theorem unit_success_postcondition (cfg : Settings) (world : nat -> attempt)
    (self : AnalysisService) (document_text : string)
    (fields : list (string * json)) (s : state) (i : nat) (a : Analysis.t)
    (persona : PersonaProfile.t) :
  analyses (db s) !! i = Some a →
  let stored a' :=
    Analysis.status a' = "completed"
    ∧ Analysis.score_json a'
      = default JNull (assoc_get "dimension_scores" fields)
    ∧ Analysis.top_issues_json a'
      = default JNull (assoc_get "top_3_issues" fields)
    ∧ Analysis.rewritten_suggestions_json a'
      = JObj [("what_works_well",
               default (JArr []) (assoc_get "what_works_well" fields));
              ("overall_verdict",
               default (JStr "") (assoc_get "overall_verdict" fields));
              ("rewritten_headline",
               default (JStr "")
                 (assoc_get "rewritten_headline_suggestion" fields))]
    ∧ Analysis.completed_at a' = Analysis.completed_at a in
  (∀ results,
     let d1 := with_analyses (alter (Analysis.set_status "running") i) (db s) in
     fst (backend_run_analysis cfg world self
            (PersonaProfile.profile_json persona) document_text
            {| db := d1; trace := trace s ++ [Commit d1] |})
     = Returns (JObj fields) →
     let r := run_unit cfg world self document_text results (i, persona) s in
     fst r = Returns (results ++ [completed_report persona (JObj fields)])
     ∧ ∃ a', analyses (db (snd r)) !! i = Some a'
             ∧ stored a'
             ∧ Analysis.error_message a' = Analysis.error_message a)
  ∧ (∀ session_id persona_id,
       query_analysis (db s) session_id persona_id = Some (i, a) →
       Analysis.status a = "failed" →
       get_persona (db s) persona_id None = Some persona →
       let d1 := with_analyses (alter reset i) (db s) in
       fst (backend_run_analysis cfg world self
              (PersonaProfile.profile_json persona) document_text
              {| db := d1; trace := trace s ++ [Commit d1] |})
       = Returns (JObj fields) →
       let r := retry_failed_analysis cfg world self session_id persona_id
                  document_text s in
       fst r = Returns (completed_report persona (JObj fields))
       ∧ ∃ a', analyses (db (snd r)) !! i = Some a'
               ∧ stored a'
               ∧ Analysis.error_message a' = None).
Proof.
  intros Ha. cbv zeta. split.
  - intros results Hok.
    pose proof (run_unit_spec cfg world self document_text results i persona s)
      as Hspec.
    cbv zeta in Hspec. rewrite Hok in Hspec. rewrite Hspec.
    split; [reflexivity|]. cbn [snd db analyses with_analyses verdict].
    rewrite list_lookup_alter_eq, Ha. eexists. split; [reflexivity|].
    pose proof (settled_completed fields a) as H. cbv zeta in H. tauto.
  - intros session_id persona_id Hq Hst Hp Hok.
    destruct (retry_failed_analysis_effect cfg world self session_id persona_id
                document_text s i a persona Hq Hst Hp) as (Hret & Hrows & _).
    rewrite Hok in Hret, Hrows. cbn [verdict] in Hret, Hrows.
    split; [exact Hret|]. rewrite Hrows, list_lookup_alter_eq, Ha.
    eexists. split; [reflexivity|].
    pose proof (settled_completed fields (reset a)) as H. cbv zeta in H.
    unfold compose. cbn [reset] in H. tauto.
Qed.

Lemma unit_success_postcondition_witness :
  ∃ a',
    analyses (db (snd (run_unit settings always_succeeds claude_service
                         "launch copy" [] (0%nat, cto) pending_state)))
      !! 0%nat = Some a'
    ∧ Analysis.status a' = "completed"
    ∧ Analysis.error_message a' = None
    ∧ Analysis.completed_at a' = None.
Proof.
  destruct (proj1 (unit_success_postcondition settings always_succeeds
                     claude_service "launch copy"
                     [("persona_role", JStr "CTO");
                      ("overall_score", JNum 7);
                      ("dimension_scores",
                       JObj [("relevance", JObj [("score", JNum 7)])]);
                      ("top_3_issues", JArr [JObj [("issue", JStr "vague")]]);
                      ("what_works_well", JArr [JStr "tone"]);
                      ("overall_verdict", JStr "yes");
                      ("rewritten_headline_suggestion", JStr "Ship faster")]
                     pending_state 0%nat (Analysis.new "s1" "cto" "pending") cto
                     eq_refl) [] eq_refl)
    as (_ & a' & Hrow & (Hst & _ & _ & _ & Hat) & Herr).
  exists a'. repeat split; assumption.
Defined.

(** ** Result and error exclude each other *)

Lemma blank_ok (a : Analysis.t) :
  blank a →
  Analysis.status a ≠ "completed" → Analysis.status a ≠ "failed" → unit_ok a.
Proof.
  intros (H1 & H2 & H3 & H4) Hc Hf. unfold unit_ok, has_result, has_error.
  rewrite H1, H2, H3, H4. split_and!; [tauto | congruence | congruence].
Qed.

Lemma blank_running (a : Analysis.t) :
  blank a → unit_ok (Analysis.set_status "running" a).
Proof.
  intros Hb. apply blank_ok; [exact Hb | discriminate | discriminate].
Qed.

Lemma blank_settled (v : list (string * json) + py_exception) (a : Analysis.t) :
  blank a → unit_ok (settled v a).
Proof.
  intros (H1 & H2 & H3 & H4). unfold unit_ok, has_result, has_error.
  destruct v as [fields|e]; cbn; rewrite ?H1, ?H2, ?H3, ?H4.
  - split_and!; [tauto | | discriminate].
    intros _. split; [right; right; discriminate | tauto].
  - split_and!; [tauto | discriminate |].
    intros _. split; [discriminate | tauto].
Qed.

Lemma json_not_not_null (v : json) : ¬ v ≠ JNull → v = JNull.
Proof. destruct v; intros H; try reflexivity; elim H; discriminate. Qed.

Lemma failed_reset_blank (a : Analysis.t) :
  unit_ok a → Analysis.status a = "failed" → blank (reset a).
Proof.
  intros (_ & _ & Hf) Hst. destruct (Hf Hst) as [_ Hno].
  unfold has_result in Hno. unfold blank. cbn.
  split_and!; try reflexivity; apply json_not_not_null; tauto.
Qed.

Lemma blank_new (session_id persona_id st : string) :
  blank (Analysis.new session_id persona_id st).
Proof. repeat split. Qed.

Lemma pending_rows_ok (session_id : string) (personas : list PersonaProfile.t) :
  Forall unit_ok (pending_rows session_id personas)
  ∧ Forall blank (pending_rows session_id personas).
Proof.
  unfold pending_rows. split; apply Forall_fmap, Forall_forall; intros p _.
  - apply blank_ok; [apply blank_new | discriminate | discriminate].
  - apply blank_new.
Qed.

(** The invariant of the observable states: every unit in the database,
    and in every snapshot committed so far, is in order. *)
Local Abbreviation observed_ok s :=
  (units_ok (db s) ∧ Forall units_ok (commits (trace s))).

Lemma unit_step_ok (i : nat) (v : list (string * json) + py_exception)
    (s s' : state) :
  unit_step i v s s' →
  (∀ a, analyses (db s) !! i = Some a → blank a) →
  observed_ok s → observed_ok s'.
Proof.
  intros (evs & Hevs & ->) Hblank [Hdb Hlog]. cbn [db trace].
  assert (H1 : units_ok (with_analyses (alter (Analysis.set_status "running") i)
                           (db s))).
  { apply Forall_alter; [exact Hdb|]. intros a Ha _. now apply blank_running, Hblank. }
  assert (H2 : units_ok (with_analyses (alter (settled v) i) (db s))).
  { apply Forall_alter; [exact Hdb|]. intros a Ha _. now apply blank_settled, Hblank. }
  split; [exact H2|].
  rewrite commits_app. cbn [commits]. rewrite commits_app, Hevs. cbn.
  apply Forall_app. split; [exact Hlog | repeat constructor; assumption].
Qed.

Lemma units_run_ok (units : list (nat * PersonaProfile.t))
    (vs : list (list (string * json) + py_exception)) (s s' : state) :
  units_run units vs s s' →
  NoDup (fst <$> units) →
  (∀ j a, j ∈ fst <$> units → analyses (db s) !! j = Some a → blank a) →
  observed_ok s → observed_ok s'.
Proof.
  induction 1 as [s|i persona units v vs s s' s'' Hstep _ IH];
    intros Hnd Hblank Hok; [exact Hok|].
  rewrite fmap_cons in Hnd, Hblank. cbn [fst] in Hnd, Hblank.
  apply NoDup_cons in Hnd as [Hi Hnd].
  apply IH; [exact Hnd | |].
  - intros j a Hj Ha. apply (Hblank j); [now right|].
    destruct Hstep as (evs & _ & ->). cbn [db analyses with_analyses] in Ha.
    rewrite list_lookup_alter_ne in Ha; [exact Ha|]. intros ->. contradiction.
  - eapply unit_step_ok; [exact Hstep | | exact Hok].
    intros a Ha. apply (Hblank i); [now left | exact Ha].
Qed.

Section Invariant.

Variable cfg : Settings.
Variable world : nat -> attempt.
Variable self : AnalysisService.

Lemma analyze_document_ok (session_id document_text : string)
    (ids : list string) (sequential : bool) (s : state) :
  observed_ok s →
  observed_ok (snd (analyze_document cfg world self session_id document_text
                      ids sequential s)).
Proof.
  intros [Hdb Hlog].
  destruct (query_session (db s) session_id) as [[session row]|] eqn:Hq.
  - pose proof (analyze_document_spec cfg world self session_id document_text
                  ids sequential s session row Hq) as Hspec.
    cbv zeta in Hspec.
    destruct (resolved (db s) ids) as [|persona personas] eqn:Hres.
    + rewrite Hspec. cbn [snd db trace]. split; [exact Hdb|].
      rewrite commits_app. apply Forall_app.
      split; [exact Hlog | repeat constructor; exact Hdb].
    + destruct Hspec as (vs & s3 & Hrun & summary & -> & _).
      destruct (pending_rows_ok session_id (persona :: personas))
        as [Hnew Hblank].
      assert (Hd2 : Forall unit_ok
                      (analyses (db s)
                       ++ pending_rows session_id (persona :: personas)))
        by (apply Forall_app; split; assumption).
      apply units_run_ok in Hrun as [Hdb3 Hlog3].
      * cbn [snd db trace]. split; [exact Hdb3|].
        rewrite commits_app. apply Forall_app.
        split; [exact Hlog3 | repeat constructor; exact Hdb3].
      * rewrite job_units_indices. apply NoDup_seq.
      * intros j a Hj Ha. rewrite job_units_indices in Hj.
        apply elem_of_seq in Hj. cbn [db analyses with_analyses with_sessions] in Ha.
        rewrite lookup_app_r in Ha by lia.
        rewrite Forall_lookup in Hblank. eapply Hblank, Ha.
      * cbn [db trace]. split; [exact Hd2|].
        rewrite commits_app. apply Forall_app.
        split; [exact Hlog | repeat constructor; assumption].
  - replace (snd (analyze_document cfg world self session_id document_text
                    ids sequential s)) with s; [exact (conj Hdb Hlog)|].
    unfold analyze_document. unfold bind at 1, get_db. now rewrite Hq.
Qed.

Lemma retry_failed_analysis_ok (session_id persona_id document_text : string)
    (s : state) :
  observed_ok s →
  observed_ok (snd (retry_failed_analysis cfg world self session_id persona_id
                      document_text s)).
Proof.
  intros [Hdb Hlog].
  assert (Hsame : snd (retry_failed_analysis cfg world self session_id
                         persona_id document_text s) = s → observed_ok
            (snd (retry_failed_analysis cfg world self session_id persona_id
                    document_text s))) by (intros ->; exact (conj Hdb Hlog)).
  destruct (query_analysis (db s) session_id persona_id) as [[i row]|] eqn:Hq;
    [|apply Hsame; unfold retry_failed_analysis; unfold bind at 1, get_db;
      now rewrite Hq].
  destruct (decide (Analysis.status row = "failed")) as [Hst|Hst];
    [|apply Hsame; unfold retry_failed_analysis; unfold bind at 1, get_db;
      rewrite Hq; apply String.eqb_neq in Hst; now rewrite Hst].
  destruct (get_persona (db s) persona_id None) as [persona|] eqn:Hp;
    [|apply Hsame; unfold retry_failed_analysis; unfold bind at 1, get_db;
      now rewrite Hq, Hst, Hp, String.eqb_refl].
  clear Hsame.
  destruct (retry_failed_analysis_effect cfg world self session_id persona_id
              document_text s i row persona Hq Hst Hp)
    as (_ & Hrows & evs & later & _ & Hcommits & Hlater).
  pose proof (query_analysis_Some _ _ _ _ _ Hq) as Hrow.
  assert (Hblank : ∀ a, analyses (db s) !! i = Some a → blank (reset a)).
  { intros a Ha. assert (a = row) as -> by congruence.
    apply failed_reset_blank; [|exact Hst].
    eapply (proj1 (Forall_lookup _ _) Hdb), Hrow. }
  set (v := verdict _) in *.
  assert (H1 : Forall unit_ok (alter reset i (analyses (db s)))).
  { apply Forall_alter; [exact Hdb|]. intros a Ha _.
    apply blank_ok; [now apply Hblank | discriminate | discriminate]. }
  assert (H2 : Forall unit_ok (alter (settled v ∘ reset) i (analyses (db s)))).
  { apply Forall_alter; [exact Hdb|]. intros a Ha _.
    now apply blank_settled, Hblank. }
  split.
  - unfold units_ok. rewrite Hrows. exact H2.
  - rewrite Hcommits. apply Forall_app. split; [exact Hlog|].
    constructor; [exact H1|].
    eapply Forall_impl; [exact Hlater|]. intros d Hd. unfold units_ok.
    rewrite Hd. exact H2.
Qed.

End Invariant.

(** C9. In every state the public operations lead to, from a database
    without units, and in every snapshot committed on the way, no unit has
    both a result and an error; a completed unit has a result and no error,
    a failed unit an error and no result. *)
Theorem result_error_exclusive (s : state) :
  reachable s →
  (∀ a, a ∈ analyses (db s) →
     ¬ (has_result a ∧ has_error a)
     ∧ (Analysis.status a = "completed" → has_result a ∧ ¬ has_error a)
     ∧ (Analysis.status a = "failed" → has_error a ∧ ¬ has_result a))
  ∧ ∀ d a, d ∈ commits (trace s) → a ∈ analyses d →
      ¬ (has_result a ∧ has_error a)
      ∧ (Analysis.status a = "completed" → has_result a ∧ ¬ has_error a)
      ∧ (Analysis.status a = "failed" → has_error a ∧ ¬ has_result a).
Proof.
  intros Hreach.
  assert (Hok : observed_ok s).
  { induction Hreach as [d Hd | | ].
    - cbn. unfold units_ok. rewrite Hd. split; constructor.
    - now apply analyze_document_ok.
    - now apply retry_failed_analysis_ok. }
  destruct Hok as [Hdb Hlog]. split.
  - intros a Ha. unfold units_ok in Hdb. rewrite Forall_forall in Hdb.
    apply (Hdb a Ha).
  - intros d a Hd Ha. rewrite Forall_forall in Hlog.
    pose proof (Hlog d Hd) as Hunits. unfold units_ok in Hunits.
    rewrite Forall_forall in Hunits. apply (Hunits a Ha).
Qed.

Lemma result_error_exclusive_witness :
  reachable failed_state ∧ Forall unit_ok (analyses (db failed_state)).
Proof.
  assert (Hreach : reachable failed_state).
  { apply (reachable_analyze settings (always TimesOut) claude_service "s1"
             "launch copy" ["cto"; "ciso"] true sample_state).
    apply reachable_start. reflexivity. }
  split; [exact Hreach|].
  apply Forall_forall.
  exact (proj1 (result_error_exclusive failed_state Hreach)).
Defined.

(** * Further properties *)

(** ** The retry loop: what it raises and how long it takes *)

Lemma total_sleep_app (tr tr' : list event) :
  total_sleep (tr ++ tr') = (total_sleep tr + total_sleep tr')%Z.
Proof.
  unfold total_sleep. rewrite sleeps_app.
  induction (sleeps tr) as [|n l IH]; simpl; lia.
Qed.

Section RetryBounds.

Variable cfg : Settings.
Variable world : nat -> attempt.
Variable cmd : string.
Variable prompt : list fragment.

Local Abbreviation loop := (retry_loop cfg world cmd prompt).

Lemma spawn_count_spawned (tr : list event) :
  spawn_count (tr ++ [Spawn cmd prompt]) = S (spawn_count tr).
Proof.
  rewrite spawn_count_app. change (spawn_count [Spawn cmd prompt]) with 1%nat. lia.
Qed.

Lemma spawn_count_slept (tr : list event) (k : Z) :
  spawn_count ((tr ++ [Spawn cmd prompt]) ++ [Sleep k]) = S (spawn_count tr).
Proof.
  rewrite spawn_count_app, spawn_count_spawned.
  change (spawn_count [Sleep k]) with 0%nat. lia.
Qed.

(** When no attempt has a result, the loop raises what its last attempt
    makes it raise. *)
Lemma retry_loop_last_error (len : nat) (j : Z) (s : state) :
  j + Z.of_nat len = AI_RETRY_ATTEMPTS cfg →
  len ≠ 0%nat →
  first_result world (spawn_count (trace s)) len = None →
  fst (loop (seqZ j (Z.of_nat len)) s)
  = Raises (final_error (world (spawn_count (trace s) + len - 1)%nat)).
Proof.
  revert j s. induction len as [|len IH]; intros j s Hm Hne Hnone; [congruence|].
  rewrite seqZ_succ_cons, retry_loop_cons. cbv zeta.
  cbn [first_result] in Hnone.
  destruct (attempt_result (world (spawn_count (trace s)))) eqn:Hres;
    [discriminate|].
  replace (spawn_count (trace s) + S len - 1)%nat
    with (spawn_count (trace s) + len)%nat by lia.
  destruct (j =? AI_RETRY_ATTEMPTS cfg - 1)%Z eqn:Elast.
  - apply Z.eqb_eq in Elast. assert (len = 0%nat) as -> by lia.
    rewrite Nat.add_0_r. unfold final_error.
    destruct (isinstance _ TimeoutError); reflexivity.
  - apply Z.eqb_neq in Elast. assert (len ≠ 0%nat) by lia.
    destruct (isinstance _ TimeoutError).
    + rewrite IH; cbn [trace]; rewrite ?spawn_count_spawned;
        [do 2 f_equal; f_equal; lia | lia | assumption | assumption].
    + rewrite IH; cbn [trace]; rewrite ?spawn_count_slept;
        [do 2 f_equal; f_equal; lia | lia | assumption | assumption].
Qed.

(** The pauses of the loop add up to less than [2 ^ (attempts - 1)]
    seconds. *)
Lemma retry_loop_total_sleep (len : nat) (j : Z) (s : state) :
  0 <= j →
  j + Z.of_nat len = AI_RETRY_ATTEMPTS cfg →
  total_sleep (trace (snd (loop (seqZ j (Z.of_nat len)) s)))
  <= total_sleep (trace s) + Z.max 0 (2 ^ (AI_RETRY_ATTEMPTS cfg - 1) - 2 ^ j).
Proof.
  revert j s. induction len as [|len IH]; intros j s Hj Hm; [simpl; lia|].
  rewrite seqZ_succ_cons, retry_loop_cons. cbv zeta.
  assert (Hspawn : total_sleep (trace s ++ [Spawn cmd prompt]) = total_sleep (trace s)).
  { rewrite total_sleep_app. unfold total_sleep at 2. simpl. lia. }
  destruct (attempt_result _); [cbn [snd trace]; lia|].
  destruct (j =? AI_RETRY_ATTEMPTS cfg - 1)%Z eqn:Elast.
  - destruct (isinstance _ TimeoutError); cbn [snd trace]; lia.
  - apply Z.eqb_neq in Elast.
    assert (Hpow : 2 ^ Z.succ j = 2 * 2 ^ j) by (apply Z.pow_succ_r; lia).
    assert (Hmono : 2 ^ Z.succ j <= 2 ^ (AI_RETRY_ATTEMPTS cfg - 1))
      by (apply Z.pow_le_mono_r; lia).
    assert (Hpos : 0 < 2 ^ j) by (apply Z.pow_pos_nonneg; lia).
    destruct (isinstance _ TimeoutError).
    + specialize (IH (Z.succ j)
                    {| db := db s; trace := trace s ++ [Spawn cmd prompt] |}).
      cbn [trace] in IH. lia.
    + specialize (IH (Z.succ j)
                    {| db := db s;
                       trace := (trace s ++ [Spawn cmd prompt]) ++ [Sleep (2 ^ j)] |}).
      cbn [trace] in IH. rewrite total_sleep_app in IH. rewrite Hspawn in IH.
      unfold total_sleep at 3 in IH. simpl in IH. lia.
Qed.

Lemma attempts_made_le (n len : nat) : (attempts_made world n len <= len)%nat.
Proof.
  revert n. induction len as [|len IH]; intros n; simpl; [lia|].
  destruct (attempt_result (world n)); [lia|]. specialize (IH (S n)). lia.
Qed.

End RetryBounds.

(** X1. What an evaluation by the Claude Code backend comes to, for a
    profile that is a dict: the result of the first attempt that has one;
    when none of the [AI_RETRY_ATTEMPTS] attempts has a result, the
    exception of the last attempt, with the message
    ["Analysis timed out after all retries"] in place of a timeout; and
    ["Failed after all retries"] when no attempt is configured. *)
Theorem run_analysis_outcome (cfg : Settings) (world : nat -> attempt)
    (fields : list (string * json)) (document_text : string) (s : state) :
  let n := spawn_count (trace s) in
  let m := Z.to_nat (AI_RETRY_ATTEMPTS cfg) in
  fst (run_analysis cfg world ClaudeCodeBackend (JObj fields) document_text s)
  = match first_result world n m with
    | Some result => Returns result
    | None =>
        if (m =? 0)%nat
        then Raises (mk_exc Exception "Failed after all retries")
        else Raises (final_error (world (n + m - 1)%nat))
    end.
Proof.
  cbv zeta.
  destruct (first_result world (spawn_count (trace s))
              (Z.to_nat (AI_RETRY_ATTEMPTS cfg))) as [result|] eqn:Hfirst.
  - destruct (run_analysis_attempts cfg world fields document_text s) as [_ Hr].
    now rewrite Hfirst in Hr.
  - destruct (run_analysis_claude cfg world fields document_text s)
      as (prompt & _ & ->).
    destruct (Nat.eqb_spec (Z.to_nat (AI_RETRY_ATTEMPTS cfg)) 0) as [Hz|Hnz].
    + unfold py_range. rewrite seqZ_nil by lia. reflexivity.
    + rewrite py_range_to_nat. apply retry_loop_last_error; [lia | assumption..].
Qed.

(** X2. An evaluation starts at most [AI_RETRY_ATTEMPTS] processes, and
    its pauses add up to at most [2 ^ (AI_RETRY_ATTEMPTS - 1) - 1]
    seconds: at most 3 seconds for the default of 3 attempts. *)
Theorem retry_is_bounded (cfg : Settings) (world : nat -> attempt)
    (fields : list (string * json)) (document_text : string) (s : state) :
  let r := run_analysis cfg world ClaudeCodeBackend (JObj fields) document_text s in
  (Z.of_nat (spawn_count (trace (snd r)))
   <= Z.of_nat (spawn_count (trace s)) + Z.max 0 (AI_RETRY_ATTEMPTS cfg))%Z
  ∧ (total_sleep (trace (snd r))
     <= total_sleep (trace s) + Z.max 0 (2 ^ (AI_RETRY_ATTEMPTS cfg - 1) - 1))%Z
  ∧ (AI_RETRY_ATTEMPTS cfg = 3 →
     total_sleep (trace (snd r)) <= total_sleep (trace s) + 3)%Z.
Proof.
  cbv zeta.
  destruct (run_analysis_attempts cfg world fields document_text s) as [Hn _].
  pose proof (attempts_made_le world (spawn_count (trace s))
                (Z.to_nat (AI_RETRY_ATTEMPTS cfg))) as Hle.
  assert (Hsleep : (total_sleep (trace (snd (run_analysis cfg world
                      ClaudeCodeBackend (JObj fields) document_text s)))
                    <= total_sleep (trace s)
                       + Z.max 0 (2 ^ (AI_RETRY_ATTEMPTS cfg - 1) - 1))%Z).
  { destruct (run_analysis_claude cfg world fields document_text s)
      as (prompt & _ & ->).
    destruct (Z.le_gt_cases 0 (AI_RETRY_ATTEMPTS cfg)).
    - rewrite py_range_to_nat.
      pose proof (retry_loop_total_sleep cfg world "claude" prompt
                    (Z.to_nat (AI_RETRY_ATTEMPTS cfg)) 0 s) as Hb.
      rewrite Z.pow_0_r in Hb. apply Hb; lia.
    - unfold py_range. rewrite seqZ_nil by lia. simpl. lia. }
  split_and!; [clear Hsleep; lia | exact Hsleep |].
  intros H3. rewrite H3 in Hsleep.
  change (Z.max 0 (2 ^ (3 - 1) - 1)) with 3%Z in Hsleep. exact Hsleep.
Qed.

(** X3. With [AI_RETRY_ATTEMPTS] at zero or below, an evaluation raises
    ["Failed after all retries"] at once: it starts no process and leaves
    the state as it was. *)
Theorem no_attempts_configured (cfg : Settings) (world : nat -> attempt)
    (fields : list (string * json)) (document_text : string) (s : state) :
  (AI_RETRY_ATTEMPTS cfg <= 0)%Z →
  run_analysis cfg world ClaudeCodeBackend (JObj fields) document_text s
  = (Raises (mk_exc Exception "Failed after all retries"), s).
Proof.
  intros Hm.
  destruct (run_analysis_claude cfg world fields document_text s)
    as (prompt & _ & ->).
  unfold py_range. rewrite seqZ_nil by lia. reflexivity.
Qed.

Lemma no_attempts_configured_witness :
  run_analysis
    {| DEFAULT_AI_BACKEND := "claude"; AI_TIMEOUT := 120; AI_RETRY_ATTEMPTS := 0 |}
    always_succeeds ClaudeCodeBackend (JObj [("role", JStr "CTO")])
    "launch copy" sample_state
  = (Raises (mk_exc Exception "Failed after all retries"), sample_state).
Proof.
  apply (no_attempts_configured
           {| DEFAULT_AI_BACKEND := "claude"; AI_TIMEOUT := 120;
              AI_RETRY_ATTEMPTS := 0 |}
           always_succeeds [("role", JStr "CTO")] "launch copy" sample_state).
  simpl. lia.
Defined.

(** ** The backend factory *)

Lemma get_backend_cases (cfg : Settings) (installed : string -> bool)
    (backend_name : option string) :
  let name := if truthy backend_name then default "" backend_name
              else DEFAULT_AI_BACKEND cfg in
  get_backend cfg installed backend_name
  = if decide (name = "claude") then
      if installed "claude" then Returns ClaudeCodeBackend
      else Raises (mk_exc RuntimeError
                     ("Backend " +:+ name
                      +:+ " is not available. Is the CLI installed?"))
    else if decide (name = "codex") then
      if installed "codex" then Returns CodexBackend
      else Raises (mk_exc RuntimeError
                     ("Backend " +:+ name
                      +:+ " is not available. Is the CLI installed?"))
    else if decide (name = "opencode") then
      if installed "opencode" then Returns OpenCodeBackend
      else Raises (mk_exc RuntimeError
                     ("Backend " +:+ name
                      +:+ " is not available. Is the CLI installed?"))
    else Raises (mk_exc ValueError ("Unknown backend: " +:+ name)).
Proof.
  cbv zeta. unfold get_backend. cbv zeta.
  set (name := if truthy backend_name then _ else _).
  clearbody name. unfold _backends, is_available. simpl.
  repeat case_decide; subst; try congruence; simpl;
    repeat match goal with
           | |- context [installed ?c] => destruct (installed c)
           end;
    reflexivity.
Qed.

Lemma list_available_backends_cases (installed : string -> bool) :
  list_available_backends installed
  = (if installed "claude" then ["claude"] else [])
    ++ (if installed "codex" then ["codex"] else [])
    ++ (if installed "opencode" then ["opencode"] else []).
Proof.
  unfold list_available_backends, _backends, is_available. simpl.
  destruct (installed "claude"), (installed "codex"), (installed "opencode");
    reflexivity.
Qed.

(** X4. [get_backend] returns a backend only when the command of that
    backend is installed, and that command is the name asked for, the
    configured default when no name (or an empty one) is given; a name that
    is not registered raises [ValueError] whatever is installed. *)
Theorem get_backend_installed (cfg : Settings) (installed : string -> bool)
    (backend_name : option string) :
  let name := if truthy backend_name then default "" backend_name
              else DEFAULT_AI_BACKEND cfg in
  (∀ b, get_backend cfg installed backend_name = Returns b →
        installed (command b) = true ∧ command b = name)
  ∧ (name ∉ ["claude"; "codex"; "opencode"] →
     get_backend cfg installed backend_name
     = Raises (mk_exc ValueError ("Unknown backend: " +:+ name)))
  ∧ get_backend cfg installed None
    = get_backend cfg installed (Some (DEFAULT_AI_BACKEND cfg)).
Proof.
  cbv zeta. split_and!.
  - intros b. rewrite get_backend_cases. cbv zeta.
    repeat case_decide;
      try (match goal with |- context [installed ?c] =>
             destruct (installed c) eqn:Hc end);
      intros Hb; inversion Hb; subst; split; try assumption; simpl; congruence.
  - intros Hnot. rewrite get_backend_cases. cbv zeta.
    rewrite !elem_of_cons, elem_of_nil in Hnot.
    repeat case_decide; try reflexivity; tauto.
  - rewrite !get_backend_cases. cbv zeta. cbn [truthy default].
    destruct (String.eqb (DEFAULT_AI_BACKEND cfg) "") eqn:E; [|reflexivity].
    apply String.eqb_eq in E. rewrite E. reflexivity.
Qed.

(** X5. The names [list_available_backends] lists are exactly the names
    [get_backend] returns a backend for. *)
Theorem listed_backends_can_be_got (cfg : Settings) (installed : string -> bool)
    (name : string) :
  name ≠ "" →
  name ∈ list_available_backends installed
  ↔ ∃ b, get_backend cfg installed (Some name) = Returns b.
Proof.
  intros Hne. rewrite list_available_backends_cases, get_backend_cases.
  cbv zeta. apply String.eqb_neq in Hne. cbn [truthy default]. rewrite Hne.
  cbn [negb].
  assert (Hin : ∀ (c : bool) (x : string),
            name ∈ (if c then [x] else []) ↔ c = true ∧ name = x).
  { intros [] x; [rewrite list_elem_of_singleton | rewrite elem_of_nil];
      intuition congruence. }
  rewrite !elem_of_app, !Hin. unfold id. clear Hin.
  repeat case_decide; subst;
    destruct (installed "claude"), (installed "codex"), (installed "opencode");
    split; intros Hx; try (eexists; reflexivity);
    try (destruct Hx as [b Hb]; discriminate);
    intuition congruence.
Qed.

Lemma listed_backends_can_be_got_witness :
  "claude" ∈ list_available_backends (fun c => String.eqb c "claude")
  ↔ ∃ b, get_backend settings (fun c => String.eqb c "claude") (Some "claude")
         = Returns b.
Proof.
  apply (listed_backends_can_be_got settings (fun c => String.eqb c "claude")
           "claude").
  discriminate.
Defined.

(** ** Personas *)

Lemma get_persona_find (d : database) (persona_id : string)
    (user_email : option string) :
  get_persona d persona_id user_email
  = List.find (fun p => String.eqb (PersonaProfile.id p) persona_id
                        && persona_visible user_email p)
      (persona_profiles d).
Proof. reflexivity. Qed.

Lemma get_persona_visible (d : database) (persona_id : string)
    (user_email : option string) (persona : PersonaProfile.t) :
  get_persona d persona_id user_email = Some persona →
  persona ∈ persona_profiles d
  ∧ PersonaProfile.id persona = persona_id
  ∧ persona_visible user_email persona = true.
Proof.
  rewrite get_persona_find. intros [Hin H]%find_some.
  apply andb_prop in H as [Hid Hvis]. apply String.eqb_eq in Hid.
  split_and!; [now apply list_elem_of_In | assumption..].
Qed.

(** X6. The two lookups of the persona service agree: the persona
    [get_persona] returns for a caller is one of those [get_all_personas]
    lists for that caller, under the id asked for; and every persona listed
    for a caller can be looked up by that caller under its id. *)
Theorem get_persona_among_all (d : database) (user_email : option string) :
  (∀ persona_id persona,
     get_persona d persona_id user_email = Some persona →
     persona ∈ get_all_personas d user_email
     ∧ PersonaProfile.id persona = persona_id)
  ∧ (∀ persona,
       persona ∈ get_all_personas d user_email →
       ∃ found, get_persona d (PersonaProfile.id persona) user_email = Some found
                ∧ PersonaProfile.id found = PersonaProfile.id persona).
Proof.
  split.
  - intros persona_id persona (Hin & Hid & Hvis)%get_persona_visible.
    split; [|exact Hid]. unfold get_all_personas.
    apply list_elem_of_In, filter_In. split; [now apply list_elem_of_In | exact Hvis].
  - intros persona Hin. unfold get_all_personas in Hin.
    apply list_elem_of_In, filter_In in Hin as [Hin Hvis].
    destruct (get_persona d (PersonaProfile.id persona) user_email)
      as [found|] eqn:E.
    + exists found. split; [reflexivity|].
      now apply get_persona_visible in E as (_ & Hid & _).
    + rewrite get_persona_find in E.
      pose proof (find_none _ _ E persona Hin) as Hno. cbv beta in Hno.
      rewrite String.eqb_refl, Hvis in Hno. discriminate.
Qed.

(** X7. [promote_persona_to_system] promotes nothing: its lookup, made
    without a user, returns system personas only, so for every database,
    id and caller the endpoint answers 403, 404 or 400 and leaves the
    database as it was. *)
Theorem promote_never_promotes (d : database) (persona_id : string)
    (current_user : User.t) :
  snd (promote_persona_to_system d persona_id current_user) = d
  ∧ ∃ status_code detail,
      fst (promote_persona_to_system d persona_id current_user)
      = HTTPException status_code detail
      ∧ (status_code = 403 ∨ status_code = 404 ∨ status_code = 400).
Proof.
  unfold promote_persona_to_system, get_admin_user.
  destruct (User.is_admin current_user); cbn [negb];
    [|split; [reflexivity | eexists _, _; split; [reflexivity | tauto]]].
  destruct (get_persona d persona_id None) as [persona|] eqn:E;
    [|split; [reflexivity | eexists _, _; split; [reflexivity | tauto]]].
  apply get_persona_visible in E as (_ & _ & Hvis).
  unfold persona_visible in Hvis. cbn [truthy] in Hvis. rewrite Hvis.
  split; [reflexivity | eexists _, _; split; [reflexivity | tauto]].
Qed.

(** ** Deleting a persona *)

Lemma query_persona_Some (d : database) (persona_id : string) (row : nat)
    (persona : PersonaProfile.t) :
  query_persona d persona_id = Some (row, persona) →
  persona_profiles d !! row = Some persona
  ∧ PersonaProfile.id persona = persona_id.
Proof.
  unfold query_persona. intros (H1 & H2 & _)%list_find_Some. now split.
Qed.

(** X8. [delete_persona] deletes a system persona for an admin only, and
    a custom persona for its creator only, an admin who is not the creator
    included; otherwise it raises [PermissionError] or, for an id without
    a row, returns [False], and the database stays as it was.  When it
    deletes, one persona row with that id goes, every other row stays, the
    sessions stay, and every analysis of that persona goes with it. *)
Theorem delete_persona_permissions (d : database)
    (persona_id user_email : string) (is_admin : bool) :
  (query_persona d persona_id = None →
   delete_persona d persona_id user_email is_admin = Allowed false d)
  ∧ (∀ row persona,
       query_persona d persona_id = Some (row, persona) →
       let permitted :=
         if PersonaProfile.is_system persona then is_admin
         else bool_decide
                (PersonaProfile.created_by_email persona = Some user_email) in
       if permitted then
         ∃ d', delete_persona d persona_id user_email is_admin = Allowed true d'
               ∧ sessions d' = sessions d
               ∧ persona_profiles d' = delete row (persona_profiles d)
               ∧ S (length (persona_profiles d')) = length (persona_profiles d)
               ∧ (∀ a, a ∈ analyses d' ↔
                       a ∈ analyses d ∧ Analysis.persona_id a ≠ persona_id)
       else
         ∃ msg, delete_persona d persona_id user_email is_admin
                = PermissionError msg).
Proof.
  unfold delete_persona. split; [now intros ->|].
  intros row persona Hq. rewrite Hq.
  destruct (query_persona_Some _ _ _ _ Hq) as [Hrow Hid]. cbv zeta.
  destruct (PersonaProfile.is_system persona), is_admin; cbn [negb andb];
    try (eexists; reflexivity).
  - eexists. split_and!; try reflexivity.
    + cbn [persona_profiles]. rewrite length_delete by eauto.
      apply lookup_lt_Some in Hrow. lia.
    + intros a. cbn [analyses]. rewrite list_elem_of_filter, Hid. tauto.
  - destruct (bool_decide _); cbn [negb]; [|eexists; reflexivity].
    eexists. split_and!; try reflexivity.
    + cbn [persona_profiles]. rewrite length_delete by eauto.
      apply lookup_lt_Some in Hrow. lia.
    + intros a. cbn [analyses]. rewrite list_elem_of_filter, Hid. tauto.
  - destruct (bool_decide _); cbn [negb]; [|eexists; reflexivity].
    eexists. split_and!; try reflexivity.
    + cbn [persona_profiles]. rewrite length_delete by eauto.
      apply lookup_lt_Some in Hrow. lia.
    + intros a. cbn [analyses]. rewrite list_elem_of_filter, Hid. tauto.
Qed.

(** ** Sharing a session *)

Lemma add_shares_spec (emails current : list string) :
  ∃ added,
    add_shares current emails = current ++ added
    ∧ (NoDup current → NoDup (current ++ added))
    ∧ (∀ e, e ∈ added → e ∈ emails ∧ e ∉ current)
    ∧ (∀ e, e ∈ emails → e ∈ current ++ added).
Proof.
  unfold add_shares. revert current.
  induction emails as [|email emails IH]; intros current.
  - exists []. rewrite app_nil_r. split_and!; auto; intros e H; inversion H.
  - cbn [fold_left]. case_bool_decide as Hin.
    + destruct (IH current) as (added & Heq & Hnd & Hnew & Hall).
      exists added. split_and!; auto.
      * intros e He. destruct (Hnew e He). split; [now right | assumption].
      * intros e [->|He]%elem_of_cons; [apply elem_of_app; now left | auto].
    + destruct (IH (current ++ [email])) as (added & Heq & Hnd & Hnew & Hall).
      exists (email :: added).
      replace (current ++ email :: added) with ((current ++ [email]) ++ added)
        by now rewrite <- app_assoc.
      split_and!; auto.
      * intros Hc. apply Hnd. apply NoDup_app. split_and!; [assumption | |].
        -- intros x Hx Hx'. apply list_elem_of_singleton in Hx'. now subst.
        -- apply NoDup_singleton.
      * intros e [->|He]%elem_of_cons; [split; [now left | assumption]|].
        destruct (Hnew e He) as [H1 H2]. split; [now right|].
        intros Hc. apply H2, elem_of_app. now left.
      * intros e [->|He]%elem_of_cons; [|auto].
        apply elem_of_app. left. apply elem_of_app. right. now left.
Qed.

Lemma add_shares_present (emails current : list string) :
  (∀ e, e ∈ emails → e ∈ current) → add_shares current emails = current.
Proof.
  unfold add_shares. induction emails as [|email emails IH]; intros Hall;
    [reflexivity|].
  cbn [fold_left]. rewrite bool_decide_eq_true_2 by (apply Hall; now left).
  apply IH. intros e He. apply Hall. now right.
Qed.

Lemma add_shares_order (emails current : list string) :
  ∃ added,
    add_shares current emails = current ++ added
    ∧ NoDup added
    ∧ (∀ e, e ∈ added ↔ e ∈ emails ∧ e ∉ current)
    ∧ (∀ i j e1 e2,
         (i < j)%nat → added !! i = Some e1 → added !! j = Some e2 →
         ∃ k, emails !! k = Some e1 ∧ e2 ∉ take (S k) emails).
Proof.
  unfold add_shares. revert current.
  induction emails as [|email emails IH]; intros current.
  - exists []. rewrite app_nil_r. split_and!.
    + reflexivity.
    + constructor.
    + intros e. split; [intros H | intros [H _]]; inversion H.
    + intros i j e1 e2 _ H. now rewrite lookup_nil in H.
  - cbn [fold_left]. case_bool_decide as Hin.
    + destruct (IH current) as (added & Heq & Hnd & Hiff & Hord).
      exists added. split_and!; [exact Heq | exact Hnd | |].
      * intros e. rewrite Hiff, elem_of_cons. split; [tauto|].
        intros [[->|He] Hnot]; [contradiction | tauto].
      * intros i j e1 e2 Hij H1 H2.
        destruct (Hord i j e1 e2 Hij H1 H2) as (k & Hk & Hnot).
        exists (S k). split; [exact Hk|].
        rewrite firstn_cons. intros [->|He]%elem_of_cons; [|contradiction].
        apply list_elem_of_lookup_2, Hiff in H2. tauto.
    + destruct (IH (current ++ [email])) as (added & Heq & Hnd & Hiff & Hord).
      assert (Hfresh : ∀ e, e ∈ added → e ≠ email ∧ e ∉ current).
      { intros e [_ He]%Hiff. rewrite elem_of_app, list_elem_of_singleton in He.
        tauto. }
      exists (email :: added). split_and!.
      * rewrite Heq, <- app_assoc. reflexivity.
      * constructor; [|exact Hnd]. intros He. now destruct (Hfresh _ He).
      * intros e. rewrite !elem_of_cons, Hiff, elem_of_app,
          list_elem_of_singleton.
        destruct (decide (e = email)) as [->|Hne]; tauto.
      * intros [|i] [|j] e1 e2 Hij H1 H2; try lia.
        -- injection H1 as <-. exists 0%nat. split; [reflexivity|].
           change (take 1 (email :: emails)) with [email].
           rewrite list_elem_of_singleton.
           change ((email :: added) !! S j) with (added !! j) in H2.
           apply list_elem_of_lookup_2 in H2. now destruct (Hfresh _ H2).
        -- change ((email :: added) !! S i) with (added !! i) in H1.
           change ((email :: added) !! S j) with (added !! j) in H2.
           destruct (Hord i j e1 e2 ltac:(lia) H1 H2) as (k & Hk & Hnot).
           exists (S k). split; [exact Hk|].
           rewrite firstn_cons. intros [->|He]%elem_of_cons; [|contradiction].
           apply list_elem_of_lookup_2 in H2. now destruct (Hfresh _ H2).
Qed.

(** X9. Sharing a session adds to its share list, after the emails it
    already holds and in the order of the request, each requested email it
    does not hold yet, once: the emails added are exactly the requested ones
    the list did not hold, none of them twice, and of two of them the one
    added first is requested before the other is requested at all.  Nothing
    is dropped, a list without duplicates stays without, every requested
    email is on the list afterwards, and sharing the same emails again
    changes nothing.  Only the owner may share: anyone else, an admin
    included, is answered 403. *)
Theorem add_shares_merges (current emails : list string) :
  (∃ added,
     add_shares current emails = current ++ added
     ∧ (∀ e, e ∈ added → e ∈ emails ∧ e ∉ current)
     ∧ NoDup added
     ∧ (∀ e, e ∈ added ↔ e ∈ emails ∧ e ∉ current)
     ∧ (∀ i j e1 e2,
          (i < j)%nat → added !! i = Some e1 → added !! j = Some e2 →
          ∃ k, emails !! k = Some e1 ∧ e2 ∉ take (S k) emails))
  ∧ (NoDup current → NoDup (add_shares current emails))
  ∧ (∀ e, e ∈ emails → e ∈ add_shares current emails)
  ∧ add_shares (add_shares current emails) emails = add_shares current emails
  ∧ (∀ owner shares user,
       share_session (Some (owner, shares)) emails user
       = if String.eqb owner (User.email user)
         then Response (add_shares (default [] shares) emails)
         else HTTPException 403 "Only the owner can share sessions").
Proof.
  destruct (add_shares_spec emails current) as (added & Heq & Hnd & Hnew & Hall).
  destruct (add_shares_order emails current)
    as (added' & Heq' & Hnd' & Hiff & Hord).
  assert (added' = added) as -> by (rewrite Heq in Heq'; now apply app_inv_head in Heq').
  split_and!.
  - exists added. split_and!; assumption.
  - rewrite Heq. exact Hnd.
  - rewrite Heq. exact Hall.
  - apply add_shares_present. rewrite Heq. exact Hall.
  - intros owner shares user. unfold share_session.
    destruct (String.eqb owner (User.email user)); reflexivity.
Qed.

(** ** The status of a session, for units in any status *)

Lemma update_unchanged (session_id : string) (s : state) :
  query_session (db s) session_id = None
  ∨ filter (fun a => Analysis.session_id a = session_id) (analyses (db s)) = [] →
  _update_session_status session_id s = (Returns tt, s).
Proof.
  unfold _update_session_status. unfold_monad.
  intros [-> | Hrows]; [reflexivity|].
  destruct (query_session (db s) session_id) as [[i x]|]; [|reflexivity].
  now rewrite Hrows.
Qed.

(** X10. [_update_session_status], whatever the statuses of the units:
    it sets [failed] when every unit of the session is failed, [partial]
    when some unit but not every unit is failed (whether or not the others
    have finished), [completed] when every unit is completed, and leaves
    the status alone when no unit is failed and some unit is not completed
    yet; for a session that does not exist, or has no unit, it changes and
    commits nothing. *)
Theorem status_from_analyses_cases (rows : list Analysis.t) :
  let all st := Forall (fun a => Analysis.status a = st) rows in
  let some_failed := Exists (fun a => Analysis.status a = "failed") rows in
  (status_from_analyses rows = Some "failed" ↔ all "failed")
  ∧ (status_from_analyses rows = Some "partial"
     ↔ some_failed ∧ ¬ all "failed")
  ∧ (status_from_analyses rows = Some "completed"
     ↔ rows ≠ [] ∧ all "completed")
  ∧ (status_from_analyses rows = None
     ↔ ¬ some_failed ∧ ¬ all "completed")
  ∧ (∀ session_id s,
       query_session (db s) session_id = None
       ∨ filter (fun a => Analysis.session_id a = session_id) (analyses (db s))
         = [] →
       _update_session_status session_id s = (Returns tt, s)).
Proof.
  cbv zeta.
  set (pf := fun a => String.eqb (Analysis.status a) "failed").
  set (pc := fun a => String.eqb (Analysis.status a) "completed").
  set (F := Forall (fun a => Analysis.status a = "failed") rows).
  set (C := Forall (fun a => Analysis.status a = "completed") rows).
  set (E := Exists (fun a => Analysis.status a = "failed") rows).
  assert (Hf : count_if pf rows = length rows ↔ F).
  { rewrite count_if_all. apply Forall_proper; [|reflexivity].
    intros a. apply String.eqb_eq. }
  assert (Hc : count_if pc rows = length rows ↔ C).
  { rewrite count_if_all. apply Forall_proper; [|reflexivity].
    intros a. apply String.eqb_eq. }
  assert (Hz : count_if pf rows = 0%nat ↔ ¬ E).
  { rewrite count_if_none. unfold E. rewrite <- Forall_Exists_neg.
    apply Forall_proper; [|reflexivity]. intros a. apply String.eqb_neq. }
  assert (HE : E ∨ ¬ E) by (destruct (decide E); tauto).
  assert (HN : rows = [] ∨ rows ≠ []) by (destruct rows; [left | right]; congruence).
  assert (HFC : F → C → rows = []).
  { unfold F, C. destruct rows as [|a rows]; [reflexivity|].
    intros H1 H2. inversion H1; inversion H2; congruence. }
  assert (HNF : rows = [] → F ∧ C ∧ ¬ E).
  { intros ->. unfold F, C, E. split_and!; [constructor | constructor |].
    intros H. inversion H. }
  assert (HFE : F → rows ≠ [] → E).
  { unfold F, E. destruct rows as [|a rows]; [congruence|].
    intros H _. inversion H. now left. }
  assert (HEC : E → ¬ C).
  { unfold E, C. rewrite Exists_exists, Forall_forall.
    intros (a & Ha & Hst) Hall. specialize (Hall a Ha). congruence. }
  pose proof (count_if_le pf rows) as Hle.
  unfold status_from_analyses. cbv zeta. fold pf pc.
  destruct (Nat.eqb_spec (count_if pf rows) (length rows)) as [E1|E1];
    [apply Hf in E1
    |assert (¬ F) by (rewrite <- Hf; exact E1);
     destruct (Nat.ltb_spec 0 (count_if pf rows)) as [Hpos|Hzero];
       [assert E by (destruct HE as [|HnE]; [assumption | apply Hz in HnE; lia])
       |assert (¬ E) by (apply Hz; lia);
        destruct (Nat.eqb_spec (count_if pc rows) (length rows)) as [E2|E2];
          [apply Hc in E2 | assert (¬ C) by (rewrite <- Hc; exact E2)]]];
    clear Hf Hc Hz Hle;
    (split_and!;
       [split; intros; try discriminate; try reflexivity; tauto ..
       |intros session_id s; apply update_unchanged]).
Qed.

(** ** A job, from the first commit to the summary *)

Lemma unit_step_row (i : nat) (v : list (string * json) + py_exception)
    (s s' : state) (j : nat) (a' : Analysis.t) :
  unit_step i v s s' →
  analyses (db s') !! j = Some a' →
  (j = i ∧ terminal (Analysis.status a')) ∨ (j ≠ i ∧ analyses (db s) !! j = Some a').
Proof.
  intros (evs & _ & ->). cbn [db analyses with_analyses].
  destruct (decide (j = i)) as [->|Hne].
  - rewrite list_lookup_alter_eq. intros Ha. left. split; [reflexivity|].
    destruct (analyses (db s) !! i); inversion Ha. apply settled_terminal.
  - rewrite list_lookup_alter_ne by congruence. now right.
Qed.

Lemma units_run_terminal_kept (units : list (nat * PersonaProfile.t))
    (vs : list (list (string * json) + py_exception)) (s s' : state)
    (j : nat) (a' : Analysis.t) :
  units_run units vs s s' →
  analyses (db s') !! j = Some a' →
  terminal (Analysis.status a')
  ∨ ((j ∉ (fst <$> units)) ∧ analyses (db s) !! j = Some a').
Proof.
  induction 1 as [s|i persona units v vs s s' s'' Hstep _ IH]; intros Ha.
  - right. split; [apply not_elem_of_nil | exact Ha].
  - destruct (IH Ha) as [Hterm | [Hnot Hmid]]; [now left|].
    destruct (unit_step_row _ _ _ _ _ _ Hstep Hmid) as [[-> Hterm] | [Hne Hold]];
      [now left|].
    right. split; [|exact Hold]. rewrite fmap_cons. cbn [fst].
    intros [?|?]%elem_of_cons; [congruence | contradiction].
Qed.

Lemma units_run_trace (units : list (nat * PersonaProfile.t))
    (vs : list (list (string * json) + py_exception)) (s s' : state) :
  units_run units vs s s' → ∃ evs, trace s' = trace s ++ evs.
Proof.
  induction 1 as [s|i persona units v vs s s' s'' Hstep _ IH].
  - exists []. now rewrite app_nil_r.
  - destruct Hstep as (evs & _ & ->). destruct IH as [evs' ->]. cbn [trace].
    eexists. rewrite <- app_assoc. reflexivity.
Qed.

Lemma report_status_cases (persona : PersonaProfile.t)
    (v : list (string * json) + py_exception) :
  report_status (report persona v)
  = JStr (match v with inl _ => "completed" | inr _ => "failed" end).
Proof. destruct v; reflexivity. Qed.

Lemma reports_counts (units : list (nat * PersonaProfile.t))
    (vs : list (list (string * json) + py_exception)) :
  length vs = length units →
  let results := zip_with (fun u v => report (snd u) v) units vs in
  length results = length units
  ∧ (count_if (fun r => eq_str (dict_get r "status") "completed") results
     + count_if (fun r => eq_str (dict_get r "status") "failed") results
     = length units)%nat
  ∧ status_from_results results ∈ ["failed"; "partial"; "completed"].
Proof.
  intros Hlen. cbv zeta. split_and!.
  - rewrite length_zip_with. lia.
  - revert vs Hlen. induction units as [|u units IH]; intros [|v vs] Hlen;
      try discriminate; [reflexivity|].
    cbn [zip_with]. unfold count_if in *. cbn [List.filter].
    change (dict_get (report (snd u) v) "status")
      with (report_status (report (snd u) v)).
    rewrite report_status_cases. specialize (IH vs).
    destruct v; simpl; rewrite <- IH by (simpl in Hlen; lia); lia.
  - unfold status_from_results. cbv zeta.
    repeat match goal with |- context [if ?c then _ else _] => destruct c end;
      rewrite !elem_of_cons; tauto.
Qed.

Section JobRun.

Variable cfg : Settings.
Variable world : nat -> attempt.
Variable self : AnalysisService.

(** [analyze_document], for a session that exists and ids of which one
    resolves, in terms of the loop over its units. *)
Lemma analyze_document_eq (session_id document_text : string)
    (ids : list string) (sequential : bool) (s : state) (session : nat)
    (row : Session.t) :
  query_session (db s) session_id = Some (session, row) →
  resolved (db s) ids ≠ [] →
  let personas := resolved (db s) ids in
  let d1 := with_sessions (alter (Session.set_status "analyzing") session) (db s) in
  let d2 :=
    with_analyses (fun rows => rows ++ pending_rows session_id personas) d1 in
  analyze_document cfg world self session_id document_text ids sequential s
  = match for_each (run_unit cfg world self document_text)
            (job_units (db s) personas) []
            {| db := d2; trace := trace s ++ [Commit d1; Commit d2] |} with
    | (Returns results, s3) =>
        let d4 :=
          with_sessions
            (alter (Session.set_status (status_from_results results)) session)
            (db s3) in
        (Returns
           [("session_id", JStr session_id);
            ("total_personas", JNum (Z.of_nat (length personas)));
            ("completed",
             JNum (Z.of_nat
                     (count_if (fun r => eq_str (dict_get r "status") "completed")
                        results)));
            ("failed",
             JNum (Z.of_nat
                     (count_if (fun r => eq_str (dict_get r "status") "failed")
                        results)));
            ("results", JArr (JObj <$> results))],
         {| db := d4; trace := trace s3 ++ [Commit d4] |})
    | (Raises e, s3) => (Raises e, s3)
    end.
Proof.
  intros Hq Hne. cbv zeta. unfold analyze_document.
  unfold bind at 1, get_db. rewrite Hq.
  unfold bind at 1, update_session at 1, modify_db.
  unfold bind at 1, commit at 1. cbn [db trace].
  unfold bind at 1. rewrite resolve_personas_spec. cbn [db app].
  change (resolved (with_sessions _ (db s)) ids) with (resolved (db s) ids).
  destruct (resolved (db s) ids) as [|persona personas] eqn:Hres; [congruence|].
  unfold bind at 1. rewrite create_units_spec. unfold bind at 1, commit at 1.
  cbn [db trace]. unfold bind at 1.
  change (job_units (with_sessions _ (db s)) (persona :: personas))
    with (job_units (db s) (persona :: personas)).
  rewrite <- app_assoc. cbn [app].
  unfold _run_parallel_analyses, _run_sequential_analyses.
  destruct sequential;
    destruct (for_each _ _ _ _) as [[results|e] s3]; reflexivity.
Qed.

End JobRun.

(** X11. What an observer sees of a job whose session exists and of whose
    ids one resolves, before anything else: a commit that shows the session
    [analyzing] and no unit more than before, then a commit that shows
    every unit of the job, [pending], in the order of the ids; every
    process of the job is started after these two commits. *)
Theorem units_pending_before_any_evaluation (cfg : Settings)
    (world : nat -> attempt) (self : AnalysisService)
    (session_id document_text : string) (ids : list string)
    (sequential : bool) (s : state) (session : nat) (row : Session.t) :
  query_session (db s) session_id = Some (session, row) →
  resolvable (db s) ids ≠ [] →
  let r := analyze_document cfg world self session_id document_text ids
             sequential s in
  ∃ d1 d2 rest,
    trace (snd r) = trace s ++ Commit d1 :: Commit d2 :: rest
    ∧ query_session d1 session_id
      = Some (session, Session.set_status "analyzing" row)
    ∧ analyses d1 = analyses (db s)
    ∧ sessions d2 = sessions d1
    ∧ analyses d2
      = analyses (db s)
        ++ ((fun persona_id => Analysis.new session_id persona_id "pending")
              <$> resolvable (db s) ids).
Proof.
  intros Hq Hne. cbv zeta.
  assert (Hres : resolved (db s) ids ≠ []).
  { intros Hnil. apply Hne. now rewrite <- resolved_ids, Hnil. }
  pose proof (analyze_document_spec cfg world self session_id document_text ids
                sequential s session row Hq) as Hspec.
  cbv zeta in Hspec.
  destruct (resolved (db s) ids) as [|persona personas] eqn:Hr; [congruence|].
  destruct Hspec as (vs & s3 & Hrun & summary & -> & _).
  destruct (units_run_trace _ _ _ _ Hrun) as [evs Htr]. cbn [trace] in Htr.
  eexists _, _, _. split_and!.
  - cbn [snd trace]. rewrite Htr, <- !app_assoc. cbn [app]. reflexivity.
  - now apply (query_session_alter _ _ _ _ (Session.set_status "analyzing")
                 (fun _ => eq_refl)).
  - reflexivity.
  - reflexivity.
  - cbn [analyses with_analyses with_sessions]. f_equal.
    rewrite <- resolved_ids, Hr. unfold pending_rows.
    now rewrite <- list_fmap_compose.
Qed.

Lemma units_pending_before_any_evaluation_witness :
  ∃ d1 d2 rest,
    trace (snd (analyze_document settings always_succeeds claude_service "s1"
                  "launch copy" ["cto"; "nobody"; "ciso"] true sample_state))
    = Commit d1 :: Commit d2 :: rest
    ∧ Analysis.status <$> analyses d2 = ["pending"; "pending"]
    ∧ Analysis.persona_id <$> analyses d2 = ["cto"; "ciso"].
Proof.
  destruct (units_pending_before_any_evaluation settings always_succeeds
              claude_service "s1" "launch copy" ["cto"; "nobody"; "ciso"] true
              sample_state 0%nat sample_session)
    as (d1 & d2 & rest & Htr & _ & _ & _ & Hrows).
  - reflexivity.
  - vm_compute. discriminate.
  - exists d1, d2, rest. split; [exact Htr|]. rewrite Hrows. split; reflexivity.
Defined.

(** X12. When [analyze_document] returns, for a session that exists and ids
    of which one resolves: no unit the job created is left [pending] or
    [running]; the counts of the summary add up ([completed] plus [failed]
    is [total_personas], the number of reports); and the session holds the
    status computed from the reports, one of [failed], [partial] and
    [completed]. *)
Theorem job_summary_adds_up (cfg : Settings) (world : nat -> attempt)
    (self : AnalysisService) (session_id document_text : string)
    (ids : list string) (sequential : bool) (s : state) (session : nat)
    (row : Session.t) :
  query_session (db s) session_id = Some (session, row) →
  resolvable (db s) ids ≠ [] →
  let r := analyze_document cfg world self session_id document_text ids
             sequential s in
  ∃ summary results completed failed st,
    fst r = Returns summary
    ∧ dict_get summary "results" = JArr (JObj <$> results)
    ∧ dict_get summary "completed" = JNum (Z.of_nat completed)
    ∧ dict_get summary "failed" = JNum (Z.of_nat failed)
    ∧ dict_get summary "total_personas" = JNum (Z.of_nat (completed + failed))
    ∧ (completed + failed)%nat = length results
    ∧ length results = length (resolvable (db s) ids)
    ∧ st = status_from_results results
    ∧ st ∈ ["failed"; "partial"; "completed"]
    ∧ query_session (db (snd r)) session_id
      = Some (session, Session.set_status st row)
    ∧ ∀ i a, (length (analyses (db s)) <= i)%nat →
             analyses (db (snd r)) !! i = Some a →
             terminal (Analysis.status a).
Proof.
  intros Hq Hne. cbv zeta.
  assert (Hres : resolved (db s) ids ≠ []).
  { intros Hnil. apply Hne. now rewrite <- resolved_ids, Hnil. }
  rewrite (analyze_document_eq cfg world self session_id document_text ids
             sequential s session row Hq Hres). cbv zeta.
  set (personas := resolved (db s) ids).
  set (d1 := with_sessions (alter (Session.set_status "analyzing") session) (db s)).
  set (d2 := with_analyses _ d1).
  destruct (run_units_spec cfg world self document_text
              (job_units (db s) personas) []
              {| db := d2; trace := trace s ++ [Commit d1; Commit d2] |})
    as (vs & s3 & Hrun & ->).
  cbn [app fst snd db].
  destruct (units_run_keeps _ _ _ _ Hrun) as (Hlen & Hsess & _ & _).
  destruct (reports_counts _ _ Hlen) as (Hlr & Hsum & Hst). cbv zeta in *.
  set (results := zip_with _ _ vs) in *.
  assert (Hunits : length (job_units (db s) personas) = length personas).
  { rewrite <- (job_units_personas (db s) personas) at 2. now rewrite length_fmap. }
  eexists _, results, _, _, _.
  split_and!; try reflexivity.
  - cbn. rewrite Hsum, Hunits. reflexivity.
  - transitivity (length (job_units (db s) personas)); [exact Hsum | now symmetry].
  - transitivity (length (job_units (db s) personas)); [exact Hlr|].
    rewrite Hunits. unfold personas.
    now rewrite <- resolved_ids, length_fmap.
  - exact Hst.
  - apply (query_session_alter _ _ _ _ (Session.set_status "analyzing")
             (fun _ => eq_refl)) in Hq.
    assert (Hq3 : query_session (db s3) session_id
                  = Some (session, Session.set_status "analyzing" row)).
    { unfold query_session. rewrite Hsess. exact Hq. }
    exact (query_session_alter (db s3) _ _ _
             (Session.set_status (status_from_results results))
             (fun _ => eq_refl) Hq3).
  - intros i a Hi Ha. cbn [analyses with_sessions] in Ha.
    destruct (units_run_terminal_kept _ _ _ _ _ _ Hrun Ha) as [Hterm|[Hnot Hold]];
      [exact Hterm|].
    exfalso. apply Hnot. rewrite job_units_indices. apply elem_of_seq.
    apply lookup_lt_Some in Hold.
    cbn [db analyses with_analyses with_sessions d1] in Hold.
    unfold d2, d1, with_analyses, with_sessions in Hold. cbn [analyses] in Hold.
    rewrite length_app in Hold. unfold pending_rows in Hold.
    rewrite length_fmap in Hold. lia.
Qed.

Lemma job_summary_adds_up_witness :
  ∃ summary,
    fst (analyze_document settings (fails_then_succeeds TimesOut 3 sample_result)
           claude_service "s1" "launch copy" ["cto"; "ciso"] true sample_state)
    = Returns summary
    ∧ dict_get summary "total_personas" = JNum 2
    ∧ Session.status
        <$> sessions (db (snd (analyze_document settings
                                 (fails_then_succeeds TimesOut 3 sample_result)
                                 claude_service "s1" "launch copy"
                                 ["cto"; "ciso"] true sample_state)))
      = ["partial"].
Proof.
  destruct (job_summary_adds_up settings
              (fails_then_succeeds TimesOut 3 sample_result) claude_service
              "s1" "launch copy" ["cto"; "ciso"] true sample_state 0%nat
              sample_session)
    as (summary & results & completed & failed & st & Hret & _).
  - reflexivity.
  - vm_compute. discriminate.
  - exists summary. split; [exact Hret|].
    vm_compute in Hret. inversion Hret. split; reflexivity.
Defined.

(** ** A unit that fails *)

(** X13. When the evaluation of a unit raises, or returns something that is
    no dict, the executor leaves the unit [failed] with the message of the
    exception as its error message and the same message in its report; it
    leaves the three result columns and [completed_at] as they were; and it
    commits twice, the unit [running] and the unit [failed]: no commit
    shows the unit [completed]. *)
Theorem unit_failure_postcondition (cfg : Settings) (world : nat -> attempt)
    (self : AnalysisService) (document_text : string) (results : list dict)
    (s : state) (i : nat) (a : Analysis.t) (persona : PersonaProfile.t)
    (e : py_exception) :
  analyses (db s) !! i = Some a →
  let d1 := with_analyses (alter (Analysis.set_status "running") i) (db s) in
  verdict (fst (backend_run_analysis cfg world self
                  (PersonaProfile.profile_json persona) document_text
                  {| db := d1; trace := trace s ++ [Commit d1] |}))
  = inr e →
  let r := run_unit cfg world self document_text results (i, persona) s in
  fst r = Returns (results ++ [failed_report persona e])
  ∧ dict_get (failed_report persona e) "error" = JStr (exc_msg e)
  ∧ analyses (db (snd r)) !! i
    = Some (Analysis.set_error_message (Some (exc_msg e))
              (Analysis.set_status "failed" a))
  ∧ commits (trace (snd r)) = commits (trace s) ++ [d1; db (snd r)]
  ∧ analyses d1 !! i = Some (Analysis.set_status "running" a).
Proof.
  intros Ha d1 Hv. cbv zeta.
  pose proof (run_unit_spec cfg world self document_text results i persona s)
    as Hspec.
  cbv zeta in Hspec. fold d1 in Hspec. rewrite Hv in Hspec. rewrite Hspec.
  destruct (backend_run_analysis_frame cfg world self
              (PersonaProfile.profile_json persona) document_text
              {| db := d1; trace := trace s ++ [Commit d1] |})
    as (_ & evs & Htr & Hevs).
  cbn [fst snd db trace] in *. split_and!; try reflexivity.
  - cbn [analyses with_analyses]. now rewrite list_lookup_alter_eq, Ha.
  - rewrite Htr, !commits_app, Hevs. cbn. now rewrite app_nil_r, <- app_assoc.
  - unfold d1. cbn [analyses with_analyses]. now rewrite list_lookup_alter_eq, Ha.
Qed.

Lemma unit_failure_postcondition_witness :
  analyses (db (snd (run_unit settings (always TimesOut) claude_service
                       "launch copy" [] (0%nat, cto) pending_state)))
    !! 0%nat
  = Some (Analysis.set_error_message
            (Some "Analysis timed out after all retries")
            (Analysis.set_status "failed" (Analysis.new "s1" "cto" "pending"))).
Proof.
  exact (proj1 (proj2 (proj2
    (unit_failure_postcondition settings (always TimesOut) claude_service
       "launch copy" [] pending_state 0%nat (Analysis.new "s1" "cto" "pending")
       cto (mk_exc Exception "Analysis timed out after all retries")
       eq_refl eq_refl)))).
Defined.

(** ** A service without a working backend *)

Section NoBackend.

Variable cfg : Settings.
Variable world : nat -> attempt.
Variable self : AnalysisService.
Hypothesis Hself : backend self ≠ Some ClaudeCodeBackend.

(** What the call of [run_analysis] raises on such a service. *)
Let refusal : py_exception :=
  match backend self with
  | Some CodexBackend =>
      mk_exc NotImplementedError "Codex backend not yet implemented"
  | Some OpenCodeBackend =>
      mk_exc NotImplementedError "OpenCode backend not yet implemented"
  | _ => mk_exc AttributeError "'NoneType' object has no attribute 'run_analysis'"
  end.

Lemma backend_refuses (profile : json) (document_text : string) (s : state) :
  backend_run_analysis cfg world self profile document_text s
  = (Raises refusal, s).
Proof.
  unfold backend_run_analysis, refusal.
  destruct (backend self) as [[]|]; try reflexivity. congruence.
Qed.

Lemma run_units_refused (document_text : string)
    (units : list (nat * PersonaProfile.t)) (results : list dict) (s : state) :
  ∃ s',
    for_each (run_unit cfg world self document_text) units results s
    = (Returns (results ++ ((fun u => failed_report (snd u) refusal) <$> units)),
       s')
    ∧ spawn_count (trace s') = spawn_count (trace s)
    ∧ sessions (db s') = sessions (db s).
Proof.
  revert results s. induction units as [|[i persona] units IH]; intros results s.
  - exists s. simpl. now rewrite app_nil_r.
  - pose proof (run_unit_spec cfg world self document_text results i persona s)
      as Hspec.
    cbv zeta in Hspec. rewrite backend_refuses in Hspec.
    cbn [fst snd verdict report trace] in Hspec.
    cbn [for_each]. unfold bind. rewrite Hspec.
    destruct (IH (results ++ [failed_report persona refusal])
                {| db := with_analyses (alter (settled (inr refusal)) i) (db s);
                   trace := (trace s
                             ++ [Commit (with_analyses
                                           (alter (Analysis.set_status "running") i)
                                           (db s))])
                            ++ [Commit (with_analyses
                                          (alter (settled (inr refusal)) i)
                                          (db s))] |})
      as (s' & -> & Hspawn & Hsess).
    exists s'. split_and!.
    + rewrite fmap_cons, <- app_assoc. reflexivity.
    + rewrite Hspawn. cbn [trace]. rewrite !spawn_count_app.
      unfold spawn_count. simpl. lia.
    + rewrite Hsess. reflexivity.
Qed.

End NoBackend.

Lemma refused_reports_failed (e : py_exception)
    (units : list (nat * PersonaProfile.t)) :
  let results := (fun u => failed_report (snd u) e) <$> units in
  count_if (fun r => eq_str (dict_get r "status") "failed") results
  = length units
  ∧ count_if (fun r => eq_str (dict_get r "status") "completed") results
    = 0%nat
  ∧ length results = length units.
Proof.
  cbv zeta. rewrite !count_if_fmap, length_fmap. split_and!; [| |reflexivity].
  - apply count_if_all, Forall_forall. reflexivity.
  - apply count_if_none, Forall_forall. reflexivity.
Qed.

(** X14. On a service whose backend was never initialised, or is the Codex
    or the OpenCode backend (whose [run_analysis] only raises
    [NotImplementedError]), a job starts no process: every unit fails, the
    summary counts every persona as failed, and the session ends
    [failed]. *)
Theorem job_without_backend (cfg : Settings) (world : nat -> attempt)
    (self : AnalysisService) (session_id document_text : string)
    (ids : list string) (sequential : bool) (s : state) (session : nat)
    (row : Session.t) :
  backend self ≠ Some ClaudeCodeBackend →
  query_session (db s) session_id = Some (session, row) →
  resolvable (db s) ids ≠ [] →
  let r := analyze_document cfg world self session_id document_text ids
             sequential s in
  ∃ summary,
    fst r = Returns summary
    ∧ dict_get summary "completed" = JNum 0
    ∧ dict_get summary "failed"
      = JNum (Z.of_nat (length (resolvable (db s) ids)))
    ∧ query_session (db (snd r)) session_id
      = Some (session, Session.set_status "failed" row)
    ∧ spawn_count (trace (snd r)) = spawn_count (trace s).
Proof.
  intros Hself Hq Hne. cbv zeta.
  assert (Hres : resolved (db s) ids ≠ []).
  { intros Hnil. apply Hne. now rewrite <- resolved_ids, Hnil. }
  rewrite (analyze_document_eq cfg world self session_id document_text ids
             sequential s session row Hq Hres). cbv zeta.
  set (personas := resolved (db s) ids).
  set (d1 := with_sessions (alter (Session.set_status "analyzing") session) (db s)).
  set (d2 := with_analyses _ d1).
  destruct (run_units_refused cfg world self Hself document_text
              (job_units (db s) personas) []
              {| db := d2; trace := trace s ++ [Commit d1; Commit d2] |})
    as (s3 & -> & Hspawn & Hsess).
  cbn [app fst snd db trace].
  match goal with
  | |- context [(fun u => failed_report (snd u) ?e) <$> _] =>
      destruct (refused_reports_failed e (job_units (db s) personas))
        as (Hfailed & Hcompleted & Hlen)
  end.
  cbv zeta in Hfailed, Hcompleted, Hlen.
  assert (Hunits : length (job_units (db s) personas)
                   = length (resolvable (db s) ids)).
  { rewrite <- resolved_ids. fold personas. rewrite length_fmap.
    rewrite <- (job_units_personas (db s) personas) at 2.
    now rewrite length_fmap. }
  assert (Hpos : length (job_units (db s) personas) ≠ 0%nat).
  { rewrite Hunits. destruct (resolvable (db s) ids); [congruence | discriminate]. }
  eexists. split_and!; [reflexivity | | | |].
  - cbn. rewrite Hcompleted. reflexivity.
  - cbn. rewrite Hfailed, Hunits. reflexivity.
  - unfold status_from_results. rewrite Hfailed, Hlen, Nat.eqb_refl.
    apply (query_session_alter _ _ _ _ (Session.set_status "analyzing")
             (fun _ => eq_refl)) in Hq.
    assert (Hq3 : query_session (db s3) session_id
                  = Some (session, Session.set_status "analyzing" row)).
    { unfold query_session. rewrite Hsess. exact Hq. }
    exact (query_session_alter (db s3) _ _ _ (Session.set_status "failed")
             (fun _ => eq_refl) Hq3).
  - rewrite spawn_count_app, Hspawn. cbn [trace]. rewrite spawn_count_app.
    unfold spawn_count. simpl. lia.
Qed.

Lemma job_without_backend_witness :
  ∃ summary,
    fst (analyze_document settings always_succeeds
           {| backend := Some CodexBackend |} "s1" "launch copy"
           ["cto"; "ciso"] true sample_state) = Returns summary
    ∧ dict_get summary "failed" = JNum 2.
Proof.
  destruct (job_without_backend settings always_succeeds
              {| backend := Some CodexBackend |} "s1" "launch copy"
              ["cto"; "ciso"] true sample_state 0%nat sample_session)
    as (summary & Hret & _ & Hfailed & _).
  - discriminate.
  - reflexivity.
  - vm_compute. discriminate.
  - exists summary. split; [exact Hret | exact Hfailed].
Defined.

(** ** Custom personas and jobs *)

(** X15. A job resolves its persona ids without a user, so it resolves
    system personas only: every unit it creates is for a system persona,
    and a job whose ids all belong to custom personas, those of the owner of
    the session included, fails with
    [ValueError("No valid personas selected")] and creates no unit. *)
Theorem job_skips_custom_personas (cfg : Settings) (world : nat -> attempt)
    (self : AnalysisService) (session_id document_text : string)
    (ids : list string) (sequential : bool) (s : state) (session : nat)
    (row : Session.t) :
  query_session (db s) session_id = Some (session, row) →
  (∀ p, p ∈ persona_profiles (db s) → PersonaProfile.id p ∈ ids →
        PersonaProfile.is_system p = false) →
  let r := analyze_document cfg world self session_id document_text ids
             sequential s in
  fst r = Raises (mk_exc ValueError "No valid personas selected")
  ∧ analyses (db (snd r)) = analyses (db s)
  ∧ ∀ d persona_id persona,
      get_persona d persona_id None = Some persona →
      PersonaProfile.is_system persona = true.
Proof.
  intros Hq Hcustom. cbv zeta.
  assert (Hsys : ∀ d persona_id persona,
            get_persona d persona_id None = Some persona →
            PersonaProfile.is_system persona = true).
  { intros d persona_id persona (_ & _ & Hvis)%get_persona_visible.
    exact Hvis. }
  assert (Hnone : resolved (db s) ids = []).
  { apply resolved_nil, Forall_forall. intros id Hid.
    destruct (get_persona (db s) id None) as [persona|] eqn:E; [|reflexivity].
    pose proof (Hsys _ _ _ E) as Htrue.
    apply get_persona_visible in E as (Hin & Hpid & _).
    rewrite (Hcustom persona Hin) in Htrue; [discriminate|]. now rewrite Hpid. }
  pose proof (analyze_document_spec cfg world self session_id document_text
                ids sequential s session row Hq) as Hspec.
  cbv zeta in Hspec. rewrite Hnone in Hspec. rewrite Hspec.
  split_and!; [reflexivity | reflexivity | exact Hsys].
Qed.

Lemma job_skips_custom_personas_witness :
  get_persona (db custom_state) "intern" (Some "owner@example.com") = Some intern
  ∧ fst (analyze_document settings always_succeeds claude_service "s1"
           "launch copy" ["intern"] true custom_state)
    = Raises (mk_exc ValueError "No valid personas selected").
Proof.
  split; [reflexivity|].
  refine (proj1 (job_skips_custom_personas settings always_succeeds
                   claude_service "s1" "launch copy" ["intern"] true
                   custom_state 0%nat sample_session _ _)).
  - reflexivity.
  - intros p Hp Hid. apply list_elem_of_singleton in Hid.
    cbn in Hp. rewrite !elem_of_cons, elem_of_nil in Hp.
    destruct Hp as [-> | [-> | [-> | []]]]; [discriminate | discriminate|].
    reflexivity.
Defined.

(** ** A retry and the status of the session *)

(** X16. A retry that fails again leaves every session as it was.  A retry
    that succeeds brings the status of its session up to date from all the
    units the session has, those of earlier jobs included: the status
    becomes what [_update_session_status] computes from them, [completed]
    when every one of them is completed. *)
Theorem retry_updates_session_status (cfg : Settings) (world : nat -> attempt)
    (self : AnalysisService) (session_id persona_id document_text : string)
    (s : state) (i : nat) (row : Analysis.t) (persona : PersonaProfile.t)
    (session : nat) (session_row : Session.t) :
  query_analysis (db s) session_id persona_id = Some (i, row) →
  Analysis.status row = "failed" →
  get_persona (db s) persona_id None = Some persona →
  query_session (db s) session_id = Some (session, session_row) →
  let d1 := with_analyses (alter reset i) (db s) in
  let v := verdict (fst (backend_run_analysis cfg world self
                           (PersonaProfile.profile_json persona) document_text
                           {| db := d1; trace := trace s ++ [Commit d1] |})) in
  let r := retry_failed_analysis cfg world self session_id persona_id
             document_text s in
  let units :=
    filter (fun a => Analysis.session_id a = session_id)
      (analyses (db (snd r))) in
  match v with
  | inr _ => sessions (db (snd r)) = sessions (db s)
  | inl _ =>
      query_session (db (snd r)) session_id
      = Some (session,
              match status_from_analyses units with
              | Some st => Session.set_status st session_row
              | None => session_row
              end)
      ∧ (Forall (fun a => Analysis.status a = "completed") units →
         query_session (db (snd r)) session_id
         = Some (session, Session.set_status "completed" session_row))
  end.
Proof.
  intros Hq Hst Hp Hs. cbv zeta.
  rewrite (retry_failed_analysis_spec cfg world self session_id persona_id
             document_text s i row persona Hq Hst Hp).
  set (v := verdict _).
  destruct v as [fields|e]; [|reflexivity]. cbn [fst snd].
  set (d2 := with_analyses (alter (settled (inl fields) ∘ reset) i) (db s)).
  match goal with
  | |- context [_update_session_status session_id ?st] => set (s2 := st)
  end.
  assert (Hd2 : db s2 = d2) by reflexivity.
  assert (Hrows : analyses (db (snd (_update_session_status session_id s2)))
                  = analyses d2).
  { destruct (_update_session_status_returns session_id s2) as (s3 & -> & H & _).
    exact H. }
  assert (Hq2 : query_session d2 session_id = Some (session, session_row))
    by exact Hs.
  assert (Hin : filter (fun a => Analysis.session_id a = session_id) (analyses d2)
                ≠ []).
  { pose proof (query_analysis_Some _ _ _ _ _ Hq) as Hrow.
    unfold query_analysis in Hq. apply list_find_Some in Hq as (_ & [Hsid _] & _).
    assert (Hmem : settled (inl fields) (reset row)
                   ∈ filter (fun a => Analysis.session_id a = session_id)
                       (analyses d2)).
    { apply list_elem_of_filter. split; [exact Hsid|].
      apply list_elem_of_lookup. exists i. cbn [d2 analyses with_analyses].
      unfold d2. cbn [analyses with_analyses].
      now rewrite list_lookup_alter_eq, Hrow. }
    intros Hnil. rewrite Hnil in Hmem. now apply elem_of_nil in Hmem. }
  assert (Hfinal :
    query_session (db (snd (_update_session_status session_id s2))) session_id
    = Some (session,
            match status_from_analyses
                    (filter (fun a => Analysis.session_id a = session_id)
                       (analyses d2)) with
            | Some st => Session.set_status st session_row
            | None => session_row
            end)).
  { rewrite _update_session_status_db, Hd2, Hq2. cbv zeta.
    destruct (filter _ (analyses d2)) as [|a rows] eqn:Hf; [congruence|].
    destruct (status_from_analyses (a :: rows)) as [st|]; [|exact Hq2].
    exact (query_session_alter d2 _ _ _ (Session.set_status st)
             (fun _ => eq_refl) Hq2). }
  rewrite Hrows. split; [exact Hfinal|].
  intros Hall. rewrite Hfinal.
  rewrite (status_from_analyses_terminal _ Hin)
    by (eapply Forall_impl; [exact Hall|]; intros a Ha; now left).
  rewrite decide_False by (intros Hf; now apply
                             (all_failed_not_all_completed _ Hin Hf)).
  now rewrite decide_True by exact Hall.
Qed.

Lemma retry_updates_session_status_witness :
  Session.status
    <$> sessions (db (snd (retry_failed_analysis settings always_succeeds
                             claude_service "s1" "cto" "launch copy"
                             failed_state)))
  = ["partial"]
  ∧ ∃ row,
      query_session
        (db (snd (retry_failed_analysis settings always_succeeds claude_service
                    "s1" "cto" "launch copy" failed_state))) "s1"
      = Some (0%nat, row).
Proof.
  split; [vm_compute; reflexivity|].
  pose proof (retry_updates_session_status settings always_succeeds
                claude_service "s1" "cto" "launch copy" failed_state 0%nat
                (Analysis.set_error_message
                   (Some "Analysis timed out after all retries")
                   (Analysis.set_status "failed"
                      (Analysis.new "s1" "cto" "pending")))
                cto 0%nat (Session.set_status "failed" sample_session)
                eq_refl eq_refl eq_refl eq_refl) as H.
  cbv zeta in H.
  change (verdict _) with
    (@inl (list (string * json)) py_exception
       [("persona_role", JStr "CTO");
        ("overall_score", JNum 7);
        ("dimension_scores", JObj [("relevance", JObj [("score", JNum 7)])]);
        ("top_3_issues", JArr [JObj [("issue", JStr "vague")]]);
        ("what_works_well", JArr [JStr "tone"]);
        ("overall_verdict", JStr "yes");
        ("rewritten_headline_suggestion", JStr "Ship faster")]) in H.
  destruct H as [H _]. eexists. exact H.
Defined.

(** ** One unit at a time *)

Lemma count_if_alter_le {A} (p : A -> bool) (f : A -> A) (i : nat) (l : list A) :
  (count_if p (alter f i l) <= S (count_if p l))%nat
  ∧ ((∀ x, p (f x) = false) → (count_if p (alter f i l) <= count_if p l)%nat).
Proof.
  unfold count_if. revert i. induction l as [|x l IH]; intros i.
  - simpl. split; intros; lia.
  - destruct i as [|i]; cbn [alter list_alter List.filter].
    + split.
      * destruct (p (f x)), (p x); simpl; lia.
      * intros Hf. rewrite Hf. destruct (p x); simpl; lia.
    + destruct (IH i) as [IH1 IH2]. change (list_alter f i l) with (alter f i l).
      split.
      * destruct (p x); simpl; [apply le_n_S|]; exact IH1.
      * intros Hf. specialize (IH2 Hf).
        destruct (p x); simpl; [apply le_n_S|]; exact IH2.
Qed.

Lemma unit_step_running (i : nat) (v : list (string * json) + py_exception)
    (s s' : state) :
  unit_step i v s s' →
  running_units (db s) = 0%nat →
  running_units (db s') = 0%nat
  ∧ ∃ evs, trace s' = trace s ++ evs
           ∧ Forall (fun d => (running_units d <= 1)%nat) (commits evs).
Proof.
  intros (evs & Hevs & ->) Hzero. unfold running_units in *.
  cbn [db trace analyses with_analyses].
  set (p := fun a => String.eqb (Analysis.status a) "running") in *.
  assert (H2 : count_if p (alter (settled v) i (analyses (db s))) = 0%nat).
  { destruct (count_if_alter_le p (settled v) i (analyses (db s))) as [_ H].
    assert (∀ x, p (settled v x) = false) by (intros x; now destruct v).
    specialize (H H0). lia. }
  split; [exact H2|].
  eexists. split; [reflexivity|].
  cbn [commits]. rewrite commits_app, Hevs. cbn [app commits].
  constructor; [|constructor; [|constructor]].
  - eapply Nat.le_trans;
      [exact (proj1 (count_if_alter_le p (Analysis.set_status "running") i
                       (analyses (db s))))|].
    rewrite Hzero. apply le_n.
  - eapply Nat.le_trans; [apply Nat.eq_le_incl; exact H2 | apply Nat.le_0_l].
Qed.

Lemma units_run_running (units : list (nat * PersonaProfile.t))
    (vs : list (list (string * json) + py_exception)) (s s' : state) :
  units_run units vs s s' →
  running_units (db s) = 0%nat →
  running_units (db s') = 0%nat
  ∧ ∃ evs, trace s' = trace s ++ evs
           ∧ Forall (fun d => (running_units d <= 1)%nat) (commits evs).
Proof.
  induction 1 as [s|i persona units v vs s s' s'' Hstep _ IH]; intros Hzero.
  - split; [exact Hzero|]. exists []. rewrite app_nil_r. split; constructor.
  - destruct (unit_step_running _ _ _ _ Hstep Hzero) as (H1 & evs1 & Ht1 & Hc1).
    destruct (IH H1) as (H2 & evs2 & Ht2 & Hc2).
    split; [exact H2|]. exists (evs1 ++ evs2).
    split; [now rewrite Ht2, Ht1, <- app_assoc|].
    rewrite commits_app. apply Forall_app. now split.
Qed.

Lemma pending_rows_not_running (session_id : string)
    (personas : list PersonaProfile.t) :
  count_if (fun a => String.eqb (Analysis.status a) "running")
    (pending_rows session_id personas) = 0%nat.
Proof.
  apply count_if_none. unfold pending_rows.
  apply Forall_fmap, Forall_forall. reflexivity.
Qed.

(** X17. A job runs its units one at a time: when no unit is running as
    the job starts, no snapshot the job commits shows more than one unit
    running, and none is running when [analyze_document] is done. *)
Theorem one_unit_at_a_time (cfg : Settings) (world : nat -> attempt)
    (self : AnalysisService) (session_id document_text : string)
    (ids : list string) (sequential : bool) (s : state) :
  running_units (db s) = 0%nat →
  let r := analyze_document cfg world self session_id document_text ids
             sequential s in
  running_units (db (snd r)) = 0%nat
  ∧ ∃ evs, trace (snd r) = trace s ++ evs
           ∧ Forall (fun d => (running_units d <= 1)%nat) (commits evs).
Proof.
  intros Hzero. cbv zeta.
  destruct (query_session (db s) session_id) as [[session row]|] eqn:Hq.
  - pose proof (analyze_document_spec cfg world self session_id document_text
                  ids sequential s session row Hq) as Hspec.
    cbv zeta in Hspec.
    assert (Hle : (running_units (db s) <= 1)%nat) by lia.
    destruct (resolved (db s) ids) as [|persona personas] eqn:Hres.
    + rewrite Hspec. cbn [snd db trace]. split; [exact Hzero|].
      eexists. split; [reflexivity|]. cbn [commits].
      constructor; [exact Hle | constructor; [exact Hle | constructor]].
    + destruct Hspec as (vs & s3 & Hrun & summary & -> & _).
      assert (Hz2 : running_units
                      (with_analyses
                         (fun rows => rows
                            ++ pending_rows session_id (persona :: personas))
                         (with_sessions
                            (alter (Session.set_status "analyzing") session)
                            (db s))) = 0%nat).
      { pose proof (pending_rows_not_running session_id (persona :: personas))
          as Hpending.
        unfold running_units, count_if in *.
        cbn [analyses with_analyses with_sessions].
        rewrite List.filter_app, length_app, Hzero. exact Hpending. }
      destruct (units_run_running _ _ _ _ Hrun Hz2) as (H3 & evs & Htr & Hc).
      cbn [snd db trace]. split; [exact H3|].
      cbn [trace] in Htr. rewrite Htr.
      eexists. rewrite <- !app_assoc. split; [reflexivity|].
      cbn [app commits]. rewrite commits_app. cbn [commits].
      constructor; [exact Hle|]. constructor; [unfold running_units in *; lia|].
      apply Forall_app. split; [exact Hc|].
      constructor; [|constructor]. unfold running_units in *.
      cbn [analyses with_sessions]. lia.
  - replace (snd (analyze_document cfg world self session_id document_text ids
                    sequential s)) with s.
    + split; [exact Hzero|]. exists []. rewrite app_nil_r. split; constructor.
    + unfold analyze_document. unfold bind at 1, get_db. now rewrite Hq.
Qed.

Lemma one_unit_at_a_time_witness :
  running_units
    (db (snd (analyze_document settings always_succeeds claude_service "s1"
                "launch copy" ["cto"; "ciso"] true sample_state)))
  = 0%nat.
Proof.
  exact (proj1 (one_unit_at_a_time settings always_succeeds claude_service "s1"
                  "launch copy" ["cto"; "ciso"] true sample_state eq_refl)).
Defined.
